(** * Sales analytics route: a shallow embedding and its verified properties

    The development follows [src/app/api/sales/analytics/route.ts].  It is
    organised in layers, leaves first:

    - [JSNumber]: the numbers the handler computes with, as exact rationals;
    - [ESDate]: the ECMAScript [Date] arithmetic the handler and date-fns
      rest on (ECMA-262, section "Date Objects");
    - [DateFns]: the date-fns helpers imported by the route;
    - [Route]: [getDateRange], [generateTrendDataPoints] and the body of
      [GET];
    - [Binary64] and [Route64]: binary64 numbers, and the arithmetic of
      [GET] on them.

    Modelling conventions.

    - Instants are integers: milliseconds since the epoch, as [Date.getTime]
      returns them.  The local time zone of the server is a parameter
      ([Zone]): any zone at a constant offset from UTC, that is, without
      daylight-saving transitions.
    - Amounts are modelled twice.  In [JSNumber] and [Route] they are exact
      rationals ([Qc]) and arithmetic on them is exact: binary64 rounding
      and overflow are left out, and what is kept of IEEE 754 are the
      special values a division can produce ([NaN], [+Infinity],
      [-Infinity]) and the way they propagate.  Statements that add amounts
      up are statements about exact sums and say so.  In [Binary64] and
      [Route64] the amounts are binary64 numbers with the operations of the
      engine; the metrics and the fill loop are embedded there once more,
      for what holds of every amount the column can hold and for the inputs
      on which rounding or overflow shows.
    - The handler reads the clock twice: in [getDateRange], and again in
      [generateTrendDataPoints] after the queries.  [analyticsAt] keeps the
      two readings apart; [analytics] is the case where both give the same
      instant, which covers every request but one for the timeframe Month
      handled across the end of a month.
    - The query parameters [start] and [end] are the instants [new Date]
      parses them to; a parameter that is absent or empty is [None].
    - date-fns is modelled after the sources of its version 3, with the
      default options (weeks start on Sunday, English labels). *)

From Stdlib Require Import ZArith Lia Bool List String Ascii.
From Stdlib Require Import QArith Qcanon DecimalString.
From Stdlib Require Import Permutation Sorted FinFun.
From Stdlib Require Floats Uint63.
Import ListNotations.

Local Open Scope Z_scope.

(* ================================================================== *)
(** ** JavaScript numbers *)
(* ================================================================== *)

Module JSNumber.

(** A number is a finite rational or one of the three IEEE special values.
    Signed zeros are not distinguished. *)
Inductive num : Type :=
| Fin (q : Qc)
| PInf
| NInf
| NaN.

Definition zero : num := Fin 0%Qc.
Definition of_Z (z : Z) : num := Fin (Q2Qc (inject_Z z)).

Definition isFinite (x : num) : bool :=
  match x with Fin _ => true | _ => false end.

Definition Qc_pos (q : Qc) : bool :=
  match (0 ?= q)%Qc with Lt => true | _ => false end.
Definition Qc_neg (q : Qc) : bool :=
  match (q ?= 0)%Qc with Lt => true | _ => false end.
Definition Qc_is0 (q : Qc) : bool := Qeq_bool q 0.

Definition neg (x : num) : num :=
  match x with
  | Fin q => Fin (- q)%Qc
  | PInf => NInf
  | NInf => PInf
  | NaN => NaN
  end.

(** [x + y] *)
Definition add (x y : num) : num :=
  match x, y with
  | NaN, _ | _, NaN => NaN
  | Fin a, Fin b => Fin (a + b)%Qc
  | PInf, NInf | NInf, PInf => NaN
  | PInf, _ | _, PInf => PInf
  | NInf, _ | _, NInf => NInf
  end.

(** [x - y] *)
Definition sub (x y : num) : num := add x (neg y).

(** The infinity with the sign of [q], for [q <> 0]. *)
Definition signed_inf (positive : bool) : num :=
  if positive then PInf else NInf.

(** [x * y] *)
Definition mul (x y : num) : num :=
  match x, y with
  | NaN, _ | _, NaN => NaN
  | Fin a, Fin b => Fin (a * b)%Qc
  | Fin a, PInf | PInf, Fin a =>
      if Qc_is0 a then NaN else signed_inf (Qc_pos a)
  | Fin a, NInf | NInf, Fin a =>
      if Qc_is0 a then NaN else signed_inf (Qc_neg a)
  | PInf, PInf | NInf, NInf => PInf
  | PInf, NInf | NInf, PInf => NInf
  end.

(** [x / y]: a zero divisor gives [NaN] for a zero dividend and an infinity
    otherwise. *)
Definition div (x y : num) : num :=
  match x, y with
  | NaN, _ | _, NaN => NaN
  | Fin a, Fin b =>
      if Qc_is0 b then
        (if Qc_is0 a then NaN else signed_inf (Qc_pos a))
      else Fin (a / b)%Qc
  | Fin _, (PInf | NInf) => zero
  | (PInf | NInf), (PInf | NInf) => NaN
  | PInf, Fin b => signed_inf (negb (Qc_neg b))
  | NInf, Fin b => signed_inf (Qc_neg b)
  end.

(** [x > y]; every comparison with [NaN] is false. *)
Definition gt (x y : num) : bool :=
  match x, y with
  | NaN, _ | _, NaN => false
  | Fin a, Fin b => match (b ?= a)%Qc with Lt => true | _ => false end
  | PInf, PInf => false
  | PInf, _ => true
  | _, PInf => false
  | NInf, _ => false
  | Fin _, NInf => true
  end.

(** [!x]: a number is falsy when it is zero or [NaN]. *)
Definition falsy (x : num) : bool :=
  match x with
  | Fin q => Qc_is0 q
  | NaN => true
  | _ => false
  end.

(** [x || 0] *)
Definition or0 (x : num) : num := if falsy x then zero else x.

End JSNumber.

(* ================================================================== *)
(** ** JavaScript numbers as the engine holds them *)
(* ================================================================== *)

Module Binary64.
Import PrimFloat.

(** A number is an IEEE 754 binary64 value: every operation rounds to the
    nearest representable value and overflows to an infinity. *)
Definition num : Set := float.

Definition zero : num := 0%float.

Definition add (x y : num) : num := (x + y)%float.
Definition sub (x y : num) : num := (x - y)%float.
Definition mul (x y : num) : num := (x * y)%float.
Definition div (x y : num) : num := (x / y)%float.

(** [x > y]; every comparison with [NaN] is false. *)
Definition gt (x y : num) : bool := (y <? x)%float.

(** [x === y] on numbers: [NaN] differs from itself, the two zeros are
    equal. *)
Definition same (x y : num) : bool := (x =? y)%float.

(** [!x]: a number is falsy when it is zero or [NaN]. *)
Definition falsy (x : num) : bool := is_zero x || is_nan x.

(** [x || 0] *)
Definition or0 (x : num) : num := if falsy x then zero else x.

(** A count, such as [transactions.length], as a number; a count is far
    below 2^53 and has an exact binary64 value. *)
Definition of_Z (z : Z) : num := of_uint63 (Uint63.of_Z z).

(** [Number.isFinite] *)
Definition isFinite (x : num) : bool := is_finite x.

End Binary64.

(* ================================================================== *)
(** ** ECMAScript dates (ECMA-262, Date Objects) *)
(* ================================================================== *)

Module ESDate.

Definition msPerSecond : Z := 1000.
Definition msPerMinute : Z := 60000.
Definition msPerHour : Z := 3600000.
Definition msPerDay : Z := 86400000.

(** Day(t) and TimeWithinDay(t) *)
Definition Day (t : Z) : Z := t / msPerDay.
Definition TimeWithinDay (t : Z) : Z := t mod msPerDay.

(** DaysInYear(y), through the leap-year rule *)
Definition isLeapYear (y : Z) : bool :=
  (y mod 4 =? 0) && (negb (y mod 100 =? 0) || (y mod 400 =? 0)).
Definition DaysInYear (y : Z) : Z := if isLeapYear y then 366 else 365.

(** DayFromYear(y): the day number of the first day of year [y] *)
Definition DayFromYear (y : Z) : Z :=
  365 * (y - 1970) + (y - 1969) / 4 - (y - 1901) / 100 + (y - 1601) / 400.

(** YearFromTime: the largest [y] with [DayFromYear y <= n].  A first guess
    from the mean length of a year is off by at most one. *)
Definition YearFromDay (n : Z) : Z :=
  let y0 := 1970 + (n * 400) / 146097 in
  if DayFromYear (y0 + 1) <=? n then y0 + 1
  else if n <? DayFromYear y0 then y0 - 1
  else y0.

(** The leap flag of a year: 1 in a leap year, 0 otherwise *)
Definition leapFlag (y : Z) : Z := if isLeapYear y then 1 else 0.

Definition DayWithinYear (n : Z) : Z := n - DayFromYear (YearFromDay n).
Definition InLeapYear (n : Z) : Z := leapFlag (YearFromDay n).

(** The day within the year on which month [m] (0..11) starts; [m = 12]
    gives the length of the year. *)
Definition monthStart (leap m : Z) : Z :=
  match m with
  | 0 => 0
  | 1 => 31
  | 2 => 59 + leap
  | 3 => 90 + leap
  | 4 => 120 + leap
  | 5 => 151 + leap
  | 6 => 181 + leap
  | 7 => 212 + leap
  | 8 => 243 + leap
  | 9 => 273 + leap
  | 10 => 304 + leap
  | 11 => 334 + leap
  | _ => 365 + leap
  end.

(** The length of month [m] (0..11) of year [y] *)
Definition daysInMonth (y m : Z) : Z :=
  monthStart (leapFlag y) (m + 1) - monthStart (leapFlag y) m.

(** MonthFromTime, on day numbers *)
Definition MonthFromDay (n : Z) : Z :=
  let d := DayWithinYear n in
  let l := InLeapYear n in
  if d <? 31 then 0
  else if d <? 59 + l then 1
  else if d <? 90 + l then 2
  else if d <? 120 + l then 3
  else if d <? 151 + l then 4
  else if d <? 181 + l then 5
  else if d <? 212 + l then 6
  else if d <? 243 + l then 7
  else if d <? 273 + l then 8
  else if d <? 304 + l then 9
  else if d <? 334 + l then 10
  else 11.

(** DateFromTime, on day numbers: the day of the month, from 1 *)
Definition DateFromDay (n : Z) : Z :=
  DayWithinYear n - monthStart (InLeapYear n) (MonthFromDay n) + 1.

(** WeekDay(t): 0 is Sunday; the epoch was a Thursday *)
Definition WeekDay (t : Z) : Z := (Day t + 4) mod 7.

Definition HourFromTime (t : Z) : Z := (t / msPerHour) mod 24.

(** MakeTime, MakeDay, MakeDate *)
Definition MakeTime (hour min sec ms : Z) : Z :=
  hour * msPerHour + min * msPerMinute + sec * msPerSecond + ms.

Definition MakeDay (year month date : Z) : Z :=
  let ym := year + month / 12 in
  let mn := month mod 12 in
  DayFromYear ym + monthStart (leapFlag ym) mn + date - 1.

Definition MakeDate (day time : Z) : Z := day * msPerDay + time.

(** *** Local time *)

(** The local time zone: its offset from UTC in milliseconds (LocalTZA),
    the same at every instant and shorter than a day. *)
Class Zone : Type := mkZone {
  LocalTZA : Z;
  LocalTZA_bound : - msPerDay < LocalTZA < msPerDay
}.

(** India Standard Time: UTC+05:30 all year *)
Definition ist : Zone.
Proof. refine (mkZone 19800000 _). unfold msPerDay. split; reflexivity. Defined.

Section LocalZone.
Context {zone : Zone}.

(** LocalTime(t) and UTC(t) *)
Definition LocalTime (t : Z) : Z := t + LocalTZA.
Definition UTC (t : Z) : Z := t - LocalTZA.

(** *** Methods of [Date.prototype] *)

Definition getFullYear (t : Z) : Z := YearFromDay (Day (LocalTime t)).
Definition getMonth (t : Z) : Z := MonthFromDay (Day (LocalTime t)).
Definition getDate (t : Z) : Z := DateFromDay (Day (LocalTime t)).
Definition getDay (t : Z) : Z := WeekDay (LocalTime t).
Definition getHours (t : Z) : Z := HourFromTime (LocalTime t).

Definition setHours (t hour min sec ms : Z) : Z :=
  UTC (MakeDate (Day (LocalTime t)) (MakeTime hour min sec ms)).

Definition setDate (t dt : Z) : Z :=
  UTC (MakeDate (MakeDay (getFullYear t) (getMonth t) dt)
                (TimeWithinDay (LocalTime t))).

Definition setMonth (t month dt : Z) : Z :=
  UTC (MakeDate (MakeDay (getFullYear t) month dt)
                (TimeWithinDay (LocalTime t))).

Definition setFullYear (t year month dt : Z) : Z :=
  UTC (MakeDate (MakeDay year month dt) (TimeWithinDay (LocalTime t))).

(** [new Date(year, month, date)]: a year in 0..99 means 1900 + year *)
Definition newDate (year month date : Z) : Z :=
  let yr := if (0 <=? year) && (year <=? 99) then 1900 + year else year in
  UTC (MakeDate (MakeDay yr month date) 0).

End LocalZone.

End ESDate.

(* ================================================================== *)
(** ** date-fns helpers imported by the route *)
(* ================================================================== *)

Module DateFns.
Import ESDate.

Section LocalZone.
Context {zone : Zone}.

Definition startOfDay (d : Z) : Z := setHours d 0 0 0 0.
Definition endOfDay (d : Z) : Z := setHours d 23 59 59 999.

(** [startOfWeek] and [endOfWeek] with the default [weekStartsOn = 0] *)
Definition weekStartsOn : Z := 0.

Definition startOfWeek (d : Z) : Z :=
  let day := getDay d in
  let diff := (if day <? weekStartsOn then 7 else 0) + day - weekStartsOn in
  setHours (setDate d (getDate d - diff)) 0 0 0 0.

Definition endOfWeek (d : Z) : Z :=
  let day := getDay d in
  let diff := (if day <? weekStartsOn then -7 else 0) + 6 - (day - weekStartsOn) in
  setHours (setDate d (getDate d + diff)) 23 59 59 999.

Definition startOfMonth (d : Z) : Z := setHours (setDate d 1) 0 0 0 0.

Definition endOfMonth (d : Z) : Z :=
  let month := getMonth d in
  setHours (setFullYear d (getFullYear d) (month + 1) 0) 23 59 59 999.

Definition startOfYear (d : Z) : Z :=
  setHours (setFullYear 0 (getFullYear d) 0 1) 0 0 0 0.

Definition endOfYear (d : Z) : Z :=
  let year := getFullYear d in
  setHours (setFullYear d (year + 1) 0 0) 23 59 59 999.

Definition addDays (d amount : Z) : Z :=
  if amount =? 0 then d else setDate d (getDate d + amount).

Definition subDays (d amount : Z) : Z := addDays d (- amount).

(** [addMonths] keeps the day of the month unless the target month is
    shorter, in which case it stops at that month's last day. *)
Definition addMonths (d amount : Z) : Z :=
  if amount =? 0 then d
  else
    let dayOfMonth := getDate d in
    let endOfDesiredMonth := setMonth d (getMonth d + amount + 1) 0 in
    let daysInMonth := getDate endOfDesiredMonth in
    if daysInMonth <=? dayOfMonth then endOfDesiredMonth
    else setFullYear d (getFullYear endOfDesiredMonth)
                       (getMonth endOfDesiredMonth) dayOfMonth.

Definition subMonths (d amount : Z) : Z := addMonths d (- amount).
Definition addYears (d amount : Z) : Z := addMonths d (amount * 12).
Definition subYears (d amount : Z) : Z := addYears d (- amount).

(** The loop of [eachDayOfInterval]: push the current day, step to the next
    midnight, until the end is passed. *)
Fixpoint eachDay_loop (fuel : nat) (currentDate endTime : Z) : list Z :=
  match fuel with
  | O => []
  | S fuel' =>
      if currentDate <=? endTime then
        currentDate ::
          eachDay_loop fuel'
            (setHours (setDate currentDate (getDate currentDate + 1)) 0 0 0 0)
            endTime
      else []
  end.

(** [eachDayOfInterval({start, end})].  Every iteration advances by one day,
    so the number of days between the two ends bounds the iterations. *)
Definition eachDayOfInterval (start_ end_ : Z) : list Z :=
  let reversed := end_ <? start_ in
  let endTime := if reversed then start_ else end_ in
  let currentDate := setHours (if reversed then end_ else start_) 0 0 0 0 in
  let fuel := Z.to_nat ((endTime - currentDate) / msPerDay + 1) in
  let dates := eachDay_loop fuel currentDate endTime in
  if reversed then rev dates else dates.

Fixpoint eachMonth_loop (fuel : nat) (currentDate endTime : Z) : list Z :=
  match fuel with
  | O => []
  | S fuel' =>
      if currentDate <=? endTime then
        currentDate ::
          eachMonth_loop fuel'
            (setMonth currentDate (getMonth currentDate + 1) (getDate currentDate))
            endTime
      else []
  end.

(** [eachMonthOfInterval({start, end})].  Every iteration advances by a
    month, which is at least 28 days. *)
Definition eachMonthOfInterval (start_ end_ : Z) : list Z :=
  let reversed := end_ <? start_ in
  let endTime := if reversed then start_ else end_ in
  let currentDate :=
    setDate (setHours (if reversed then end_ else start_) 0 0 0 0) 1 in
  let fuel := Z.to_nat ((endTime - currentDate) / (28 * msPerDay) + 1) in
  let dates := eachMonth_loop fuel currentDate endTime in
  if reversed then rev dates else dates.

Definition isSameDay (a b : Z) : bool := startOfDay a =? startOfDay b.

Definition isSameMonth (a b : Z) : bool :=
  (getFullYear a =? getFullYear b) && (getMonth a =? getMonth b).

End LocalZone.

(** *** [format] for the four patterns the route uses *)

(** [Number.prototype.toString] on an integer *)
Definition toString (z : Z) : string := NilZero.string_of_int (Z.to_int z).

Fixpoint zeros (n : nat) : string :=
  match n with
  | O => EmptyString
  | S n' => String "0" (zeros n')
  end.

Definition padStart0 (s : string) (targetLength : nat) : string :=
  (zeros (targetLength - String.length s) ++ s)%string.

Definition addLeadingZeros (number : Z) (targetLength : nat) : string :=
  ((if (number <? 0)%Z then "-" else "") ++
   padStart0 (toString (Z.abs number)) targetLength)%string.

Definition dayAbbrev (day : Z) : string :=
  nth (Z.to_nat day)
    ["Sun"; "Mon"; "Tue"; "Wed"; "Thu"; "Fri"; "Sat"]%string ""%string.

Definition monthAbbrev (month : Z) : string :=
  nth (Z.to_nat month)
    ["Jan"; "Feb"; "Mar"; "Apr"; "May"; "Jun";
     "Jul"; "Aug"; "Sep"; "Oct"; "Nov"; "Dec"]%string ""%string.

Section LocalFormat.
Context {zone : Zone}.

(** ['EEE'] *)
Definition format_EEE (d : Z) : string := dayAbbrev (getDay d).
(** ['MMM'] *)
Definition format_MMM (d : Z) : string := monthAbbrev (getMonth d).
(** ['dd'] *)
Definition format_dd (d : Z) : string := addLeadingZeros (getDate d) 2.
(** ['yyyy']: year 0 and earlier are counted backwards from 1 *)
Definition format_yyyy (d : Z) : string :=
  let signedYear := getFullYear d in
  let year := if 0 <? signedYear then signedYear else 1 - signedYear in
  addLeadingZeros year 4.
(** ['MMM dd'] *)
Definition format_MMM_dd (d : Z) : string :=
  (format_MMM d ++ " " ++ format_dd d)%string.
(** ['MMM yyyy'] *)
Definition format_MMM_yyyy (d : Z) : string :=
  (format_MMM d ++ " " ++ format_yyyy d)%string.

End LocalFormat.

End DateFns.

(* ================================================================== *)
(** ** The route: [src/app/api/sales/analytics/route.ts] *)
(* ================================================================== *)

Module Route.
Import JSNumber ESDate DateFns.

(** *** Data *)

(** A line item of [transaction.items] (a JSON array); [category] is
    optional. *)
Record Item : Type := mkItem {
  productId : string;
  productName : string;
  category : option string;
  quantity : Z;
  total : Qc
}.

(** A row of the [Transaction] table, with the columns the route reads. *)
Record Transaction : Type := mkTransaction {
  totalAmount : Qc;
  createdAt : Z;
  items : list Item
}.

Record Interval : Type := mkInterval {
  start : Z;
  end_ : Z
}.

(** [{ start, end, previous: { start, end } }]: [window] holds the outer
    [start] and [end]. *)
Record DateRange : Type := mkDateRange {
  window : Interval;
  previous : Interval
}.

(** A trend data point [{ name, timestamp, value }] *)
Record TrendPoint : Type := mkPoint {
  name : string;
  timestamp : Z;
  value : num
}.

Section LocalZone.
Context {zone : Zone}.

(** *** [getDateRange] *)

Definition getDateRange (timeframe : string) (now : Z) : DateRange :=
  if String.eqb timeframe "Today" then
    mkDateRange
      (mkInterval (startOfDay now) (endOfDay now))
      (mkInterval (startOfDay (subDays now 1)) (endOfDay (subDays now 1)))
  else if String.eqb timeframe "Week" then
    mkDateRange
      (mkInterval (startOfWeek now) (endOfWeek now))
      (mkInterval (startOfWeek (subDays now 7)) (endOfWeek (subDays now 7)))
  else if String.eqb timeframe "Month" then
    mkDateRange
      (mkInterval (startOfMonth (subMonths now 11)) (endOfMonth now))
      (mkInterval (startOfMonth (subMonths now 23))
                  (endOfMonth (subMonths now 12)))
  else if String.eqb timeframe "Year" then
    mkDateRange
      (mkInterval (startOfYear (subYears now 2)) (endOfYear now))
      (mkInterval (startOfYear (subYears now 3))
                  (endOfYear (subYears now 1)))
  else
    mkDateRange
      (mkInterval (startOfDay now) (endOfDay now))
      (mkInterval (startOfDay (subDays now 1)) (endOfDay (subDays now 1))).

(** *** [generateTrendDataPoints] *)

(** [!timeframe]: [null] and the empty string are falsy. *)
Definition noTimeframe (timeframe : option string) : bool :=
  match timeframe with
  | None => true
  | Some s => String.eqb s ""
  end.

(** [Math.ceil((end - start) / (1000 * 60 * 60 * 24))] *)
Definition daysDiff (dateRange : DateRange) : Z :=
  - ((- (end_ (window dateRange) - start (window dateRange))) / msPerDay).

(** The indices [0 .. n-1] of [Array.from({ length: n }, (_, i) => ...)] and
    of the counting loops *)
Definition indices (n : nat) : list Z := map Z.of_nat (seq 0 n).

Definition hourlyPoints (start_ : Z) : list TrendPoint :=
  map (fun i => mkPoint (toString i ++ ":00") (setHours start_ i 0 0 0) zero)
      (indices 24).

Definition generateTrendDataPoints
    (timeframe : option string) (dateRange : DateRange) (now : Z)
    : list TrendPoint :=
  let start_ := start (window dateRange) in
  let end' := end_ (window dateRange) in
  if noTimeframe timeframe then
    let daysDiff := daysDiff dateRange in
    if daysDiff <=? 1 then hourlyPoints start_
    else if daysDiff <=? 31 then
      map (fun date => mkPoint (format_MMM_dd date) date zero)
          (eachDayOfInterval start_ end')
    else
      map (fun date => mkPoint (format_MMM_yyyy date) date zero)
          (eachMonthOfInterval start_ end')
  else
    let tf := match timeframe with Some s => s | None => ""%string end in
    if String.eqb tf "Today" then hourlyPoints start_
    else if String.eqb tf "Week" then
      map (fun date => mkPoint (format_EEE date) date zero)
          (eachDayOfInterval start_ end')
    else if String.eqb tf "Month" then
      let monthStart := subMonths (endOfMonth now) 11 in
      map (fun i =>
             let date := addMonths monthStart i in
             mkPoint (format_MMM date) date zero)
          (indices 12)
    else if String.eqb tf "Year" then
      flat_map (fun i =>
                  let year := getFullYear start_ + i in
                  if year <=? getFullYear end' then
                    [mkPoint (toString year) (newDate year 0 1) zero]
                  else [])
               (indices 3)
    else [].

(** *** The body of [GET] *)

(** The query string, with [start] and [end] already parsed into instants;
    [None] stands for a parameter that is absent or empty. *)
Record Query : Type := mkQuery {
  q_timeframe : option string;
  q_start : option Z;
  q_end : option Z
}.

(** [timeframe || 'Today'] *)
Definition timeframeOrToday (timeframe : option string) : string :=
  match timeframe with
  | Some s => if String.eqb s "" then "Today"%string else s
  | None => "Today"%string
  end.

Definition resolveDateRange (q : Query) (now : Z) : DateRange :=
  match q_start q, q_end q with
  | Some startDate, Some endDate =>
      mkDateRange
        (mkInterval startDate endDate)
        (mkInterval (startDate - (endDate - startDate)) startDate)
  | _, _ => getDateRange (timeframeOrToday (q_timeframe q)) now
  end.

(** [prisma.transaction.findMany({ where: { createdAt: { gte, lte } } })]
    over the table [db] *)
Definition findMany (db : list Transaction) (r : Interval) : list Transaction :=
  filter (fun t => (start r <=? createdAt t) && (createdAt t <=? end_ r)) db.

(** [transactions.reduce((sum, trans) => sum + trans.totalAmount, 0)] *)
Definition sumAmounts (transactions : list Transaction) : num :=
  fold_left (fun sum trans => add sum (Fin (totalAmount trans)))
            transactions zero.

Definition count (transactions : list Transaction) : Z :=
  Z.of_nat (List.length transactions).

(** [orders > 0 ? revenue / orders : 0] *)
Definition avgValue (revenue : num) (orders : Z) : num :=
  if 0 <? orders then div revenue (of_Z orders) else zero.

(** [previous > 0 ? ((current - previous) / previous) * 100 : 0] *)
Definition percentChange (current previous_ : num) : num :=
  if gt previous_ zero
  then mul (div (sub current previous_) previous_) (of_Z 100)
  else zero.

(** The matching predicate of the fill loop *)
Definition isMatch (timeframe : option string) (dateRange : DateRange)
    (transDate pointDate : Z) : bool :=
  if noTimeframe timeframe then
    let daysDiff := daysDiff dateRange in
    if daysDiff <=? 1 then
      (getHours transDate =? getHours pointDate) && isSameDay transDate pointDate
    else if daysDiff <=? 31 then isSameDay transDate pointDate
    else isSameMonth transDate pointDate
  else
    let tf := match timeframe with Some s => s | None => ""%string end in
    if String.eqb tf "Today" then getHours transDate =? getHours pointDate
    else if String.eqb tf "Week" then isSameDay transDate pointDate
    else if String.eqb tf "Month" then isSameMonth transDate pointDate
    else getFullYear transDate =? getFullYear pointDate.

(** One transaction applied to one point:
    [if (isMatch) { if (!point.value) point.value = 0;
                    point.value += transaction.totalAmount; }] *)
Definition fillPoint (timeframe : option string) (dateRange : DateRange)
    (transaction : Transaction) (point : TrendPoint) : TrendPoint :=
  if isMatch timeframe dateRange (createdAt transaction) (timestamp point) then
    mkPoint (name point) (timestamp point)
            (add (or0 (value point)) (Fin (totalAmount transaction)))
  else point.

(** [transactions.forEach(transaction => { for (...) {...} })]: the points
    are updated in place, one transaction after the other. *)
Definition fillTrend (timeframe : option string) (dateRange : DateRange)
    (transactions : list Transaction) (trendPoints : list TrendPoint)
    : list TrendPoint :=
  fold_left (fun points transaction =>
               map (fillPoint timeframe dateRange transaction) points)
            transactions trendPoints.

Record TrendEntry : Type := mkTrendEntry {
  te_name : string;
  te_value : num
}.

Definition salesTrendOf (trendPoints : list TrendPoint) : list TrendEntry :=
  map (fun point => mkTrendEntry (name point) (or0 (value point))) trendPoints.

(** **** Top products *)

(** A [Map] with string keys: an association list in insertion order.  [set]
    on a present key replaces its value where it stands; on a new key it
    appends. *)
Fixpoint map_get {V : Type} (k : string) (m : list (string * V)) : option V :=
  match m with
  | [] => None
  | (k', v) :: m' => if String.eqb k' k then Some v else map_get k m'
  end.

Fixpoint map_set {V : Type} (k : string) (v : V) (m : list (string * V))
    : list (string * V) :=
  match m with
  | [] => [(k, v)]
  | (k', v') :: m' =>
      if String.eqb k' k then (k, v) :: m' else (k', v') :: map_set k v m'
  end.

Record ProductSales : Type := mkProductSales {
  ps_name : string;
  ps_quantity : num;
  ps_revenue : num
}.

(** The items of all transactions, in iteration order *)
Definition allItems (transactions : list Transaction) : list Item :=
  flat_map items transactions.

Definition addProductSale (productSales : list (string * ProductSales))
    (item : Item) : list (string * ProductSales) :=
  let currentSales :=
    match map_get (productId item) productSales with
    | Some s => s
    | None => mkProductSales (productName item) zero zero
    end in
  map_set (productId item)
    (mkProductSales (productName item)
       (add (ps_quantity currentSales) (of_Z (quantity item)))
       (add (ps_revenue currentSales) (Fin (total item))))
    productSales.

Definition productSalesOf (transactions : list Transaction)
    : list (string * ProductSales) :=
  fold_left addProductSale (allItems transactions) [].

Record TopProduct : Type := mkTopProduct {
  tp_id : string;
  tp_name : string;
  tp_revenue : num;
  tp_quantity : num
}.

(** [Array.prototype.sort((a, b) => b.revenue - a.revenue)] is a stable
    sort.  [sortInsert a l] puts [a], which stood before every element of
    [l], behind the elements that must come first: those [b] with
    [b.revenue - a.revenue > 0]. *)
Definition comesFirst (b a : TopProduct) : bool :=
  gt (sub (tp_revenue b) (tp_revenue a)) zero.

Fixpoint sortInsert (a : TopProduct) (l : list TopProduct) : list TopProduct :=
  match l with
  | [] => [a]
  | b :: l' => if comesFirst b a then b :: sortInsert a l' else a :: b :: l'
  end.

Definition sortByRevenue (l : list TopProduct) : list TopProduct :=
  fold_right sortInsert [] l.

Definition productEntries (transactions : list Transaction) : list TopProduct :=
  map (fun '(id, data) =>
         mkTopProduct id (ps_name data) (ps_revenue data) (ps_quantity data))
      (productSalesOf transactions).

Definition topProductsOf (transactions : list Transaction) : list TopProduct :=
  firstn 5 (sortByRevenue (productEntries transactions)).

(** **** Revenue by category *)

(** [item.category || 'Uncategorized'] *)
Definition categoryOf (item : Item) : string :=
  match category item with
  | Some c => if String.eqb c "" then "Uncategorized"%string else c
  | None => "Uncategorized"%string
  end.

Definition addCategoryRevenue (categoryRevenue : list (string * num))
    (item : Item) : list (string * num) :=
  let category := categoryOf item in
  let currentRevenue :=
    match map_get category categoryRevenue with
    | Some r => or0 r
    | None => zero
    end in
  map_set category (add currentRevenue (Fin (total item))) categoryRevenue.

Definition categoryRevenueOf (transactions : list Transaction)
    : list (string * num) :=
  fold_left addCategoryRevenue (allItems transactions) [].

Record CategoryShare : Type := mkCategoryShare {
  cs_category : string;
  cs_revenue : num;
  cs_percentage : num
}.

Definition revenueByCategoryOf (transactions : list Transaction)
    (totalRevenue : num) : list CategoryShare :=
  map (fun '(category, revenue) =>
         mkCategoryShare category revenue
           (mul (div revenue totalRevenue) (of_Z 100)))
      (categoryRevenueOf transactions).

(** **** The response *)

Record Comparison : Type := mkComparison {
  revenue : num;
  sales : num;
  avgOrder : num;
  orders : num
}.

Record Metrics : Type := mkMetrics {
  totalRevenue : num;
  totalOrders : Z;
  avgOrderValue : num;
  previousPeriodComparison : Comparison
}.

Record Report : Type := mkReport {
  metrics : Metrics;
  salesTrend : list TrendEntry;
  topProducts : list TopProduct;
  revenueByCategory : list CategoryShare
}.

(** The [try] block of [GET] once the caller is authenticated *)
Definition analytics (q : Query) (now : Z) (db : list Transaction) : Report :=
  let timeframe := q_timeframe q in
  let dateRange := resolveDateRange q now in
  let transactions := findMany db (window dateRange) in
  let previousTransactions := findMany db (previous dateRange) in
  let totalRevenue := sumAmounts transactions in
  let totalOrders := count transactions in
  let avgOrderValue := avgValue totalRevenue totalOrders in
  let previousRevenue := sumAmounts previousTransactions in
  let previousOrders := count previousTransactions in
  let previousAvgValue := avgValue previousRevenue previousOrders in
  let revenueChange := percentChange totalRevenue previousRevenue in
  let ordersChange := percentChange (of_Z totalOrders) (of_Z previousOrders) in
  let avgValueChange := percentChange avgOrderValue previousAvgValue in
  let trendPoints := generateTrendDataPoints timeframe dateRange now in
  let filled := fillTrend timeframe dateRange transactions trendPoints in
  mkReport
    (mkMetrics totalRevenue totalOrders avgOrderValue
       (mkComparison revenueChange ordersChange avgValueChange ordersChange))
    (salesTrendOf filled)
    (topProductsOf transactions)
    (revenueByCategoryOf transactions totalRevenue).

(** The same block with the two readings of the clock kept apart:
    [getDateRange] reads it first ([new Date()] at its first line), and
    [generateTrendDataPoints] reads it again, after the two queries have
    been awaited.  [analytics] is the case of both readings giving the same
    instant. *)
Definition analyticsAt (q : Query) (now trendNow : Z) (db : list Transaction)
    : Report :=
  let timeframe := q_timeframe q in
  let dateRange := resolveDateRange q now in
  let transactions := findMany db (window dateRange) in
  let previousTransactions := findMany db (previous dateRange) in
  let totalRevenue := sumAmounts transactions in
  let totalOrders := count transactions in
  let avgOrderValue := avgValue totalRevenue totalOrders in
  let previousRevenue := sumAmounts previousTransactions in
  let previousOrders := count previousTransactions in
  let previousAvgValue := avgValue previousRevenue previousOrders in
  let revenueChange := percentChange totalRevenue previousRevenue in
  let ordersChange := percentChange (of_Z totalOrders) (of_Z previousOrders) in
  let avgValueChange := percentChange avgOrderValue previousAvgValue in
  let trendPoints := generateTrendDataPoints timeframe dateRange trendNow in
  let filled := fillTrend timeframe dateRange transactions trendPoints in
  mkReport
    (mkMetrics totalRevenue totalOrders avgOrderValue
       (mkComparison revenueChange ordersChange avgValueChange ordersChange))
    (salesTrendOf filled)
    (topProductsOf transactions)
    (revenueByCategoryOf transactions totalRevenue).

Inductive Response : Type :=
| Json (body : Report)
| Unauthorized.

(** [GET]: a request without a user id ([!userId]) is answered 401. *)
Definition GET (userId : option string) (q : Query) (now : Z)
    (db : list Transaction) : Response :=
  match userId with
  | None => Unauthorized
  | Some u => if String.eqb u "" then Unauthorized else Json (analytics q now db)
  end.

End LocalZone.

End Route.

(* ================================================================== *)
(** ** The arithmetic of [GET] on binary64 amounts *)
(* ================================================================== *)

(** The metrics and the fill loop of [GET] once more, with [totalAmount]
    the binary64 number the column [Float] holds and every operation the
    one of the engine.  Dates, windows and the matching predicate are those
    of [Route]. *)
Module Route64.
Import ESDate DateFns Route Binary64.

(** A row of the [Transaction] table: the columns the metrics and the
    trend read. *)
Record Transaction : Type := mkTransaction {
  totalAmount : num;
  createdAt : Z
}.

Record TrendPoint : Type := mkPoint {
  name : string;
  timestamp : Z;
  value : num
}.

(** [transactions.reduce((sum, trans) => sum + trans.totalAmount, 0)] *)
Definition sumAmounts (transactions : list Transaction) : num :=
  fold_left (fun sum trans => add sum (totalAmount trans)) transactions zero.

Definition count (transactions : list Transaction) : Z :=
  Z.of_nat (List.length transactions).

(** [orders > 0 ? revenue / orders : 0] *)
Definition avgValue (revenue : num) (orders : Z) : num :=
  if 0 <? orders then div revenue (of_Z orders) else zero.

(** [previous > 0 ? ((current - previous) / previous) * 100 : 0] *)
Definition percentChange (current previous_ : num) : num :=
  if gt previous_ zero
  then mul (div (sub current previous_) previous_) (of_Z 100)
  else zero.

Record Comparison : Type := mkComparison {
  revenue : num;
  sales : num;
  avgOrder : num;
  orders : num
}.

Record Metrics : Type := mkMetrics {
  totalRevenue : num;
  totalOrders : Z;
  avgOrderValue : num;
  previousPeriodComparison : Comparison
}.


(** The points of the generator, whose [value: 0] is the number 0 *)
Definition trendPointsOf (points : list Route.TrendPoint) : list TrendPoint :=
  map (fun p => mkPoint (Route.name p) (Route.timestamp p) zero) points.

Section LocalZone.
Context {zone : Zone}.

(** [if (isMatch) { if (!point.value) point.value = 0;
                    point.value += transaction.totalAmount; }] *)
Definition fillPoint (timeframe : option string) (dateRange : DateRange)
    (transaction : Transaction) (point : TrendPoint) : TrendPoint :=
  if isMatch timeframe dateRange (createdAt transaction) (timestamp point) then
    mkPoint (name point) (timestamp point)
            (add (or0 (value point)) (totalAmount transaction))
  else point.

Definition fillTrend (timeframe : option string) (dateRange : DateRange)
    (transactions : list Transaction) (trendPoints : list TrendPoint)
    : list TrendPoint :=
  fold_left (fun points transaction =>
               map (fillPoint timeframe dateRange transaction) points)
            transactions trendPoints.

(** [{ name: point.name, value: point.value || 0 }] *)
Definition salesTrendOf (trendPoints : list TrendPoint) : list (string * num) :=
  map (fun point => (name point, or0 (value point))) trendPoints.

End LocalZone.

End Route64.

Import JSNumber ESDate DateFns Route.

Section Local.
Context {zone : Zone}.

(* ================================================================== *)
(** ** Vocabulary of the statements *)
(* ================================================================== *)

(** *** Calendar *)

(** The local day number of an instant, and the instant at which a local
    day starts *)
Definition localDay (t : Z) : Z := Day (LocalTime t).
Definition midnight (day : Z) : Z := UTC (day * msPerDay).

(** Months counted from year 0: the key [isSameMonth] compares *)
Definition monthIndex (t : Z) : Z := 12 * getFullYear t + getMonth t.

(** The day number of the first day of the month with the given index *)
Definition firstOfMonth (index : Z) : Z := MakeDay 0 index 1.

(** *** Buckets *)


(** The four timeframes the route names *)
Definition namedTimeframes : list string :=
  ["Today"; "Week"; "Month"; "Year"]%string.


(** The labels of the hourly buckets *)
Definition hourLabels : list string :=
  ["0:00"; "1:00"; "2:00"; "3:00"; "4:00"; "5:00"; "6:00"; "7:00";
   "8:00"; "9:00"; "10:00"; "11:00"; "12:00"; "13:00"; "14:00"; "15:00";
   "16:00"; "17:00"; "18:00"; "19:00"; "20:00"; "21:00"; "22:00";
   "23:00"]%string.

(** The empty bucket of a year, and of a day of a custom range *)
Definition yearPoint (year : Z) : TrendPoint :=
  mkPoint (toString year) (newDate year 0 1) zero.

Definition dayPoint (date : Z) : TrendPoint :=
  mkPoint (format_MMM_dd date) date zero.

(** The empty bucket of a month of a custom range *)
Definition monthPoint (date : Z) : TrendPoint :=
  mkPoint (format_MMM_yyyy date) date zero.

(** The buckets a transaction matches *)
Definition matching (timeframe : option string) (dateRange : DateRange)
    (transaction : Transaction) (points : list TrendPoint) : list TrendPoint :=
  filter (fun point =>
            isMatch timeframe dateRange (createdAt transaction) (timestamp point))
         points.

(** *** Sums *)

(** The sum of a list of rationals *)
Definition sumQc (l : list Qc) : Qc := fold_right Qcplus 0%Qc l.

(** The rational a finite number stands for *)
Definition valQ (x : num) : Qc :=
  match x with Fin q => q | _ => 0%Qc end.

(** The revenue of a list of transactions, as a rational *)
Definition revenueQ (transactions : list Transaction) : Qc :=
  sumQc (map totalAmount transactions).

(** [bucket.value] summed over the buckets *)
Definition sumValues (points : list TrendPoint) : num :=
  fold_left (fun sum point => add sum (value point)) points zero.

(** [value || 0] summed over the entries of [salesTrend] *)
Definition sumTrend (entries : list TrendEntry) : num :=
  fold_left (fun sum entry => add sum (te_value entry)) entries zero.

(** Buckets whose values are all finite, and the rational they add up to *)
Definition finitePoints (points : list TrendPoint) : Prop :=
  Forall (fun p => isFinite (value p) = true) points.

Definition pointsQ (points : list TrendPoint) : Qc :=
  sumQc (map (fun p => valQ (value p)) points).

(** *** Products *)









(** *** Categories *)






(** The factor of a percentage *)
Definition hundred : Qc := Q2Qc (inject_Z 100).

(** *** Binary64 sums *)

(** The buckets a row matches *)
Definition matching64 (timeframe : option string) (dateRange : DateRange)
    (transaction : Route64.Transaction) (points : list Route64.TrendPoint)
    : list Route64.TrendPoint :=
  filter (fun point =>
            isMatch timeframe dateRange (Route64.createdAt transaction)
                    (Route64.timestamp point))
         points.

(** [bucket.value] summed over the buckets, in their order *)
Definition sumValues64 (points : list Route64.TrendPoint) : Binary64.num :=
  fold_left (fun sum point => Binary64.add sum (Route64.value point))
            points Binary64.zero.

(** [value] summed over the entries of [salesTrend] *)
Definition sumTrend64 (entries : list (string * Binary64.num)) : Binary64.num :=
  fold_left (fun sum entry => Binary64.add sum (snd entry))
            entries Binary64.zero.

(** *** Tactics *)

(** Linear arithmetic with division and remainder by constants *)
Ltac zdiv := Z.to_euclidean_division_equations; lia.

Ltac unfold_ms := unfold msPerDay, msPerHour, msPerMinute, msPerSecond in *.

(** Case analysis on a month number *)
Ltac month_cases m :=
  assert (m = 0 \/ m = 1 \/ m = 2 \/ m = 3 \/ m = 4 \/ m = 5 \/ m = 6 \/
          m = 7 \/ m = 8 \/ m = 9 \/ m = 10 \/ m = 11) as Hmonth_cases by lia;
  repeat (destruct Hmonth_cases as [Hmonth_cases | Hmonth_cases]);
  subst m;
  change (0 + 1) with 1 in *; change (1 + 1) with 2 in *;
  change (2 + 1) with 3 in *; change (3 + 1) with 4 in *;
  change (4 + 1) with 5 in *; change (5 + 1) with 6 in *;
  change (6 + 1) with 7 in *; change (7 + 1) with 8 in *;
  change (8 + 1) with 9 in *; change (9 + 1) with 10 in *;
  change (10 + 1) with 11 in *; change (11 + 1) with 12 in *;
  unfold monthStart in *.

(* ================================================================== *)
(** ** Calendar facts *)
(* ================================================================== *)

Lemma DayFromYear_succ (y : Z) :
  DayFromYear (y + 1) = DayFromYear y + DaysInYear y.
Proof.
  unfold DayFromYear, DaysInYear, isLeapYear.
  destruct (y mod 4 =? 0) eqn:E4; destruct (y mod 100 =? 0) eqn:E100;
    destruct (y mod 400 =? 0) eqn:E400; cbn [andb orb negb];
    rewrite ?Z.eqb_eq, ?Z.eqb_neq in *; zdiv.
Qed.

Lemma DayFromYear_mono (y y' : Z) : y <= y' -> DayFromYear y <= DayFromYear y'.
Proof. unfold DayFromYear; intros; zdiv. Qed.

(** [YearFromDay] meets the specification of [YearFromTime]. *)
Lemma YearFromDay_spec (n : Z) :
  DayFromYear (YearFromDay n) <= n < DayFromYear (YearFromDay n + 1).
Proof.
  unfold YearFromDay.
  set (y0 := 1970 + n * 400 / 146097).
  assert (H1 : DayFromYear (y0 - 1) <= n) by (unfold DayFromYear, y0; zdiv).
  assert (H2 : n < DayFromYear (y0 + 2)) by (unfold DayFromYear, y0; zdiv).
  destruct (DayFromYear (y0 + 1) <=? n) eqn:E1.
  - apply Z.leb_le in E1. replace (y0 + 1 + 1) with (y0 + 2) by lia. lia.
  - apply Z.leb_gt in E1. destruct (n <? DayFromYear y0) eqn:E2.
    + apply Z.ltb_lt in E2. replace (y0 - 1 + 1) with y0 by lia. lia.
    + apply Z.ltb_ge in E2. lia.
Qed.

Lemma YearFromDay_unique (n y : Z) :
  DayFromYear y <= n < DayFromYear (y + 1) -> YearFromDay n = y.
Proof.
  intros H. pose proof (YearFromDay_spec n) as S.
  destruct (Z.lt_trichotomy (YearFromDay n) y) as [L | [E | G]]; [ | exact E | ].
  - pose proof (DayFromYear_mono (YearFromDay n + 1) y). lia.
  - pose proof (DayFromYear_mono (y + 1) (YearFromDay n)). lia.
Qed.

Lemma YearFromDay_mono (a b : Z) : a <= b -> YearFromDay a <= YearFromDay b.
Proof.
  intros H. pose proof (YearFromDay_spec a). pose proof (YearFromDay_spec b).
  destruct (Z.le_gt_cases (YearFromDay a) (YearFromDay b)) as [L | G]; [exact L | ].
  pose proof (DayFromYear_mono (YearFromDay b + 1) (YearFromDay a)). lia.
Qed.

Lemma leapFlag_range (y : Z) : leapFlag y = 0 \/ leapFlag y = 1.
Proof. unfold leapFlag; destruct (isLeapYear y); auto. Qed.

Lemma DayFromYear_next (y : Z) :
  DayFromYear (y + 1) = DayFromYear y + monthStart (leapFlag y) 12.
Proof.
  rewrite DayFromYear_succ. unfold DaysInYear, leapFlag.
  destruct (isLeapYear y); reflexivity.
Qed.

Lemma monthStart_bounds (l m : Z) :
  0 <= l <= 1 -> 0 <= m <= 11 ->
  0 <= monthStart l m /\ monthStart l m + 28 <= monthStart l (m + 1) /\
  monthStart l (m + 1) <= monthStart l m + 31 /\ monthStart l (m + 1) <= 365 + l.
Proof. intros Hl Hm. month_cases m; lia. Qed.

Lemma daysInMonth_range (y m : Z) :
  0 <= m <= 11 -> 28 <= daysInMonth y m <= 31.
Proof.
  intros Hm. unfold daysInMonth.
  pose proof (leapFlag_range y).
  pose proof (monthStart_bounds (leapFlag y) m). lia.
Qed.

(** The civil date of a day number, from the month it falls in *)
Lemma civil_of_day (y m n : Z) :
  0 <= m <= 11 ->
  DayFromYear y + monthStart (leapFlag y) m <= n
    < DayFromYear y + monthStart (leapFlag y) (m + 1) ->
  YearFromDay n = y /\ MonthFromDay n = m /\
  DateFromDay n = n - DayFromYear y - monthStart (leapFlag y) m + 1.
Proof.
  intros Hm Hn.
  pose proof (leapFlag_range y) as Hl.
  pose proof (monthStart_bounds (leapFlag y) m ltac:(lia) Hm) as Hb.
  assert (Hy : YearFromDay n = y).
  { apply YearFromDay_unique. rewrite DayFromYear_next.
    change (monthStart (leapFlag y) 12) with (365 + leapFlag y). lia. }
  assert (Hmo : MonthFromDay n = m).
  { unfold MonthFromDay, DayWithinYear, InLeapYear. rewrite Hy.
    month_cases m;
      repeat match goal with
             | |- context [?a <? ?b] =>
                 destruct (Z.ltb_spec a b); try lia
             end; reflexivity. }
  split; [exact Hy | split; [exact Hmo | ]].
  unfold DateFromDay, DayWithinYear, InLeapYear. rewrite Hmo, Hy. lia.
Qed.

(** Every day number falls in a month of its year. *)
Lemma day_in_month (n : Z) :
  0 <= MonthFromDay n <= 11 /\
  DayFromYear (YearFromDay n)
    + monthStart (leapFlag (YearFromDay n)) (MonthFromDay n) <= n
    < DayFromYear (YearFromDay n)
      + monthStart (leapFlag (YearFromDay n)) (MonthFromDay n + 1).
Proof.
  pose proof (YearFromDay_spec n) as S. rewrite DayFromYear_next in S.
  pose proof (leapFlag_range (YearFromDay n)) as Hl.
  unfold MonthFromDay, DayWithinYear, InLeapYear.
  change (monthStart (leapFlag (YearFromDay n)) 12)
    with (365 + leapFlag (YearFromDay n)) in S.
  repeat match goal with
         | |- context [?a <? ?b] => destruct (Z.ltb_spec a b)
         end;
    change (0 + 1) with 1; change (1 + 1) with 2;
    change (2 + 1) with 3; change (3 + 1) with 4;
    change (4 + 1) with 5; change (5 + 1) with 6;
    change (6 + 1) with 7; change (7 + 1) with 8;
    change (8 + 1) with 9; change (9 + 1) with 10;
    change (10 + 1) with 11; change (11 + 1) with 12;
    unfold monthStart; lia.
Qed.

Lemma DateFromDay_range (n : Z) :
  1 <= DateFromDay n <= daysInMonth (YearFromDay n) (MonthFromDay n).
Proof.
  destruct (day_in_month n) as [Hm Hn].
  destruct (civil_of_day _ _ _ Hm Hn) as (_ & _ & Hd).
  unfold daysInMonth. lia.
Qed.

(** [MakeDay] on a month number in range *)
Lemma MakeDay_month (y m d : Z) :
  0 <= m <= 11 ->
  MakeDay y m d = DayFromYear y + monthStart (leapFlag y) m + d - 1.
Proof.
  intros Hm. unfold MakeDay.
  replace (m / 12) with 0 by zdiv. replace (m mod 12) with m by zdiv.
  rewrite Z.add_0_r. reflexivity.
Qed.

(** [MakeDay] inverts the civil date of a day number. *)
Lemma MakeDay_civil (n : Z) :
  MakeDay (YearFromDay n) (MonthFromDay n) (DateFromDay n) = n.
Proof.
  destruct (day_in_month n) as [Hm Hn].
  destruct (civil_of_day _ _ _ Hm Hn) as (_ & _ & Hd).
  rewrite MakeDay_month by exact Hm. lia.
Qed.

(** The civil date of [MakeDay y m d] for a day [d] of the month *)
Lemma civil_MakeDay (y m d : Z) :
  0 <= m <= 11 -> 1 <= d <= daysInMonth y m ->
  YearFromDay (MakeDay y m d) = y /\ MonthFromDay (MakeDay y m d) = m /\
  DateFromDay (MakeDay y m d) = d.
Proof.
  intros Hm Hd. rewrite MakeDay_month by exact Hm. unfold daysInMonth in Hd.
  destruct (civil_of_day y m (DayFromYear y + monthStart (leapFlag y) m + d - 1) Hm)
    as (Hy & Hmo & Hda); [lia | ].
  repeat split; [exact Hy | exact Hmo | lia].
Qed.

Lemma Day_MakeDate (day time : Z) :
  0 <= time < msPerDay -> Day (MakeDate day time) = day.
Proof. unfold Day, MakeDate; unfold_ms; intros; zdiv. Qed.

Lemma TimeWithinDay_MakeDate (day time : Z) :
  0 <= time < msPerDay -> TimeWithinDay (MakeDate day time) = time.
Proof. unfold TimeWithinDay, MakeDate; unfold_ms; intros; zdiv. Qed.

Lemma TimeWithinDay_range (t : Z) : 0 <= TimeWithinDay t < msPerDay.
Proof. unfold TimeWithinDay; unfold_ms; zdiv. Qed.

Lemma MakeDate_Day (t : Z) : MakeDate (Day t) (TimeWithinDay t) = t.
Proof. unfold MakeDate, Day, TimeWithinDay; unfold_ms; zdiv. Qed.

(* ================================================================== *)
(** ** Facts about the date-fns helpers *)
(* ================================================================== *)

Lemma MakeDay_date_shift (y m d k : Z) : MakeDay y m (d + k) = MakeDay y m d + k.
Proof. unfold MakeDay; lia. Qed.

Lemma LocalTime_UTC (t : Z) : LocalTime (UTC t) = t.
Proof. unfold LocalTime, UTC. lia. Qed.

Lemma UTC_LocalTime (t : Z) : UTC (LocalTime t) = t.
Proof. unfold LocalTime, UTC. lia. Qed.

Lemma Day_civil (t : Z) :
  MakeDay (getFullYear t) (getMonth t) (getDate t) = localDay t.
Proof. apply MakeDay_civil. Qed.

(** [setDate] moves by whole days. *)
Lemma setDate_shift (t k : Z) : setDate t (getDate t + k) = t + k * msPerDay.
Proof.
  unfold setDate. rewrite MakeDay_date_shift, Day_civil.
  pose proof (MakeDate_Day (LocalTime t)) as H.
  unfold localDay, MakeDate, UTC, LocalTime in *. lia.
Qed.

Lemma Day_shift (t k : Z) : Day (t + k * msPerDay) = Day t + k.
Proof. unfold Day; unfold_ms; zdiv. Qed.

Lemma Day_midnight (c : Z) : Day (c * msPerDay) = c.
Proof. unfold Day; unfold_ms; zdiv. Qed.

Lemma Day_mono (a b : Z) : a <= b -> Day a <= Day b.
Proof. unfold Day; unfold_ms; intros; zdiv. Qed.

Lemma localDay_shift (t k : Z) : localDay (t + k * msPerDay) = localDay t + k.
Proof.
  unfold localDay, LocalTime.
  replace (t + k * msPerDay + LocalTZA) with (t + LocalTZA + k * msPerDay) by lia.
  apply Day_shift.
Qed.

Lemma localDay_midnight (c : Z) : localDay (midnight c) = c.
Proof. unfold localDay, midnight. rewrite LocalTime_UTC. apply Day_midnight. Qed.

Lemma localDay_mono (a b : Z) : a <= b -> localDay a <= localDay b.
Proof. intros H. apply Day_mono. unfold LocalTime. lia. Qed.

(** The local day of an instant given by its day and its time within the
    day *)
Lemma localDay_MakeDate (day time : Z) :
  0 <= time < msPerDay -> localDay (UTC (MakeDate day time)) = day.
Proof. intros H. unfold localDay. rewrite LocalTime_UTC. apply Day_MakeDate, H. Qed.


Lemma startOfDay_eq (d : Z) : startOfDay d = midnight (localDay d).
Proof.
  unfold startOfDay, setHours, midnight, localDay, MakeDate, MakeTime.
  f_equal. lia.
Qed.

Lemma endOfDay_eq (d : Z) : endOfDay d = midnight (localDay d) + (msPerDay - 1).
Proof.
  unfold endOfDay, setHours, midnight, localDay, UTC, MakeDate, MakeTime.
  unfold_ms. lia.
Qed.

(** A day ends before the next one starts. *)
Lemma endOfDay_MakeDate (c : Z) :
  midnight c + (msPerDay - 1) = UTC (MakeDate c (msPerDay - 1)).
Proof. unfold midnight, UTC, MakeDate. lia. Qed.

Lemma addDays_eq (d k : Z) : addDays d k = d + k * msPerDay.
Proof.
  unfold addDays. destruct (Z.eqb_spec k 0) as [-> | _]; [lia | ].
  apply setDate_shift.
Qed.

Lemma subDays_eq (d k : Z) : subDays d k = d - k * msPerDay.
Proof. unfold subDays. rewrite addDays_eq. lia. Qed.

Lemma getDay_range (t : Z) : 0 <= getDay t <= 6.
Proof. unfold getDay, WeekDay; zdiv. Qed.

Lemma startOfWeek_eq (d : Z) :
  startOfWeek d = midnight (localDay d - getDay d).
Proof.
  unfold startOfWeek, weekStartsOn.
  pose proof (getDay_range d) as Hw.
  destruct (Z.ltb_spec (getDay d) 0); [lia | ].
  replace (getDate d - (0 + getDay d - 0)) with (getDate d + - getDay d) by lia.
  rewrite setDate_shift. fold (startOfDay (d + - getDay d * msPerDay)).
  rewrite startOfDay_eq, localDay_shift. unfold midnight, UTC. lia.
Qed.

Lemma endOfWeek_eq (d : Z) :
  endOfWeek d = midnight (localDay d - getDay d + 6) + (msPerDay - 1).
Proof.
  unfold endOfWeek, weekStartsOn.
  pose proof (getDay_range d) as Hw.
  destruct (Z.ltb_spec (getDay d) 0); [lia | ].
  replace (getDate d + (0 + 6 - (getDay d - 0)))
    with (getDate d + (6 - getDay d)) by lia.
  rewrite setDate_shift. fold (endOfDay (d + (6 - getDay d) * msPerDay)).
  rewrite endOfDay_eq, localDay_shift. unfold midnight, UTC. lia.
Qed.

(** [isSameDay] compares local day numbers. *)
Lemma isSameDay_Day (a b : Z) : isSameDay a b = (localDay a =? localDay b).
Proof.
  unfold isSameDay. rewrite !startOfDay_eq.
  destruct (Z.eqb_spec (localDay a) (localDay b)) as [E | N].
  - rewrite E. apply Z.eqb_refl.
  - apply Z.eqb_neq. unfold midnight, UTC; unfold_ms. lia.
Qed.

(** The hour of an instant given by its day and its time within the day *)
Lemma getHours_MakeDate (day time : Z) :
  0 <= time < msPerDay -> getHours (UTC (MakeDate day time)) = time / msPerHour.
Proof.
  intros H. unfold getHours. rewrite LocalTime_UTC.
  unfold HourFromTime, MakeDate; unfold_ms; zdiv.
Qed.

Lemma getHours_range (t : Z) : 0 <= getHours t <= 23.
Proof. unfold getHours, HourFromTime; zdiv. Qed.

(** *** Index lists *)

Lemma indices_length (n : nat) : List.length (indices n) = n.
Proof. unfold indices. rewrite length_map, length_seq. reflexivity. Qed.

Lemma indices_S {A : Type} (f : Z -> A) (n : nat) :
  map f (indices (S n)) = f 0 :: map (fun k => f (k + 1)) (indices n).
Proof.
  unfold indices. cbn [seq map]. f_equal.
  rewrite <- seq_shift, !map_map. apply map_ext.
  intros a. f_equal. lia.
Qed.

Lemma indices_nth (n i : nat) :
  (i < n)%nat -> nth_error (indices n) i = Some (Z.of_nat i).
Proof.
  intros H. unfold indices. rewrite nth_error_map, nth_error_seq.
  destruct (Nat.ltb_spec i n); [reflexivity | lia].
Qed.

Lemma In_indices (n : nat) (k : Z) :
  In k (indices n) <-> 0 <= k < Z.of_nat n.
Proof.
  unfold indices. rewrite in_map_iff. split.
  - intros (i & <- & Hi). apply in_seq in Hi. lia.
  - intros H. exists (Z.to_nat k). split; [lia | ]. apply in_seq. lia.
Qed.

(** *** [eachDayOfInterval] *)

Lemma midnight_le (c t : Z) : midnight c <= t <-> c <= localDay t.
Proof. unfold midnight, localDay, UTC, LocalTime, Day; unfold_ms; zdiv. Qed.

Lemma eachDay_loop_spec (fuel : nat) : forall c endTime,
  localDay endTime - c + 1 <= Z.of_nat fuel ->
  eachDay_loop fuel (midnight c) endTime
  = map (fun k => midnight (c + k))
        (indices (Z.to_nat (localDay endTime - c + 1))).
Proof.
  induction fuel as [ | fuel IH]; intros c endTime Hf.
  - replace (Z.to_nat (localDay endTime - c + 1)) with 0%nat by lia. reflexivity.
  - cbn [eachDay_loop]. pose proof (midnight_le c endTime) as Hc.
    destruct (Z.leb_spec (midnight c) endTime) as [L | G].
    + rewrite setDate_shift.
      fold (startOfDay (midnight c + 1 * msPerDay)).
      rewrite startOfDay_eq, localDay_shift, localDay_midnight.
      rewrite IH by lia.
      replace (Z.to_nat (localDay endTime - c + 1))
        with (S (Z.to_nat (localDay endTime - (c + 1) + 1))) by lia.
      rewrite indices_S. f_equal; [f_equal; lia | ].
      apply map_ext. intros k. f_equal. lia.
    + replace (Z.to_nat (localDay endTime - c + 1)) with 0%nat by lia.
      reflexivity.
Qed.

(** One midnight per calendar day from the day of [start_] to the day of
    [end_], both included *)
Lemma eachDayOfInterval_spec (start_ end' : Z) :
  start_ <= end' ->
  eachDayOfInterval start_ end'
  = map (fun k => midnight (localDay start_ + k))
        (indices (Z.to_nat (localDay end' - localDay start_ + 1))).
Proof.
  intros H. unfold eachDayOfInterval.
  destruct (Z.ltb_spec end' start_) as [L | _]; [lia | ].
  fold (startOfDay start_). rewrite startOfDay_eq.
  apply eachDay_loop_spec.
  pose proof (localDay_mono _ _ H).
  unfold midnight, localDay, UTC, LocalTime, Day in *; unfold_ms; zdiv.
Qed.

(** *** Months and years *)

Lemma getMonth_range (t : Z) : 0 <= getMonth t <= 11.
Proof. unfold getMonth. apply day_in_month. Qed.

Lemma getDate_range (t : Z) :
  1 <= getDate t <= daysInMonth (getFullYear t) (getMonth t).
Proof. unfold getDate, getFullYear, getMonth. apply DateFromDay_range. Qed.

Lemma isSameMonth_index (a b : Z) :
  isSameMonth a b = (monthIndex a =? monthIndex b).
Proof.
  unfold isSameMonth, monthIndex.
  pose proof (getMonth_range a). pose proof (getMonth_range b).
  destruct (Z.eqb_spec (getFullYear a) (getFullYear b)) as [Ey | Ny];
    destruct (Z.eqb_spec (getMonth a) (getMonth b)) as [Em | Nm];
    cbn [andb]; symmetry; rewrite ?Z.eqb_eq, ?Z.eqb_neq; lia.
Qed.

(** [MakeDay] only depends on the month counted from year 0. *)
Lemma MakeDay_carry (y N d a : Z) : MakeDay y N d = MakeDay (y + a) (N - 12 * a) d.
Proof.
  unfold MakeDay.
  replace (y + a + (N - 12 * a) / 12) with (y + N / 12) by zdiv.
  replace ((N - 12 * a) mod 12) with (N mod 12) by zdiv.
  reflexivity.
Qed.

Lemma MakeDay_next_month (y m : Z) :
  0 <= m <= 11 -> MakeDay y (m + 1) 1 = MakeDay y m 1 + daysInMonth y m.
Proof.
  intros Hm. rewrite (MakeDay_month y m) by exact Hm. unfold daysInMonth.
  destruct (Z.eq_dec m 11) as [-> | Hne].
  - unfold MakeDay. change ((11 + 1) / 12) with 1. change ((11 + 1) mod 12) with 0.
    rewrite DayFromYear_next. change (11 + 1) with 12. cbn [monthStart]. lia.
  - rewrite MakeDay_month by lia. lia.
Qed.

(** Day 0 of the next month is the last day of this one. *)
Lemma MakeDay_month_end (y N : Z) :
  MakeDay y (N + 1) 0
  = MakeDay (y + N / 12) (N mod 12) (daysInMonth (y + N / 12) (N mod 12)).
Proof.
  rewrite (MakeDay_carry y (N + 1) 0 (N / 12)).
  replace (N + 1 - 12 * (N / 12)) with (N mod 12 + 1) by zdiv.
  assert (Hm : 0 <= N mod 12 <= 11) by zdiv.
  pose proof (MakeDay_next_month (y + N / 12) (N mod 12) Hm) as Hn.
  pose proof (MakeDay_date_shift (y + N / 12) (N mod 12 + 1) 1 (-1)) as H1.
  pose proof (MakeDay_date_shift (y + N / 12) (N mod 12) 1
                (daysInMonth (y + N / 12) (N mod 12) - 1)) as H2.
  replace (1 + -1) with 0 in H1 by lia.
  replace (1 + (daysInMonth (y + N / 12) (N mod 12) - 1))
    with (daysInMonth (y + N / 12) (N mod 12)) in H2 by lia.
  lia.
Qed.

(** The civil fields of an instant built from a valid civil date *)
Lemma civil_MakeDate (y m d time : Z) :
  0 <= m <= 11 -> 1 <= d <= daysInMonth y m -> 0 <= time < msPerDay ->
  getFullYear (UTC (MakeDate (MakeDay y m d) time)) = y /\
  getMonth (UTC (MakeDate (MakeDay y m d) time)) = m /\
  getDate (UTC (MakeDate (MakeDay y m d) time)) = d.
Proof.
  intros Hm Hd Ht. unfold getFullYear, getMonth, getDate.
  rewrite LocalTime_UTC, Day_MakeDate by exact Ht.
  apply civil_MakeDay; assumption.
Qed.

(** [addMonths] lands in the month [amount] months away, on the same day of
    the month or on the last one of a shorter month, at the same time of
    day. *)
Lemma addMonths_spec (d amount : Z) :
  let ty := getFullYear d + (getMonth d + amount) / 12 in
  let tm := (getMonth d + amount) mod 12 in
  addMonths d amount
  = UTC (MakeDate (MakeDay ty tm (Z.min (getDate d) (daysInMonth ty tm)))
                  (TimeWithinDay (LocalTime d))).
Proof.
  intros ty tm.
  pose proof (getMonth_range d) as HM. pose proof (getDate_range d) as HD.
  pose proof (TimeWithinDay_range (LocalTime d)) as HT.
  assert (Htm : 0 <= tm <= 11) by (unfold tm; zdiv).
  pose proof (daysInMonth_range ty tm Htm) as Hdim.
  unfold addMonths. destruct (Z.eqb_spec amount 0) as [-> | Hne].
  - assert (ty = getFullYear d) as -> by (unfold ty; zdiv).
    assert (tm = getMonth d) as -> by (unfold tm; zdiv).
    rewrite Z.min_l by lia. rewrite Day_civil. unfold localDay.
    rewrite MakeDate_Day, UTC_LocalTime. reflexivity.
  - assert (Hend : setMonth d (getMonth d + amount + 1) 0
                   = UTC (MakeDate (MakeDay ty tm (daysInMonth ty tm))
                                   (TimeWithinDay (LocalTime d)))).
    { unfold setMonth. rewrite MakeDay_month_end. reflexivity. }
    rewrite Hend.
    destruct (civil_MakeDate ty tm (daysInMonth ty tm) (TimeWithinDay (LocalTime d)))
      as (Ey & Em & Ed); [lia | lia | lia | ].
    rewrite Ey, Em, Ed.
    destruct (Z.leb_spec (daysInMonth ty tm) (getDate d)) as [L | G].
    + rewrite Z.min_r by lia. reflexivity.
    + rewrite Z.min_l by lia. unfold setFullYear. reflexivity.
Qed.

Lemma addMonths_index (d amount : Z) :
  monthIndex (addMonths d amount) = monthIndex d + amount.
Proof.
  pose proof (addMonths_spec d amount) as H. cbv zeta in H. rewrite H.
  set (ty := getFullYear d + (getMonth d + amount) / 12).
  set (tm := (getMonth d + amount) mod 12).
  assert (Htm : 0 <= tm <= 11) by (unfold tm; zdiv).
  pose proof (daysInMonth_range ty tm Htm) as Hdim.
  pose proof (getDate_range d) as HD.
  destruct (civil_MakeDate ty tm (Z.min (getDate d) (daysInMonth ty tm))
              (TimeWithinDay (LocalTime d))) as (Ey & Em & _);
    [lia | lia | apply TimeWithinDay_range | ].
  unfold monthIndex. rewrite Ey, Em. unfold ty, tm. zdiv.
Qed.

Lemma subMonths_index (d amount : Z) :
  monthIndex (subMonths d amount) = monthIndex d - amount.
Proof. unfold subMonths. rewrite addMonths_index. lia. Qed.

Lemma monthStart_mono (l m m' : Z) :
  0 <= l <= 1 -> 0 <= m -> m <= m' -> m' <= 12 ->
  monthStart l m <= monthStart l m'.
Proof.
  intros Hl H0 Hle H12.
  assert (Hc : forall k, 0 <= k <= 12 ->
            k = 0 \/ k = 1 \/ k = 2 \/ k = 3 \/ k = 4 \/ k = 5 \/ k = 6 \/
            k = 7 \/ k = 8 \/ k = 9 \/ k = 10 \/ k = 11 \/ k = 12) by (intros; lia).
  destruct (Hc m ltac:(lia)) as [C | C]; repeat (destruct C as [C | C]);
    subst m;
    (destruct (Hc m' ltac:(lia)) as [C | C]; repeat (destruct C as [C | C]);
     subst m'; cbn [monthStart]; lia).
Qed.

Lemma MonthFromDay_mono (a b : Z) :
  a <= b -> YearFromDay a = YearFromDay b -> MonthFromDay a <= MonthFromDay b.
Proof.
  intros Hab Hy.
  destruct (day_in_month a) as [Hma Ha]. destruct (day_in_month b) as [Hmb Hb].
  rewrite Hy in Ha.
  destruct (Z.le_gt_cases (MonthFromDay a) (MonthFromDay b)) as [L | G]; [exact L | ].
  pose proof (leapFlag_range (YearFromDay b)) as Hl.
  pose proof (monthStart_mono (leapFlag (YearFromDay b))
                (MonthFromDay b + 1) (MonthFromDay a)
                ltac:(lia) ltac:(lia) ltac:(lia) ltac:(lia)).
  lia.
Qed.

(** Later instants lie in later (or the same) months. *)
Lemma monthIndex_mono (a b : Z) : a <= b -> monthIndex a <= monthIndex b.
Proof.
  intros Hab. unfold monthIndex, getFullYear, getMonth.
  pose proof (localDay_mono _ _ Hab) as Hd. unfold localDay in Hd.
  pose proof (YearFromDay_mono _ _ Hd) as Hy.
  destruct (day_in_month (Day (LocalTime a))) as [Hma _].
  destruct (day_in_month (Day (LocalTime b))) as [Hmb _].
  destruct (Z.eq_dec (YearFromDay (Day (LocalTime a)))
                     (YearFromDay (Day (LocalTime b)))) as [E | N].
  - pose proof (MonthFromDay_mono _ _ Hd E). lia.
  - lia.
Qed.

Lemma monthIndex_lt (a b : Z) : monthIndex a < monthIndex b -> a < b.
Proof.
  intros H. destruct (Z.lt_ge_cases a b) as [L | G]; [exact L | ].
  pose proof (monthIndex_mono _ _ G). lia.
Qed.

Lemma setHours_eq (t h m s ms : Z) :
  setHours t h m s ms = UTC (MakeDate (localDay t) (MakeTime h m s ms)).
Proof. reflexivity. Qed.

Lemma endOfMonth_eq (d : Z) :
  endOfMonth d
  = UTC (MakeDate (MakeDay (getFullYear d) (getMonth d)
                           (daysInMonth (getFullYear d) (getMonth d)))
                  (msPerDay - 1)).
Proof.
  pose proof (getMonth_range d) as HM.
  unfold endOfMonth. rewrite setHours_eq. unfold setFullYear.
  rewrite localDay_MakeDate by apply TimeWithinDay_range.
  rewrite MakeDay_month_end.
  replace (getMonth d / 12) with 0 by zdiv.
  replace (getMonth d mod 12) with (getMonth d) by zdiv.
  rewrite Z.add_0_r. reflexivity.
Qed.

Lemma endOfMonth_index (d : Z) : monthIndex (endOfMonth d) = monthIndex d.
Proof.
  pose proof (getMonth_range d) as HM.
  pose proof (daysInMonth_range (getFullYear d) (getMonth d) HM) as Hdim.
  rewrite endOfMonth_eq.
  destruct (civil_MakeDate (getFullYear d) (getMonth d)
              (daysInMonth (getFullYear d) (getMonth d)) (msPerDay - 1))
    as (Ey & Em & _); [lia | lia | unfold_ms; lia | ].
  unfold monthIndex. rewrite Ey, Em. reflexivity.
Qed.

Lemma DayFromYear_lt (y : Z) : DayFromYear y < DayFromYear (y + 1).
Proof. rewrite DayFromYear_succ. unfold DaysInYear. destruct (isLeapYear y); lia. Qed.

Lemma MakeDay_jan1 (y : Z) : MakeDay y 0 1 = DayFromYear y.
Proof. rewrite MakeDay_month by lia. cbn [monthStart]. lia. Qed.

Lemma startOfYear_eq (d : Z) :
  startOfYear d = midnight (DayFromYear (getFullYear d)).
Proof.
  unfold startOfYear. rewrite setHours_eq. unfold setFullYear.
  rewrite localDay_MakeDate by apply TimeWithinDay_range.
  rewrite MakeDay_jan1. unfold midnight, MakeDate, MakeTime. f_equal. lia.
Qed.

Lemma getFullYear_MakeDate (day time : Z) :
  0 <= time < msPerDay -> getFullYear (UTC (MakeDate day time)) = YearFromDay day.
Proof.
  intros H. unfold getFullYear. rewrite LocalTime_UTC, Day_MakeDate by exact H.
  reflexivity.
Qed.

Lemma getFullYear_jan1 (y : Z) : getFullYear (midnight (DayFromYear y)) = y.
Proof.
  unfold getFullYear, midnight. rewrite LocalTime_UTC, Day_midnight.
  apply YearFromDay_unique. pose proof (DayFromYear_lt y). lia.
Qed.

Lemma endOfYear_year (d : Z) : getFullYear (endOfYear d) = getFullYear d.
Proof.
  unfold endOfYear. rewrite setHours_eq. unfold setFullYear.
  rewrite localDay_MakeDate by apply TimeWithinDay_range.
  rewrite getFullYear_MakeDate by (cbv; split; congruence).
  apply YearFromDay_unique.
  pose proof (MakeDay_date_shift (getFullYear d + 1) 0 1 (-1)) as H.
  change (1 + -1) with 0 in H. rewrite MakeDay_jan1 in H.
  pose proof (DayFromYear_lt (getFullYear d)). lia.
Qed.

Lemma subYears_year (d k : Z) : getFullYear (subYears d k) = getFullYear d - k.
Proof.
  pose proof (addMonths_index d (- k * 12)) as H.
  unfold subYears, addYears. unfold monthIndex in H.
  pose proof (getMonth_range d). pose proof (getMonth_range (addMonths d (- k * 12))).
  lia.
Qed.

(** [new Date(year, 0, 1)] outside of the two-digit years *)
Lemma newDate_jan1 (year : Z) :
  ~ 0 <= year <= 99 -> newDate year 0 1 = midnight (DayFromYear year).
Proof.
  intros H. unfold newDate.
  destruct (Z.leb_spec 0 year); destruct (Z.leb_spec year 99); cbn [andb];
    try lia; rewrite MakeDay_jan1; unfold midnight, MakeDate; f_equal; lia.
Qed.

(** From the epoch on, the local clock shows 1969 or later. *)
Lemma getFullYear_epoch (now : Z) : 0 <= now -> 1969 <= getFullYear now.
Proof.
  intros H. unfold getFullYear.
  pose proof LocalTZA_bound as Hz.
  assert (Hd : -1 <= Day (LocalTime now))
    by (unfold Day, LocalTime; unfold_ms; zdiv).
  pose proof (YearFromDay_mono (-1) (Day (LocalTime now)) Hd) as Hy.
  change (YearFromDay (-1)) with 1969 in Hy. exact Hy.
Qed.

(* ================================================================== *)
(** ** The bucket generator *)
(* ================================================================== *)

Section Keys.

(** A matching predicate that compares a key of the two instants is
    exclusive on points with pairwise different keys, and an instant matches
    the one point that has its key, if there is one. *)
Variables (timeframe : option string) (dateRange : DateRange) (key : Z -> Z).
Hypothesis match_key : forall t p,
  isMatch timeframe dateRange t p = (key t =? key p).


Lemma matching_none (t : Transaction) (points : list TrendPoint) :
  ~ In (key (createdAt t)) (map (fun p => key (timestamp p)) points) ->
  matching timeframe dateRange t points = [].
Proof.
  unfold matching. induction points as [ | p l IH]; intros Hn; [reflexivity | ].
  cbn [filter map] in *. rewrite match_key.
  destruct (Z.eqb_spec (key (createdAt t)) (key (timestamp p))) as [E | _].
  - exfalso. apply Hn. left. congruence.
  - apply IH. intros H. apply Hn. right. exact H.
Qed.

Lemma matching_by_key (t : Transaction) (points : list TrendPoint) :
  NoDup (map (fun p => key (timestamp p)) points) ->
  In (key (createdAt t)) (map (fun p => key (timestamp p)) points) ->
  List.length (matching timeframe dateRange t points) = 1%nat.
Proof.
  induction points as [ | p l IH]; intros Hnd Hin; [destruct Hin | ].
  cbn [map] in Hnd, Hin. inversion Hnd as [ | ? ? Hp Hl]; subst.
  unfold matching. cbn [filter]. rewrite match_key.
  fold (matching timeframe dateRange t l).
  destruct (Z.eqb_spec (key (createdAt t)) (key (timestamp p))) as [E | N].
  - rewrite matching_none; [reflexivity | ]. rewrite E. exact Hp.
  - apply IH; [exact Hl | ]. destruct Hin as [E | Hin]; [congruence | exact Hin].
Qed.

End Keys.

Lemma NoDup_indices (n : nat) : NoDup (indices n).
Proof.
  unfold indices. apply Finite.Injective_map_NoDup.
  - intros a b. apply Nat2Z.inj.
  - apply seq_NoDup.
Qed.

Lemma NoDup_offsets (base : Z) (n : nat) :
  NoDup (map (fun k => base + k) (indices n)).
Proof.
  apply Finite.Injective_map_NoDup; [ | apply NoDup_indices].
  intros a b. lia.
Qed.


(** *** The four named timeframes, one equation each *)

Lemma generate_Today (dateRange : DateRange) (now : Z) :
  generateTrendDataPoints (Some "Today"%string) dateRange now
  = hourlyPoints (start (window dateRange)).
Proof. reflexivity. Qed.

Lemma generate_Week (dateRange : DateRange) (now : Z) :
  generateTrendDataPoints (Some "Week"%string) dateRange now
  = map (fun date => mkPoint (format_EEE date) date zero)
        (eachDayOfInterval (start (window dateRange)) (end_ (window dateRange))).
Proof. reflexivity. Qed.

Lemma generate_Month (dateRange : DateRange) (now : Z) :
  generateTrendDataPoints (Some "Month"%string) dateRange now
  = map (fun i => mkPoint (format_MMM (addMonths (subMonths (endOfMonth now) 11) i))
                          (addMonths (subMonths (endOfMonth now) 11) i) zero)
        (indices 12).
Proof. reflexivity. Qed.

Lemma generate_Year (dateRange : DateRange) (now : Z) :
  generateTrendDataPoints (Some "Year"%string) dateRange now
  = flat_map (fun i =>
                let year := getFullYear (start (window dateRange)) + i in
                if year <=? getFullYear (end_ (window dateRange)) then
                  [mkPoint (toString year) (newDate year 0 1) zero]
                else [])
             (indices 3).
Proof. reflexivity. Qed.

Lemma isMatch_Today (dateRange : DateRange) (t p : Z) :
  isMatch (Some "Today"%string) dateRange t p = (getHours t =? getHours p).
Proof. reflexivity. Qed.

Lemma isMatch_Week (dateRange : DateRange) (t p : Z) :
  isMatch (Some "Week"%string) dateRange t p = isSameDay t p.
Proof. reflexivity. Qed.

Lemma isMatch_Month (dateRange : DateRange) (t p : Z) :
  isMatch (Some "Month"%string) dateRange t p = isSameMonth t p.
Proof. reflexivity. Qed.

Lemma isMatch_Year (dateRange : DateRange) (t p : Z) :
  isMatch (Some "Year"%string) dateRange t p = (getFullYear t =? getFullYear p).
Proof. reflexivity. Qed.

(** The generator reads the clock for the timeframe Month only. *)
Lemma generate_other_clock
    (timeframe : option string) (dateRange : DateRange) (a b : Z) :
  timeframe <> Some "Month"%string ->
  generateTrendDataPoints timeframe dateRange a
  = generateTrendDataPoints timeframe dateRange b.
Proof.
  intros H. unfold generateTrendDataPoints.
  destruct (noTimeframe timeframe); [reflexivity | ].
  destruct timeframe as [s | ]; [ | reflexivity].
  destruct (String.eqb s "Today"); [reflexivity | ].
  destruct (String.eqb s "Week"); [reflexivity | ].
  destruct (String.eqb_spec s "Month") as [-> | _]; [congruence | reflexivity].
Qed.

(** *** Hourly buckets *)

Lemma hourly_timestamp (start_ i : Z) :
  setHours start_ i 0 0 0 = UTC (MakeDate (localDay start_) (i * msPerHour)).
Proof. unfold setHours, localDay, MakeTime. do 2 f_equal. lia. Qed.

Lemma hourly_hour (start_ i : Z) :
  0 <= i < 24 -> getHours (setHours start_ i 0 0 0) = i.
Proof.
  intros Hi. rewrite hourly_timestamp, getHours_MakeDate by (unfold_ms; lia).
  unfold_ms. zdiv.
Qed.


Lemma hourlyPoints_names (start_ : Z) : map name (hourlyPoints start_) = hourLabels.
Proof. unfold hourlyPoints. rewrite map_map. reflexivity. Qed.



Lemma hourlyPoints_hours (start_ : Z) :
  map (fun p => getHours (timestamp p)) (hourlyPoints start_)
  = map (fun k => 0 + k) (indices 24).
Proof.
  unfold hourlyPoints. rewrite map_map. apply map_ext_in.
  intros i Hi. apply In_indices in Hi. cbn [timestamp].
  rewrite hourly_hour; lia.
Qed.

Lemma hourlyPoints_zero (start_ : Z) :
  Forall (fun p => value p = zero) (hourlyPoints start_).
Proof.
  unfold hourlyPoints. apply Forall_forall. intros p Hp.
  apply in_map_iff in Hp. destruct Hp as (i & <- & _). reflexivity.
Qed.

(** *** Daily buckets of the current week *)

Lemma week_days (now : Z) :
  eachDayOfInterval (startOfWeek now) (endOfWeek now)
  = map (fun k => midnight (localDay now - getDay now + k)) (indices 7).
Proof.
  rewrite startOfWeek_eq, endOfWeek_eq.
  rewrite eachDayOfInterval_spec by (unfold midnight, UTC; unfold_ms; lia).
  rewrite localDay_midnight, endOfDay_MakeDate.
  rewrite localDay_MakeDate by (unfold_ms; lia).
  replace (Z.to_nat (localDay now - getDay now + 6
                     - (localDay now - getDay now) + 1))
    with 7%nat by lia.
  reflexivity.
Qed.

Lemma week_points (dateRange : DateRange) (now : Z) :
  window dateRange = mkInterval (startOfWeek now) (endOfWeek now) ->
  map timestamp (generateTrendDataPoints (Some "Week"%string) dateRange now)
  = map (fun k => midnight (localDay now - getDay now + k)) (indices 7).
Proof.
  intros Hw. rewrite generate_Week, Hw. cbn [start end_].
  rewrite week_days, !map_map. reflexivity.
Qed.

(** *** Monthly buckets of the last twelve months *)


(** The twelve buckets are the twelve months that end with the current
    one. *)
Lemma month_points_index (dateRange : DateRange) (now : Z) :
  map (fun p => monthIndex (timestamp p))
      (generateTrendDataPoints (Some "Month"%string) dateRange now)
  = map (fun k => monthIndex now - 11 + k) (indices 12).
Proof.
  rewrite generate_Month, map_map. apply map_ext. intros i. cbn [timestamp].
  unfold subMonths. rewrite !addMonths_index, endOfMonth_index. lia.
Qed.

(** *** Yearly buckets *)

Lemma year_points (now : Z) :
  generateTrendDataPoints (Some "Year"%string) (getDateRange "Year" now) now
  = [yearPoint (getFullYear now - 2); yearPoint (getFullYear now - 1);
     yearPoint (getFullYear now)].
Proof.
  rewrite generate_Year.
  change (window (getDateRange "Year" now))
    with (mkInterval (startOfYear (subYears now 2)) (endOfYear now)).
  cbn [start end_].
  rewrite startOfYear_eq, getFullYear_jan1, subYears_year, endOfYear_year.
  change (indices 3) with [0; 1; 2]. cbn [flat_map app].
  repeat match goal with
         | |- context [?a <=? ?b] => destruct (Z.leb_spec a b); [ | lia]
         end.
  unfold yearPoint.
  replace (getFullYear now - 2 + 0) with (getFullYear now - 2) by lia.
  replace (getFullYear now - 2 + 1) with (getFullYear now - 1) by lia.
  replace (getFullYear now - 2 + 2) with (getFullYear now) by lia.
  reflexivity.
Qed.


(** The buckets of a named timeframe start empty. *)
Lemma buckets_per_timeframe_zero (now : Z) (timeframe : string) :
  In timeframe namedTimeframes ->
  Forall (fun p => value p = zero)
    (generateTrendDataPoints (Some timeframe) (getDateRange timeframe now) now).
Proof.
  intros Htf. destruct Htf as [<- | [<- | [<- | [<- | []]]]].
  - rewrite generate_Today. apply hourlyPoints_zero.
  - rewrite generate_Week. apply Forall_forall. intros p Hp.
    apply in_map_iff in Hp. destruct Hp as (d & <- & _). reflexivity.
  - rewrite generate_Month. apply Forall_forall. intros p Hp.
    apply in_map_iff in Hp. destruct Hp as (d & <- & _). reflexivity.
  - rewrite generate_Year. apply Forall_forall. intros p Hp.
    apply in_flat_map in Hp. destruct Hp as (i & _ & Hp).
    cbv zeta in Hp.
    destruct (_ <=? _); [destruct Hp as [<- | []]; reflexivity | destruct Hp].
Qed.


(* ================================================================== *)
(** ** Finite numbers *)
(* ================================================================== *)

Lemma Qc_is0_spec (q : Qc) : Qc_is0 q = true <-> q = 0%Qc.
Proof.
  unfold Qc_is0. rewrite Qeq_bool_iff. split.
  - intros H. apply Qc_is_canon. exact H.
  - intros ->. reflexivity.
Qed.

Lemma Qc_is0_false (q : Qc) : Qc_is0 q = false <-> q <> 0%Qc.
Proof.
  rewrite <- Qc_is0_spec. destruct (Qc_is0 q); split; congruence.
Qed.

Lemma isFinite_Fin (x : num) : isFinite x = true <-> x = Fin (valQ x).
Proof. destruct x; cbn; split; congruence. Qed.

Lemma or0_Fin (q : Qc) : or0 (Fin q) = Fin q.
Proof.
  unfold or0, falsy. destruct (Qc_is0 q) eqn:E; [ | reflexivity].
  apply Qc_is0_spec in E. subst q. reflexivity.
Qed.

Lemma fold_add_Fin {A : Type} (f : A -> Qc) (l : list A) : forall a : Qc,
  fold_left (fun s x => add s (Fin (f x))) l (Fin a)
  = Fin (a + sumQc (map f l))%Qc.
Proof.
  induction l as [ | x l IH]; intros a; cbn [fold_left map sumQc fold_right].
  - f_equal. ring.
  - cbn [add]. rewrite IH. f_equal. unfold sumQc. ring.
Qed.

Lemma sumAmounts_Fin (transactions : list Transaction) :
  sumAmounts transactions = Fin (revenueQ transactions).
Proof.
  unfold sumAmounts, zero. rewrite fold_add_Fin. unfold revenueQ. f_equal. ring.
Qed.

(* ================================================================== *)
(** ** The aggregation pass over the buckets *)
(* ================================================================== *)

Lemma sumValues_Fin (points : list TrendPoint) :
  finitePoints points -> sumValues points = Fin (pointsQ points).
Proof.
  intros Hf. unfold sumValues, pointsQ.
  assert (E : forall a,
    fold_left (fun s p => add s (value p)) points a
    = fold_left (fun s p => add s (Fin (valQ (value p)))) points a).
  { induction Hf as [ | p l Hp Hl IH]; intros a; [reflexivity | ].
    cbn [fold_left]. apply isFinite_Fin in Hp. rewrite <- Hp. apply IH. }
  rewrite E. unfold zero. rewrite fold_add_Fin. f_equal. ring.
Qed.

Section Fill.

Variables (timeframe : option string) (dateRange : DateRange).

Lemma fillPoint_timestamp (t : Transaction) (p : TrendPoint) :
  timestamp (fillPoint timeframe dateRange t p) = timestamp p.
Proof. unfold fillPoint. destruct (isMatch _ _ _ _); reflexivity. Qed.

Lemma fillPoint_name (t : Transaction) (p : TrendPoint) :
  name (fillPoint timeframe dateRange t p) = name p.
Proof. unfold fillPoint. destruct (isMatch _ _ _ _); reflexivity. Qed.

Lemma fillPoint_finite (t : Transaction) (p : TrendPoint) :
  isFinite (value p) = true ->
  isFinite (value (fillPoint timeframe dateRange t p)) = true.
Proof.
  intros H. unfold fillPoint. destruct (isMatch _ _ _ _); [ | exact H].
  apply isFinite_Fin in H. cbn [value]. rewrite H, or0_Fin. reflexivity.
Qed.

Lemma fillPoint_value_match (t : Transaction) (p : TrendPoint) :
  isFinite (value p) = true ->
  isMatch timeframe dateRange (createdAt t) (timestamp p) = true ->
  valQ (value (fillPoint timeframe dateRange t p))
  = (valQ (value p) + totalAmount t)%Qc.
Proof.
  intros H M. unfold fillPoint. rewrite M. apply isFinite_Fin in H.
  cbn [value]. rewrite H, or0_Fin. reflexivity.
Qed.

Lemma fillPoint_no_match (t : Transaction) (p : TrendPoint) :
  isMatch timeframe dateRange (createdAt t) (timestamp p) = false ->
  fillPoint timeframe dateRange t p = p.
Proof. intros M. unfold fillPoint. rewrite M. reflexivity. Qed.

(** The buckets a later transaction matches are not changed by filling in
    an earlier one. *)
Lemma matching_fill_length (t u : Transaction) (points : list TrendPoint) :
  List.length (matching timeframe dateRange u
                 (map (fillPoint timeframe dateRange t) points))
  = List.length (matching timeframe dateRange u points).
Proof.
  unfold matching. induction points as [ | p l IH]; [reflexivity | ].
  cbn [map filter]. rewrite fillPoint_timestamp.
  destruct (isMatch _ _ (createdAt u) (timestamp p)); cbn [List.length]; lia.
Qed.

Lemma fill_none (t : Transaction) (points : list TrendPoint) :
  matching timeframe dateRange t points = [] ->
  map (fillPoint timeframe dateRange t) points = points.
Proof.
  unfold matching. induction points as [ | p l IH]; [reflexivity | ].
  cbn [map filter].
  destruct (isMatch _ _ (createdAt t) (timestamp p)) eqn:M; [discriminate | ].
  intros H. rewrite fillPoint_no_match by exact M. f_equal. apply IH, H.
Qed.

(** A transaction that matches exactly one bucket adds its amount to the
    sum of the buckets. *)
Lemma fill_one (t : Transaction) (points : list TrendPoint) :
  finitePoints points ->
  List.length (matching timeframe dateRange t points) = 1%nat ->
  pointsQ (map (fillPoint timeframe dateRange t) points)
  = (pointsQ points + totalAmount t)%Qc.
Proof.
  unfold pointsQ. intros Hf. induction Hf as [ | p l Hp Hl IH]; [discriminate | ].
  unfold matching. cbn [map filter sumQc fold_right].
  destruct (isMatch _ _ (createdAt t) (timestamp p)) eqn:M; cbn [List.length]; intros H.
  - rewrite fillPoint_value_match by assumption.
    rewrite fill_none.
    + unfold sumQc. ring.
    + apply length_zero_iff_nil. unfold matching. lia.
  - rewrite fillPoint_no_match by exact M.
    fold (sumQc (map (fun p => valQ (value p))
                     (map (fillPoint timeframe dateRange t) l))).
    rewrite IH by exact H. unfold sumQc. ring.
Qed.

Lemma fill_finite (t : Transaction) (points : list TrendPoint) :
  finitePoints points ->
  finitePoints (map (fillPoint timeframe dateRange t) points).
Proof.
  unfold finitePoints. rewrite Forall_map. apply Forall_impl.
  intros p. apply fillPoint_finite.
Qed.

Lemma fillTrend_total (transactions : list Transaction) :
  forall points : list TrendPoint,
  finitePoints points ->
  (forall t, In t transactions ->
             List.length (matching timeframe dateRange t points) = 1%nat) ->
  finitePoints (fillTrend timeframe dateRange transactions points) /\
  pointsQ (fillTrend timeframe dateRange transactions points)
  = (pointsQ points + revenueQ transactions)%Qc.
Proof.
  unfold fillTrend, revenueQ.
  induction transactions as [ | t l IH]; intros points Hf Hm.
  - cbn [fold_left map sumQc fold_right]. split; [exact Hf | ring].
  - cbn [fold_left map sumQc fold_right].
    destruct (IH (map (fillPoint timeframe dateRange t) points)) as [F S].
    + apply fill_finite, Hf.
    + intros u Hu. rewrite matching_fill_length. apply Hm. right. exact Hu.
    + split; [exact F | ]. rewrite S, fill_one; [ | exact Hf | apply Hm; left; reflexivity].
      unfold sumQc. ring.
Qed.

End Fill.

Lemma zero_points_finite (points : list TrendPoint) :
  Forall (fun p => value p = zero) points -> finitePoints points.
Proof. apply Forall_impl. intros p ->. reflexivity. Qed.

Lemma zero_points_sum (points : list TrendPoint) :
  Forall (fun p => value p = zero) points -> pointsQ points = 0%Qc.
Proof.
  unfold pointsQ. induction 1 as [ | p l Hp Hl IH]; [reflexivity | ].
  cbn [map sumQc fold_right]. rewrite Hp. fold (sumQc (map (fun p => valQ (value p)) l)).
  rewrite IH. cbn [valQ zero]. ring.
Qed.

Lemma sumTrend_finite (points : list TrendPoint) :
  finitePoints points -> sumTrend (salesTrendOf points) = sumValues points.
Proof.
  intros Hf. unfold sumTrend, sumValues, salesTrendOf. generalize zero.
  induction Hf as [ | p l Hp Hl IH]; intros a; [reflexivity | ].
  cbn [map fold_left te_value]. apply isFinite_Fin in Hp.
  rewrite Hp at 1. rewrite or0_Fin, <- Hp. apply IH.
Qed.

(** Empty buckets that every transaction matches exactly once stay finite
    and add up to the revenue, as rationals. *)
Lemma fill_zero_total
    (timeframe : option string) (dateRange : DateRange)
    (transactions : list Transaction) (points : list TrendPoint) :
  Forall (fun p => value p = zero) points ->
  (forall t, In t transactions ->
             List.length (matching timeframe dateRange t points) = 1%nat) ->
  finitePoints (fillTrend timeframe dateRange transactions points) /\
  pointsQ (fillTrend timeframe dateRange transactions points)
  = revenueQ transactions.
Proof.
  intros Hz Hm.
  destruct (fillTrend_total timeframe dateRange transactions points
              (zero_points_finite _ Hz) Hm) as [F S].
  split; [exact F | ]. rewrite S, (zero_points_sum points Hz). ring.
Qed.

(** C2, amended.  When the buckets start empty and every current-window
    transaction matches exactly one of them, and the amounts are added
    exactly, the bucket values add up, after the aggregation pass, to the
    sum of [totalAmount] over the transactions; so do the values of
    [salesTrend].  The two sums add the same amounts in a different order:
    under binary64 rounding they can differ. *)
Theorem trend_sum_is_revenue
    (timeframe : option string) (dateRange : DateRange)
    (transactions : list Transaction) (points : list TrendPoint) :
  Forall (fun p => value p = zero) points ->
  (forall t, In t transactions ->
             List.length (matching timeframe dateRange t points) = 1%nat) ->
  sumValues (fillTrend timeframe dateRange transactions points)
    = sumAmounts transactions /\
  sumTrend (salesTrendOf (fillTrend timeframe dateRange transactions points))
    = sumAmounts transactions.
Proof.
  intros Hz Hm.
  destruct (fill_zero_total timeframe dateRange transactions points Hz Hm)
    as [F S].
  rewrite sumTrend_finite by exact F.
  rewrite sumValues_Fin by exact F.
  rewrite S, sumAmounts_Fin. split; reflexivity.
Qed.

(* ================================================================== *)
(** ** Key metrics and period-over-period changes *)
(* ================================================================== *)

Lemma of_Z_nonzero (z : Z) : z <> 0 -> Qc_is0 (Q2Qc (inject_Z z)) = false.
Proof.
  intros Hz. apply Qc_is0_false. intros E.
  apply Q2Qc_eq_iff in E. unfold Qeq in E. cbn in E. lia.
Qed.

Lemma avgValue_finite (r : num) (n : Z) :
  isFinite r = true -> isFinite (avgValue r n) = true.
Proof.
  intros H. apply isFinite_Fin in H. unfold avgValue.
  destruct (Z.ltb_spec 0 n) as [L | G]; [ | reflexivity].
  rewrite H. unfold div, of_Z. rewrite of_Z_nonzero by lia. reflexivity.
Qed.

Lemma avgValue_no_orders (r : num) : avgValue r 0 = zero.
Proof. reflexivity. Qed.

Lemma gt_zero_nonzero (p : Qc) : gt (Fin p) zero = true -> Qc_is0 p = false.
Proof.
  unfold gt, zero. intros H. apply Qc_is0_false. intros ->.
  rewrite (proj1 (Qceq_alt 0 0) eq_refl) in H. discriminate.
Qed.

Lemma percentChange_finite (current previous_ : num) :
  isFinite current = true -> isFinite previous_ = true ->
  isFinite (percentChange current previous_) = true.
Proof.
  intros Hc Hp. apply isFinite_Fin in Hc. apply isFinite_Fin in Hp.
  unfold percentChange. destruct (gt previous_ zero) eqn:G; [ | reflexivity].
  rewrite Hp in G. apply gt_zero_nonzero in G.
  rewrite Hc, Hp. unfold sub, neg, add, div. rewrite G. reflexivity.
Qed.

Lemma percentChange_previous_zero (current : num) :
  percentChange current zero = zero.
Proof.
  unfold percentChange, gt, zero.
  rewrite (proj1 (Qceq_alt 0 0) eq_refl). reflexivity.
Qed.

Lemma of_Z_finite (z : Z) : isFinite (of_Z z) = true.
Proof. reflexivity. Qed.

Lemma sumAmounts_finite (transactions : list Transaction) :
  isFinite (sumAmounts transactions) = true.
Proof. rewrite sumAmounts_Fin. reflexivity. Qed.

(** With amounts added and divided exactly, so that no operation overflows,
    [avgOrderValue] and the percentage changes of revenue, orders and
    average order value are finite for every request and every table;
    [avgOrderValue] is 0 when there are no orders, and each change is 0 when
    the previous-period value it is measured against is 0. *)
Theorem metrics_are_finite (q : Query) (now : Z) (db : list Transaction) :
  let m := metrics (analytics q now db) in
  let c := previousPeriodComparison m in
  let previousTransactions := findMany db (previous (resolveDateRange q now)) in
  let previousRevenue := sumAmounts previousTransactions in
  let previousOrders := count previousTransactions in
  let previousAvgValue := avgValue previousRevenue previousOrders in
  isFinite (avgOrderValue m) = true /\
  isFinite (revenue c) = true /\
  isFinite (orders c) = true /\
  isFinite (avgOrder c) = true /\
  (totalOrders m = 0 -> avgOrderValue m = zero) /\
  (previousRevenue = zero -> revenue c = zero) /\
  (previousOrders = 0 -> orders c = zero) /\
  (previousAvgValue = zero -> avgOrder c = zero).
Proof.
  cbv zeta. unfold analytics.
  cbn [metrics previousPeriodComparison avgOrderValue totalOrders
       revenue orders avgOrder].
  repeat split.
  - apply avgValue_finite, sumAmounts_finite.
  - apply percentChange_finite; apply sumAmounts_finite.
  - apply percentChange_finite; apply of_Z_finite.
  - apply percentChange_finite; apply avgValue_finite, sumAmounts_finite.
  - intros ->. apply avgValue_no_orders.
  - intros ->. apply percentChange_previous_zero.
  - intros ->. apply percentChange_previous_zero.
  - intros ->. apply percentChange_previous_zero.
Qed.

(** C10.  In [previousPeriodComparison] the fields [sales] and [orders] are
    equal: both hold the percentage change of the number of orders. *)
Theorem sales_is_orders_change (q : Query) (now : Z) (db : list Transaction) :
  let dateRange := resolveDateRange q now in
  let c := previousPeriodComparison (metrics (analytics q now db)) in
  sales c = orders c /\
  orders c = percentChange (of_Z (count (findMany db (window dateRange))))
                           (of_Z (count (findMany db (previous dateRange)))).
Proof. split; reflexivity. Qed.

(* ================================================================== *)
(** ** The calendar window resolver *)
(* ================================================================== *)

(** C6.  When both [start] and [end] are given they are the window, whatever
    the timeframe, and the previous window is the interval of the same
    duration that ends at [start]; the metrics are computed from the
    transactions of the explicit window. *)
Theorem explicit_range_takes_precedence
    (timeframe : option string) (explicitStart explicitEnd now : Z)
    (db : list Transaction) :
  let q := mkQuery timeframe (Some explicitStart) (Some explicitEnd) in
  let dateRange := resolveDateRange q now in
  window dateRange = mkInterval explicitStart explicitEnd /\
  end_ (previous dateRange) = explicitStart /\
  start (previous dateRange) = explicitStart - (explicitEnd - explicitStart) /\
  totalRevenue (metrics (analytics q now db))
    = sumAmounts (findMany db (mkInterval explicitStart explicitEnd)).
Proof. repeat split. Qed.

(** *** Unknown timeframes *)

Lemma fillTrend_nil (timeframe : option string) (dateRange : DateRange)
    (transactions : list Transaction) :
  fillTrend timeframe dateRange transactions [] = [].
Proof.
  unfold fillTrend. induction transactions as [ | t l IH]; [reflexivity | exact IH].
Qed.

Lemma not_named (timeframe : string) :
  ~ In timeframe namedTimeframes ->
  String.eqb timeframe "Today" = false /\ String.eqb timeframe "Week" = false /\
  String.eqb timeframe "Month" = false /\ String.eqb timeframe "Year" = false.
Proof.
  unfold namedTimeframes. cbn [In]. intros H.
  repeat split; apply String.eqb_neq; intros ->; apply H; auto.
Qed.

Lemma getDateRange_default (timeframe : string) (now : Z) :
  ~ In timeframe namedTimeframes ->
  getDateRange timeframe now = getDateRange "Today" now.
Proof.
  intros H. destruct (not_named timeframe H) as (E1 & E2 & E3 & E4).
  unfold getDateRange at 1. rewrite E1, E2, E3, E4. reflexivity.
Qed.

Lemma generate_unknown (timeframe : string) (dateRange : DateRange) (now : Z) :
  timeframe <> ""%string -> ~ In timeframe namedTimeframes ->
  generateTrendDataPoints (Some timeframe) dateRange now = [].
Proof.
  intros Hne H. destruct (not_named timeframe H) as (E1 & E2 & E3 & E4).
  unfold generateTrendDataPoints, noTimeframe.
  rewrite (proj2 (String.eqb_neq timeframe "") Hne), E1, E2, E3, E4.
  reflexivity.
Qed.

(** C9, amended.  For every non-empty timeframe that is none of Today,
    Week, Month, Year, and without both an explicit start and end, the
    window is the one of Today and the metrics are computed from its
    transactions, while the generator returns no bucket and [salesTrend] is
    empty. *)
Theorem unknown_timeframe_empty_trend
    (timeframe : string) (qs qe : option Z) (now : Z) (db : list Transaction) :
  timeframe <> ""%string ->
  ~ In timeframe namedTimeframes ->
  qs = None \/ qe = None ->
  let q := mkQuery (Some timeframe) qs qe in
  let today := getDateRange "Today" now in
  let report := analytics q now db in
  resolveDateRange q now = today /\
  generateTrendDataPoints (Some timeframe) (resolveDateRange q now) now = [] /\
  salesTrend report = [] /\
  totalRevenue (metrics report) = sumAmounts (findMany db (window today)) /\
  totalOrders (metrics report) = count (findMany db (window today)).
Proof.
  intros Hne Hun Hq q today report.
  assert (Hr : resolveDateRange q now = today).
  { unfold resolveDateRange, q, today. cbn [q_start q_end q_timeframe].
    assert (E : timeframeOrToday (Some timeframe) = timeframe).
    { unfold timeframeOrToday.
      rewrite (proj2 (String.eqb_neq timeframe "") Hne). reflexivity. }
    rewrite E.
    destruct Hq as [-> | ->]; [ | destruct qs]; apply getDateRange_default, Hun. }
  split; [exact Hr | ].
  split; [apply generate_unknown; assumption | ].
  unfold report, analytics. cbn [salesTrend metrics totalRevenue totalOrders].
  rewrite Hr. cbn [q_timeframe q].
  rewrite generate_unknown by assumption. rewrite fillTrend_nil.
  repeat split.
Qed.

(* ================================================================== *)
(** ** Custom ranges *)
(* ================================================================== *)

(** A custom range that touches between 3 and 31 calendar days gets one
    bucket per calendar day. *)
Lemma custom_daily (start_ end' : Z) (previous_ : Interval) (now : Z) (n : Z) :
  start_ <= end' -> localDay end' - localDay start_ = n -> 2 <= n <= 30 ->
  generateTrendDataPoints None
    (mkDateRange (mkInterval start_ end') previous_) now
  = map (fun k => dayPoint (midnight (localDay start_ + k)))
        (indices (Z.to_nat (n + 1))).
Proof.
  intros Hse Hn Hr.
  unfold generateTrendDataPoints, noTimeframe, daysDiff.
  cbn [window start end_].
  assert (Hd : 1 < - (- (end' - start_) / msPerDay) <= 31)
    by (unfold localDay, LocalTime, Day in Hn; unfold_ms; zdiv).
  destruct (Z.leb_spec (- (- (end' - start_) / msPerDay)) 1); [lia | ].
  destruct (Z.leb_spec (- (- (end' - start_) / msPerDay)) 31); [ | lia].
  rewrite eachDayOfInterval_spec by exact Hse.
  rewrite Hn, map_map. reflexivity.
Qed.

(** C8, amended.  For a custom range (no timeframe, explicit start and end)
    that touches exactly 10 local calendar days, its end lying on the ninth
    day after the day of its start, the generator works at daily granularity
    and returns exactly 10 buckets, one per calendar day: the midnights of
    the day of [start] and of the nine days after it, labelled by month and
    day. *)
Theorem custom_ten_days (explicitStart explicitEnd now : Z) :
  explicitStart <= explicitEnd ->
  localDay explicitEnd - localDay explicitStart = 9 ->
  let q := mkQuery None (Some explicitStart) (Some explicitEnd) in
  let points := generateTrendDataPoints (q_timeframe q) (resolveDateRange q now) now in
  List.length points = 10%nat /\
  points = map (fun k => dayPoint (midnight (localDay explicitStart + k))) (indices 10) /\
  (forall t, explicitStart <= t <= explicitEnd ->
     List.length (matching (q_timeframe q) (resolveDateRange q now)
                    (mkTransaction 0%Qc t []) points) = 1%nat).
Proof.
  intros Hse Hd q points.
  assert (Hp : points
    = map (fun k => dayPoint (midnight (localDay explicitStart + k))) (indices 10)).
  { unfold points, q, resolveDateRange. cbn [q_start q_end q_timeframe].
    rewrite (custom_daily explicitStart explicitEnd _ now 9) by (assumption || lia).
    reflexivity. }
  assert (Hkeys : map (fun p => localDay (timestamp p)) points
                  = map (fun k => localDay explicitStart + k) (indices 10)).
  { rewrite Hp, map_map. apply map_ext. intros k. apply localDay_midnight. }
  split; [rewrite Hp, length_map; apply indices_length | ].
  split; [exact Hp | ].
  intros t Ht. apply (matching_by_key _ _ localDay).
  - intros u p. unfold isMatch, q, resolveDateRange, noTimeframe, daysDiff.
    cbn [q_start q_end q_timeframe window start end_].
    assert (Hdd : 1 < - (- (explicitEnd - explicitStart) / msPerDay) <= 31)
      by (unfold localDay, LocalTime, Day in Hd; unfold_ms; zdiv).
    destruct (Z.leb_spec (- (- (explicitEnd - explicitStart) / msPerDay)) 1); [lia | ].
    destruct (Z.leb_spec (- (- (explicitEnd - explicitStart) / msPerDay)) 31); [ | lia].
    apply isSameDay_Day.
  - rewrite Hkeys. apply NoDup_offsets.
  - rewrite Hkeys. cbn [createdAt]. apply in_map_iff.
    exists (localDay t - localDay explicitStart). split; [lia | ].
    apply In_indices.
    pose proof (localDay_mono _ _ (proj1 Ht)). pose proof (localDay_mono _ _ (proj2 Ht)).
    lia.
Qed.

(* ================================================================== *)
(** ** The Today scenario *)
(* ================================================================== *)

Lemma getHours_today (now offset : Z) :
  0 <= offset < msPerDay ->
  getHours (startOfDay now + offset) = offset / msPerHour.
Proof.
  intros H. rewrite startOfDay_eq.
  replace (midnight (localDay now) + offset)
    with (UTC (MakeDate (localDay now) offset))
    by (unfold midnight, UTC, MakeDate; lia).
  apply getHours_MakeDate, H.
Qed.

(** Filling one transaction into an hourly bucket *)
Lemma fillPoint_hourly (dateRange : DateRange) (t : Transaction)
    (label : string) (start_ i : Z) (v : num) :
  0 <= i < 24 ->
  fillPoint (Some "Today"%string) dateRange t
    (mkPoint label (setHours start_ i 0 0 0) v)
  = mkPoint label (setHours start_ i 0 0 0)
      (if getHours (createdAt t) =? i
       then add (or0 v) (Fin (totalAmount t)) else v).
Proof.
  intros Hi. unfold fillPoint. cbn [timestamp name value].
  rewrite isMatch_Today, hourly_hour by exact Hi.
  destruct (getHours (createdAt t) =? i); reflexivity.
Qed.

(** The trend of a day with a sale of 100 at 09:15 and one of 50 at 09:45 *)
Lemma today_trend (now : Z) (items1 items2 : list Item) :
  let dateRange := getDateRange "Today" now in
  let transactions :=
    [mkTransaction (Q2Qc 100) (startOfDay now + 33300000) items1;
     mkTransaction (Q2Qc 50) (startOfDay now + 35100000) items2] in
  salesTrendOf
    (fillTrend (Some "Today"%string) dateRange transactions
       (generateTrendDataPoints (Some "Today"%string) dateRange now))
  = map (fun i => mkTrendEntry (toString i ++ ":00")
                    (if i =? 9 then Fin (Q2Qc 150) else zero))
        (indices 24).
Proof.
  cbv zeta. rewrite generate_Today.
  unfold fillTrend, salesTrendOf, hourlyPoints. cbn [fold_left].
  rewrite !map_map. apply map_ext_in. intros i Hi. apply In_indices in Hi.
  rewrite !fillPoint_hourly by lia.
  cbn [createdAt totalAmount name value].
  rewrite !getHours_today by (unfold_ms; lia).
  change (33300000 / msPerHour) with 9. change (35100000 / msPerHour) with 9.
  rewrite (Z.eqb_sym 9 i).
  destruct (Z.eqb_spec i 9) as [-> | N]; reflexivity.
Qed.

(** C7.  With timeframe Today and exactly two current-window transactions,
    100 at 09:15 and 50 at 09:45, the bucket named 9:00 has value 150,
    [totalRevenue] is 150, [totalOrders] is 2 and [avgOrderValue] is 75. *)
Theorem today_scenario (now : Z) (db : list Transaction) (items1 items2 : list Item) :
  let q := mkQuery (Some "Today"%string) None None in
  findMany db (window (resolveDateRange q now))
  = [mkTransaction (Q2Qc 100) (startOfDay now + 33300000) items1;
     mkTransaction (Q2Qc 50) (startOfDay now + 35100000) items2] ->
  let report := analytics q now db in
  nth_error (salesTrend report) 9 = Some (mkTrendEntry "9:00" (Fin (Q2Qc 150))) /\
  (forall entry, In entry (salesTrend report) ->
     te_name entry = "9:00"%string -> te_value entry = Fin (Q2Qc 150)) /\
  totalRevenue (metrics report) = Fin (Q2Qc 150) /\
  totalOrders (metrics report) = 2 /\
  avgOrderValue (metrics report) = Fin (Q2Qc 75).
Proof.
  intros q Hdb report.
  assert (Ht : salesTrend report
    = map (fun i => mkTrendEntry (toString i ++ ":00")
                      (if i =? 9 then Fin (Q2Qc 150) else zero))
          (indices 24)).
  { unfold report, analytics. cbn [salesTrend]. rewrite Hdb.
    apply (today_trend now items1 items2). }
  assert (Hrev : totalRevenue (metrics report) = Fin (Q2Qc 150)).
  { unfold report, analytics. cbn [metrics totalRevenue]. rewrite Hdb.
    rewrite sumAmounts_Fin. reflexivity. }
  split; [rewrite Ht; reflexivity | ].
  split.
  { intros entry Hin Hname. rewrite Ht in Hin.
    change (indices 24) with
      [0; 1; 2; 3; 4; 5; 6; 7; 8; 9; 10; 11; 12; 13; 14; 15; 16; 17; 18; 19;
       20; 21; 22; 23] in Hin.
    cbn [map In] in Hin.
    repeat (destruct Hin as [<- | Hin];
            [first [reflexivity | discriminate Hname] | ]).
    destruct Hin. }
  split; [exact Hrev | ].
  unfold report, analytics. cbn [metrics totalOrders avgOrderValue].
  rewrite Hdb. split; [reflexivity | ].
  rewrite sumAmounts_Fin. unfold avgValue, count. cbn [List.length].
  change (0 <? Z.of_nat 2) with true. unfold div, of_Z.
  rewrite of_Z_nonzero by discriminate.
  apply f_equal, Qc_is_canon. reflexivity.
Qed.

(* ================================================================== *)
(** ** Revenue by category *)
(* ================================================================== *)

(** C4.  There is a request whose current-window transactions hold a line
    item while [totalRevenue] is 0, and for which an entry of
    [revenueByCategory] has a [percentage] that is not finite: the division
    by [totalRevenue] is not guarded.  The request asks for the range from
    instant 0 to instant 10; the table holds one transaction, at instant 5,
    of amount 0 with one item of total 40, whose share is [+Infinity]. *)
Theorem category_percentage_not_finite :
  exists (q : Query) (now : Z) (db : list Transaction),
    let report := analytics q now db in
    allItems (findMany db (window (resolveDateRange q now))) <> [] /\
    totalRevenue (metrics report) = zero /\
    exists share, In share (revenueByCategory report) /\
                  isFinite (cs_percentage share) = false.
Proof.
  pose (q := mkQuery None (Some 0) (Some 10)).
  pose (db := [mkTransaction 0%Qc 5 [mkItem "A" "Ring" None 1 (Q2Qc 40)]]).
  exists q, 0, db. cbv zeta.
  assert (Hw : findMany db (window (resolveDateRange q 0)) = db) by reflexivity.
  unfold analytics. cbn [metrics totalRevenue revenueByCategory]. rewrite Hw.
  split; [discriminate | ].
  split; [vm_compute; reflexivity | ].
  exists (mkCategoryShare "Uncategorized" (Fin (Q2Qc 40)) PInf).
  split; [vm_compute; left; reflexivity | reflexivity].
Qed.

(* ================================================================== *)
(** ** Top products *)
(* ================================================================== *)

(** *** The map *)






(** *** Accumulation per product *)










(** *** The stable sort *)











(** *** The entries of the map *)





(* ================================================================== *)
(** ** The trend of a named timeframe adds up to the revenue *)
(* ================================================================== *)

Lemma findMany_In (db : list Transaction) (r : Interval) (t : Transaction) :
  In t (findMany db r) <-> In t db /\ start r <= createdAt t <= end_ r.
Proof.
  unfold findMany. rewrite filter_In, andb_true_iff, !Z.leb_le. tauto.
Qed.

Lemma startOfMonth_index (d : Z) : monthIndex (startOfMonth d) = monthIndex d.
Proof.
  pose proof (getMonth_range d) as HM. pose proof (getDate_range d) as HD.
  pose proof (daysInMonth_range (getFullYear d) (getMonth d) HM) as Hdim.
  unfold startOfMonth. rewrite setHours_eq. unfold setDate.
  rewrite localDay_MakeDate by apply TimeWithinDay_range.
  destruct (civil_MakeDate (getFullYear d) (getMonth d) 1 (MakeTime 0 0 0 0))
    as (Ey & Em & _); [lia | lia | cbv; split; congruence | ].
  unfold monthIndex. rewrite Ey, Em. reflexivity.
Qed.

Lemma getFullYear_mono (a b : Z) : a <= b -> getFullYear a <= getFullYear b.
Proof. intros H. apply YearFromDay_mono, Day_mono. unfold LocalTime. lia. Qed.

(** The windows of the named timeframes *)
Lemma window_Week (now : Z) :
  window (getDateRange "Week" now) = mkInterval (startOfWeek now) (endOfWeek now).
Proof. reflexivity. Qed.

Lemma bounds_Week (now : Z) :
  start (window (getDateRange "Week" now)) = startOfWeek now /\
  end_ (window (getDateRange "Week" now)) = endOfWeek now.
Proof. split; reflexivity. Qed.

Lemma bounds_Month (now : Z) :
  start (window (getDateRange "Month" now)) = startOfMonth (subMonths now 11) /\
  end_ (window (getDateRange "Month" now)) = endOfMonth now.
Proof. split; reflexivity. Qed.

Lemma bounds_Year (now : Z) :
  start (window (getDateRange "Year" now)) = startOfYear (subYears now 2) /\
  end_ (window (getDateRange "Year" now)) = endOfYear now.
Proof. split; reflexivity. Qed.

(** Every transaction matches exactly one of the hourly buckets. *)
Lemma today_matching (dateRange : DateRange) (now : Z) (t : Transaction) :
  List.length (matching (Some "Today"%string) dateRange t
                 (generateTrendDataPoints (Some "Today"%string) dateRange now))
  = 1%nat.
Proof.
  rewrite generate_Today. apply (matching_by_key _ _ getHours).
  - intros u p. apply isMatch_Today.
  - rewrite hourlyPoints_hours. apply NoDup_offsets.
  - rewrite hourlyPoints_hours. apply in_map_iff.
    exists (getHours (createdAt t)). split; [lia | ].
    apply In_indices. pose proof (getHours_range (createdAt t)). lia.
Qed.

(** Every transaction of the current week matches exactly one of its daily
    buckets. *)
Lemma week_matching (now : Z) (t : Transaction) :
  startOfWeek now <= createdAt t <= endOfWeek now ->
  List.length (matching (Some "Week"%string) (getDateRange "Week" now) t
                 (generateTrendDataPoints (Some "Week"%string)
                    (getDateRange "Week" now) now))
  = 1%nat.
Proof.
  intros Ht.
  pose proof (week_points (getDateRange "Week" now) now (window_Week now)) as Hts.
  assert (Hkeys :
    map (fun p => localDay (timestamp p))
        (generateTrendDataPoints (Some "Week"%string) (getDateRange "Week" now) now)
    = map (fun k => localDay now - getDay now + k) (indices 7)).
  { rewrite <- (map_map timestamp localDay), Hts, map_map.
    apply map_ext. intros k. apply localDay_midnight. }
  rewrite startOfWeek_eq, endOfWeek_eq in Ht.
  apply (matching_by_key _ _ localDay).
  - intros u p. rewrite isMatch_Week. apply isSameDay_Day.
  - rewrite Hkeys. apply NoDup_offsets.
  - rewrite Hkeys. apply in_map_iff.
    exists (localDay (createdAt t) - (localDay now - getDay now)).
    split; [lia | ]. apply In_indices.
    pose proof (proj1 (midnight_le (localDay now - getDay now) (createdAt t))
                  (proj1 Ht)) as Hlo.
    assert (Hhi : ~ localDay now - getDay now + 7 <= localDay (createdAt t)).
    { intros H. apply midnight_le in H.
      unfold midnight, UTC in *; unfold_ms. lia. }
    lia.
Qed.

(** Every transaction of the last twelve months matches exactly one of
    the monthly buckets. *)
Lemma month_matching (now : Z) (t : Transaction) :
  startOfMonth (subMonths now 11) <= createdAt t <= endOfMonth now ->
  List.length (matching (Some "Month"%string) (getDateRange "Month" now) t
                 (generateTrendDataPoints (Some "Month"%string)
                    (getDateRange "Month" now) now))
  = 1%nat.
Proof.
  intros Ht.
  pose proof (month_points_index (getDateRange "Month" now) now) as Hix.
  pose proof (monthIndex_mono _ _ (proj1 Ht)) as Hlo.
  pose proof (monthIndex_mono _ _ (proj2 Ht)) as Hhi.
  rewrite startOfMonth_index, subMonths_index in Hlo.
  rewrite endOfMonth_index in Hhi.
  apply (matching_by_key _ _ monthIndex).
  - intros u p. rewrite isMatch_Month. apply isSameMonth_index.
  - rewrite Hix. apply NoDup_offsets.
  - rewrite Hix. apply in_map_iff.
    exists (monthIndex (createdAt t) - (monthIndex now - 11)).
    split; [lia | ]. apply In_indices. lia.
Qed.

(** Every transaction of the last three years matches exactly one of the
    yearly buckets. *)
Lemma year_matching (now : Z) (t : Transaction) :
  0 <= now ->
  startOfYear (subYears now 2) <= createdAt t <= endOfYear now ->
  List.length (matching (Some "Year"%string) (getDateRange "Year" now) t
                 (generateTrendDataPoints (Some "Year"%string)
                    (getDateRange "Year" now) now))
  = 1%nat.
Proof.
  intros Hnow Ht.
  pose proof (getFullYear_epoch now Hnow) as Hy.
  pose proof (getFullYear_mono _ _ (proj1 Ht)) as Hlo.
  pose proof (getFullYear_mono _ _ (proj2 Ht)) as Hhi.
  rewrite startOfYear_eq, getFullYear_jan1, subYears_year in Hlo.
  rewrite endOfYear_year in Hhi.
  rewrite year_points.
  apply (matching_by_key _ _ getFullYear).
  - intros u p. apply isMatch_Year.
  - cbn [map yearPoint timestamp]. rewrite !newDate_jan1 by lia.
    rewrite !getFullYear_jan1. repeat constructor; cbn [In]; lia.
  - cbn [map yearPoint timestamp]. rewrite !newDate_jan1 by lia.
    rewrite !getFullYear_jan1. cbn [In]. lia.
Qed.

(** Every transaction of the window of a named timeframe matches exactly
    one of its buckets. *)
Lemma named_window_matching (now : Z) (timeframe : string) (t : Transaction) :
  0 <= now ->
  In timeframe namedTimeframes ->
  start (window (getDateRange timeframe now)) <= createdAt t
    <= end_ (window (getDateRange timeframe now)) ->
  List.length (matching (Some timeframe) (getDateRange timeframe now) t
                 (generateTrendDataPoints (Some timeframe)
                    (getDateRange timeframe now) now))
  = 1%nat.
Proof.
  intros Hnow Htf.
  destruct Htf as [<- | [<- | [<- | [<- | []]]]]; intros Ht.
  - apply today_matching.
  - destruct (bounds_Week now) as [Es Ee]. rewrite Es, Ee in Ht.
    apply week_matching. exact Ht.
  - destruct (bounds_Month now) as [Es Ee]. rewrite Es, Ee in Ht.
    apply month_matching. exact Ht.
  - destruct (bounds_Year now) as [Es Ee]. rewrite Es, Ee in Ht.
    apply year_matching; [exact Hnow | exact Ht].
Qed.

(* ================================================================== *)
(** ** Further facts on the edge cases *)
(* ================================================================== *)

(** With the empty string as timeframe, the buckets are the hourly buckets
    of today, whatever the clock shows. *)
Lemma empty_timeframe_hourly (now : Z) :
  generateTrendDataPoints (Some ""%string) (getDateRange "Today" now) now
  = hourlyPoints (startOfDay now).
Proof.
  unfold generateTrendDataPoints, noTimeframe, daysDiff.
  change (window (getDateRange "Today" now))
    with (mkInterval (startOfDay now) (endOfDay now)).
  cbn [start end_ String.eqb]. rewrite startOfDay_eq, endOfDay_eq.
  replace (midnight (localDay now) + (msPerDay - 1) - midnight (localDay now))
    with (msPerDay - 1) by lia.
  reflexivity.
Qed.

Lemma categoryRevenue_finite (l : list Item) :
  forall m : list (string * num),
  Forall (fun kv => isFinite (snd kv) = true) m ->
  Forall (fun kv => isFinite (snd kv) = true) (fold_left addCategoryRevenue l m).
Proof.
  induction l as [ | item l IH]; intros m Hm; [exact Hm | ].
  cbn [fold_left]. apply IH. unfold addCategoryRevenue.
  set (v := add _ _).
  assert (Hv : isFinite v = true).
  { unfold v. destruct (map_get (categoryOf item) m) as [r | ] eqn:G; [ | reflexivity].
    assert (Hr : isFinite r = true).
    { clear - G Hm. induction Hm as [ | [k0 v0] m H0 Hm IH]; [discriminate | ].
      cbn [map_get] in G. destruct (String.eqb k0 (categoryOf item)).
      - inversion G; subst. exact H0.
      - apply IH, G. }
    apply isFinite_Fin in Hr. rewrite Hr, or0_Fin. reflexivity. }
  clearbody v. clear IH.
  induction Hm as [ | [k0 v0] m H0 Hm IH]; cbn [map_set].
  - repeat constructor. exact Hv.
  - destruct (String.eqb k0 (categoryOf item)); constructor; assumption.
Qed.

(** Every share is affected: when [totalRevenue] is 0, no entry of
    [revenueByCategory] has a finite percentage. *)
Lemma category_percentages_of_zero_total (transactions : list Transaction) :
  Forall (fun share => isFinite (cs_percentage share) = false)
         (revenueByCategoryOf transactions zero).
Proof.
  unfold revenueByCategoryOf, categoryRevenueOf. rewrite Forall_map.
  pose proof (categoryRevenue_finite (allItems transactions) [] (Forall_nil _)) as H.
  revert H. apply Forall_impl. intros [c r] Hr. cbn [snd] in Hr.
  apply isFinite_Fin in Hr. cbn [cs_percentage]. rewrite Hr.
  unfold div, zero. change (Qc_is0 0%Qc) with true.
  destruct (Qc_is0 (valQ r)); [reflexivity | ].
  destruct (Qc_pos (valQ r)); reflexivity.
Qed.

(* ================================================================== *)
(** ** The windows of [getDateRange] *)
(* ================================================================== *)

Lemma midnight_succ (c : Z) : midnight (c + 1) = midnight c + msPerDay.
Proof. unfold midnight, UTC. lia. Qed.

(** An instant lies in its own local day. *)
Lemma in_own_day (t : Z) :
  midnight (localDay t) <= t < midnight (localDay t + 1).
Proof.
  split.
  - apply midnight_le. lia.
  - destruct (Z.lt_ge_cases t (midnight (localDay t + 1))) as [L | G]; [exact L | ].
    apply midnight_le in G. lia.
Qed.

Lemma day_bounds (d : Z) : startOfDay d <= d <= endOfDay d.
Proof.
  rewrite startOfDay_eq, endOfDay_eq. pose proof (in_own_day d) as H.
  rewrite midnight_succ in H. lia.
Qed.

Lemma week_bounds (d : Z) : startOfWeek d <= d <= endOfWeek d.
Proof.
  rewrite startOfWeek_eq, endOfWeek_eq.
  pose proof (getDay_range d) as Hw. pose proof (in_own_day d) as [Hlo Hhi].
  split.
  - apply midnight_le. lia.
  - assert (H : midnight (localDay d + 1) <= midnight (localDay d - getDay d + 6 + 1)).
    { unfold midnight, UTC; unfold_ms. lia. }
    rewrite !midnight_succ in H. rewrite midnight_succ in Hhi. lia.
Qed.

Lemma startOfMonth_eq (d : Z) :
  startOfMonth d = midnight (MakeDay (getFullYear d) (getMonth d) 1).
Proof.
  unfold startOfMonth. rewrite setHours_eq. unfold setDate.
  rewrite localDay_MakeDate by apply TimeWithinDay_range.
  unfold midnight, MakeDate, MakeTime. f_equal. lia.
Qed.

Lemma month_bounds (d : Z) : startOfMonth d <= d <= endOfMonth d.
Proof.
  rewrite startOfMonth_eq, endOfMonth_eq.
  pose proof (getDate_range d) as HD. pose proof (in_own_day d) as [Hlo Hhi].
  pose proof (Day_civil d) as Hc.
  pose proof (MakeDay_date_shift (getFullYear d) (getMonth d) 1 (getDate d - 1)) as H1.
  replace (1 + (getDate d - 1)) with (getDate d) in H1 by lia.
  pose proof (MakeDay_date_shift (getFullYear d) (getMonth d) (getDate d)
                (daysInMonth (getFullYear d) (getMonth d) - getDate d)) as H2.
  replace (getDate d + (daysInMonth (getFullYear d) (getMonth d) - getDate d))
    with (daysInMonth (getFullYear d) (getMonth d)) in H2 by lia.
  rewrite midnight_succ in Hhi.
  unfold midnight, UTC, MakeDate in *; unfold_ms. lia.
Qed.

Lemma endOfYear_eq (d : Z) :
  endOfYear d = midnight (DayFromYear (getFullYear d + 1)) - 1.
Proof.
  unfold endOfYear. rewrite setHours_eq. unfold setFullYear.
  rewrite localDay_MakeDate by apply TimeWithinDay_range.
  pose proof (MakeDay_date_shift (getFullYear d + 1) 0 1 (-1)) as H.
  change (1 + -1) with 0 in H. rewrite MakeDay_jan1 in H. rewrite H.
  unfold midnight, UTC, MakeDate, MakeTime; unfold_ms. lia.
Qed.

(** The instants of a year *)
Lemma year_interval (t y : Z) :
  getFullYear t = y <->
  midnight (DayFromYear y) <= t < midnight (DayFromYear (y + 1)).
Proof.
  pose proof (in_own_day t) as [Hlo Hhi]. rewrite midnight_succ in Hhi.
  split.
  - intros <-. unfold getFullYear. fold (localDay t).
    pose proof (YearFromDay_spec (localDay t)) as S.
    unfold midnight, UTC in *; unfold_ms. lia.
  - intros [L H]. unfold getFullYear. fold (localDay t).
    apply YearFromDay_unique.
    unfold midnight, UTC in *; unfold_ms. lia.
Qed.

Lemma year_bounds (d : Z) : startOfYear d <= d <= endOfYear d.
Proof.
  rewrite startOfYear_eq, endOfYear_eq.
  pose proof (proj1 (year_interval d (getFullYear d)) eq_refl). lia.
Qed.

(** Going back by months never goes forward in time. *)
Lemma subMonths_le (d amount : Z) : 0 <= amount -> subMonths d amount <= d.
Proof.
  intros H. destruct (Z.eq_dec amount 0) as [-> | N].
  - assert (E : subMonths d 0 = d) by reflexivity. lia.
  - apply Z.lt_le_incl, monthIndex_lt. rewrite subMonths_index. lia.
Qed.

Lemma subYears_le (d amount : Z) : 0 <= amount -> subYears d amount <= d.
Proof.
  intros H. unfold subYears, addYears.
  replace (- amount * 12) with (- (amount * 12)) by lia.
  apply (subMonths_le d (amount * 12)). lia.
Qed.

(** The windows, one equation per timeframe *)
Lemma getDateRange_Today (now : Z) :
  getDateRange "Today" now
  = mkDateRange
      (mkInterval (startOfDay now) (endOfDay now))
      (mkInterval (startOfDay (subDays now 1)) (endOfDay (subDays now 1))).
Proof. reflexivity. Qed.

Lemma getDateRange_Week (now : Z) :
  getDateRange "Week" now
  = mkDateRange
      (mkInterval (startOfWeek now) (endOfWeek now))
      (mkInterval (startOfWeek (subDays now 7)) (endOfWeek (subDays now 7))).
Proof. reflexivity. Qed.

Lemma getDateRange_Month (now : Z) :
  getDateRange "Month" now
  = mkDateRange
      (mkInterval (startOfMonth (subMonths now 11)) (endOfMonth now))
      (mkInterval (startOfMonth (subMonths now 23))
                  (endOfMonth (subMonths now 12))).
Proof. reflexivity. Qed.

Lemma getDateRange_Year (now : Z) :
  getDateRange "Year" now
  = mkDateRange
      (mkInterval (startOfYear (subYears now 2)) (endOfYear now))
      (mkInterval (startOfYear (subYears now 3))
                  (endOfYear (subYears now 1))).
Proof. reflexivity. Qed.

(** Every timeframe string is one of the four names or gets the window of
    Today. *)
Lemma timeframe_cases (timeframe : string) (now : Z) :
  timeframe = "Today"%string \/ timeframe = "Week"%string \/
  timeframe = "Month"%string \/ timeframe = "Year"%string \/
  getDateRange timeframe now = getDateRange "Today" now.
Proof.
  destruct (String.eqb_spec timeframe "Today") as [E | N1]; [auto | ].
  destruct (String.eqb_spec timeframe "Week") as [E | N2]; [auto | ].
  destruct (String.eqb_spec timeframe "Month") as [E | N3]; [auto | ].
  destruct (String.eqb_spec timeframe "Year") as [E | N4]; [auto | ].
  do 4 right. apply getDateRange_default.
  unfold namedTimeframes. cbn [In]. intros [H | [H | [H | [H | []]]]]; congruence.
Qed.

(** Whatever the timeframe, the window of [getDateRange] holds the clock:
    it starts at or before [now] and ends at or after it. *)
Theorem window_holds_now (timeframe : string) (now : Z) :
  start (window (getDateRange timeframe now)) <= now
    <= end_ (window (getDateRange timeframe now)).
Proof.
  destruct (timeframe_cases timeframe now) as [-> | [-> | [-> | [-> | ->]]]].
  - rewrite getDateRange_Today. cbn [window start end_]. apply day_bounds.
  - rewrite getDateRange_Week. cbn [window start end_]. apply week_bounds.
  - rewrite getDateRange_Month. cbn [window start end_].
    pose proof (month_bounds (subMonths now 11)). pose proof (month_bounds now).
    pose proof (subMonths_le now 11). lia.
  - rewrite getDateRange_Year. cbn [window start end_].
    pose proof (year_bounds (subYears now 2)). pose proof (year_bounds now).
    pose proof (subYears_le now 2). lia.
  - rewrite getDateRange_Today. cbn [window start end_]. apply day_bounds.
Qed.

(** *** Months as intervals *)

Lemma firstOfMonth_civil (y m : Z) : MakeDay y m 1 = firstOfMonth (12 * y + m).
Proof.
  unfold firstOfMonth. rewrite (MakeDay_carry 0 (12 * y + m) 1 y).
  f_equal; lia.
Qed.

Lemma firstOfMonth_succ (index : Z) :
  firstOfMonth (index + 1)
  = firstOfMonth index + daysInMonth (index / 12) (index mod 12).
Proof.
  assert (Hm : 0 <= index mod 12 <= 11) by zdiv.
  pose proof (MakeDay_next_month (index / 12) (index mod 12) Hm) as H.
  rewrite !firstOfMonth_civil in H.
  replace (12 * (index / 12) + (index mod 12 + 1)) with (index + 1) in H by zdiv.
  replace (12 * (index / 12) + index mod 12) with index in H by zdiv.
  exact H.
Qed.

Lemma startOfMonth_first (d : Z) :
  startOfMonth d = midnight (firstOfMonth (monthIndex d)).
Proof. rewrite startOfMonth_eq, firstOfMonth_civil. reflexivity. Qed.

Lemma endOfMonth_first (d : Z) :
  endOfMonth d = midnight (firstOfMonth (monthIndex d + 1)) - 1.
Proof.
  pose proof (getMonth_range d) as HM.
  rewrite endOfMonth_eq.
  pose proof (MakeDay_next_month (getFullYear d) (getMonth d) HM) as Hn.
  pose proof (MakeDay_date_shift (getFullYear d) (getMonth d) 1
                (daysInMonth (getFullYear d) (getMonth d) - 1)) as Hs.
  replace (1 + (daysInMonth (getFullYear d) (getMonth d) - 1))
    with (daysInMonth (getFullYear d) (getMonth d)) in Hs by lia.
  rewrite !firstOfMonth_civil in Hn.
  replace (12 * getFullYear d + (getMonth d + 1)) with (monthIndex d + 1) in Hn
    by (unfold monthIndex; lia).
  rewrite Hn, Hs, firstOfMonth_civil.
  unfold midnight, UTC, MakeDate; unfold_ms. lia.
Qed.

Lemma monthIndex_first (index : Z) :
  monthIndex (midnight (firstOfMonth index)) = index.
Proof.
  assert (Hm : 0 <= index mod 12 <= 11) by zdiv.
  pose proof (daysInMonth_range (index / 12) (index mod 12) Hm) as Hdim.
  destruct (civil_MakeDate (index / 12) (index mod 12) 1 0)
    as (Ey & Em & _); [lia | lia | unfold_ms; lia | ].
  rewrite firstOfMonth_civil in Ey, Em.
  replace (12 * (index / 12) + index mod 12) with index in Ey, Em by zdiv.
  unfold MakeDate in Ey, Em. rewrite Z.add_0_r in Ey, Em.
  unfold monthIndex, midnight. rewrite Ey, Em. zdiv.
Qed.

Lemma firstOfMonth_lt (a b : Z) :
  a < b -> midnight (firstOfMonth a) < midnight (firstOfMonth b).
Proof. intros H. apply monthIndex_lt. rewrite !monthIndex_first. exact H. Qed.

Lemma firstOfMonth_le (a b : Z) :
  a <= b -> midnight (firstOfMonth a) <= midnight (firstOfMonth b).
Proof.
  intros H. destruct (Z.eq_dec a b) as [-> | N]; [lia | ].
  apply Z.lt_le_incl, firstOfMonth_lt. lia.
Qed.

(** The instants of a span of months *)
Lemma month_range (a b t : Z) :
  midnight (firstOfMonth a) <= t <= midnight (firstOfMonth (b + 1)) - 1 <->
  a <= monthIndex t <= b.
Proof.
  pose proof (month_bounds t) as Hb.
  rewrite startOfMonth_first, endOfMonth_first in Hb.
  split.
  - intros [Hlo Hhi]. split.
    + destruct (Z.le_gt_cases a (monthIndex t)) as [L | G]; [exact L | ].
      pose proof (firstOfMonth_le (monthIndex t + 1) a). lia.
    + destruct (Z.le_gt_cases (monthIndex t) b) as [L | G]; [exact L | ].
      pose proof (firstOfMonth_le (b + 1) (monthIndex t)). lia.
  - intros [Hlo Hhi].
    pose proof (firstOfMonth_le a (monthIndex t) Hlo).
    pose proof (firstOfMonth_le (monthIndex t + 1) (b + 1)). lia.
Qed.

(** The instants of a span of years *)
Lemma year_range (a b t : Z) :
  midnight (DayFromYear a) <= t <= midnight (DayFromYear (b + 1)) - 1 <->
  a <= getFullYear t <= b.
Proof.
  pose proof (year_bounds t) as Hb.
  rewrite startOfYear_eq, endOfYear_eq in Hb.
  assert (M : forall y y', y <= y' ->
                midnight (DayFromYear y) <= midnight (DayFromYear y')).
  { intros y y' H. pose proof (DayFromYear_mono y y' H).
    unfold midnight, UTC; unfold_ms. lia. }
  split.
  - intros [Hlo Hhi]. split.
    + destruct (Z.le_gt_cases a (getFullYear t)) as [L | G]; [exact L | ].
      pose proof (M (getFullYear t + 1) a). lia.
    + destruct (Z.le_gt_cases (getFullYear t) b) as [L | G]; [exact L | ].
      pose proof (M (b + 1) (getFullYear t)). lia.
  - intros [Hlo Hhi].
    pose proof (M a (getFullYear t) Hlo).
    pose proof (M (getFullYear t + 1) (b + 1)). lia.
Qed.

(** The instants of a span of days *)
Lemma day_range (a b t : Z) :
  midnight a <= t <= midnight b + (msPerDay - 1) <-> a <= localDay t <= b.
Proof.
  rewrite midnight_le. split; intros [Hlo Hhi]; (split; [exact Hlo | ]).
  - destruct (Z.le_gt_cases (localDay t) b) as [L | G]; [exact L | ].
    assert (H : midnight (b + 1) <= t) by (apply midnight_le; lia).
    rewrite midnight_succ in H. lia.
  - pose proof (in_own_day t) as [_ H]. rewrite midnight_succ in H.
    assert (midnight (localDay t) <= midnight b)
      by (unfold midnight, UTC; unfold_ms; lia).
    lia.
Qed.

Lemma getDay_week (t k : Z) : getDay (t + 7 * k * msPerDay) = getDay t.
Proof.
  unfold getDay, WeekDay. fold (localDay (t + 7 * k * msPerDay)). fold (localDay t).
  rewrite localDay_shift. zdiv.
Qed.

(** For every timeframe but Year the previous window ends one millisecond
    before the current one starts: the two queries of [GET] share no
    transaction and leave no gap. *)
Theorem previous_window_adjacent (timeframe : string) (now : Z) :
  timeframe <> "Year"%string ->
  end_ (previous (getDateRange timeframe now)) + 1
  = start (window (getDateRange timeframe now)).
Proof.
  intros NY.
  assert (HT : end_ (previous (getDateRange "Today" now)) + 1
               = start (window (getDateRange "Today" now))).
  { rewrite getDateRange_Today. cbn [window previous start end_].
    rewrite endOfDay_eq, startOfDay_eq, subDays_eq.
    replace (now - 1 * msPerDay) with (now + (-1) * msPerDay) by lia.
    rewrite localDay_shift. unfold midnight, UTC; unfold_ms. lia. }
  destruct (timeframe_cases timeframe now) as [-> | [-> | [-> | [-> | ->]]]];
    [exact HT | | | congruence | exact HT].
  - rewrite getDateRange_Week. cbn [window previous start end_].
    rewrite endOfWeek_eq, startOfWeek_eq, subDays_eq.
    replace (now - 7 * msPerDay) with (now + 7 * (-1) * msPerDay) by lia.
    rewrite getDay_week.
    replace (now + 7 * (-1) * msPerDay) with (now + (-7) * msPerDay) by lia.
    rewrite localDay_shift. unfold midnight, UTC; unfold_ms. lia.
  - rewrite getDateRange_Month. cbn [window previous start end_].
    rewrite endOfMonth_first, startOfMonth_first, !subMonths_index.
    replace (monthIndex now - 12 + 1) with (monthIndex now - 11) by lia. lia.
Qed.

(** With the timeframe Today the current query returns the transactions of
    the local day of the clock and the previous query those of the day
    before. *)
Theorem today_windows (db : list Transaction) (now : Z) (t : Transaction) :
  (In t (findMany db (window (getDateRange "Today" now))) <->
   In t db /\ localDay (createdAt t) = localDay now) /\
  (In t (findMany db (previous (getDateRange "Today" now))) <->
   In t db /\ localDay (createdAt t) = localDay now - 1).
Proof.
  rewrite !findMany_In, getDateRange_Today. cbn [window previous start end_].
  rewrite !startOfDay_eq, !endOfDay_eq, subDays_eq.
  replace (now - 1 * msPerDay) with (now + (-1) * msPerDay) by lia.
  rewrite localDay_shift, !day_range. split; split; intros [H1 H2]; (split; [exact H1 | lia]).
Qed.

(** With the timeframe Week the current query returns the transactions of
    the seven local days from the Sunday on or before the clock, and the
    previous query those of the seven days before that Sunday. *)
Theorem week_windows (db : list Transaction) (now : Z) (t : Transaction) :
  let sunday := localDay now - getDay now in
  (In t (findMany db (window (getDateRange "Week" now))) <->
   In t db /\ sunday <= localDay (createdAt t) <= sunday + 6) /\
  (In t (findMany db (previous (getDateRange "Week" now))) <->
   In t db /\ sunday - 7 <= localDay (createdAt t) <= sunday - 1).
Proof.
  intros sunday. unfold sunday.
  rewrite !findMany_In, getDateRange_Week. cbn [window previous start end_].
  rewrite (startOfWeek_eq now), (endOfWeek_eq now).
  rewrite (startOfWeek_eq (subDays now 7)), (endOfWeek_eq (subDays now 7)).
  rewrite subDays_eq.
  replace (now - 7 * msPerDay) with (now + 7 * (-1) * msPerDay) by lia.
  rewrite getDay_week.
  replace (now + 7 * (-1) * msPerDay) with (now + (-7) * msPerDay) by lia.
  rewrite localDay_shift, !day_range.
  split; split; intros [H1 H2]; (split; [exact H1 | lia]).
Qed.

(** With the timeframe Month the current query returns the transactions of
    the twelve calendar months that end with the month of the clock, and the
    previous query those of the twelve months before them. *)
Theorem month_windows (db : list Transaction) (now : Z) (t : Transaction) :
  (In t (findMany db (window (getDateRange "Month" now))) <->
   In t db /\
   monthIndex now - 11 <= monthIndex (createdAt t) <= monthIndex now) /\
  (In t (findMany db (previous (getDateRange "Month" now))) <->
   In t db /\
   monthIndex now - 23 <= monthIndex (createdAt t) <= monthIndex now - 12).
Proof.
  rewrite !findMany_In, getDateRange_Month. cbn [window previous start end_].
  rewrite !startOfMonth_first, !endOfMonth_first, !subMonths_index.
  rewrite !month_range. tauto.
Qed.

(** With the timeframe Year the current query returns the transactions of
    the calendar years Y-2 to Y of the clock, and the previous query those of
    the years Y-3 to Y-1: the transactions of the years Y-2 and Y-1 are
    in both. *)
Theorem year_windows_overlap (db : list Transaction) (now : Z) (t : Transaction) :
  (In t (findMany db (window (getDateRange "Year" now))) <->
   In t db /\
   getFullYear now - 2 <= getFullYear (createdAt t) <= getFullYear now) /\
  (In t (findMany db (previous (getDateRange "Year" now))) <->
   In t db /\
   getFullYear now - 3 <= getFullYear (createdAt t) <= getFullYear now - 1).
Proof.
  rewrite !findMany_In, getDateRange_Year. cbn [window previous start end_].
  rewrite !startOfYear_eq, !endOfYear_eq, !subYears_year.
  rewrite !year_range. tauto.
Qed.

(** With an explicit range the previous window ends at the very instant the
    current one starts, bounds included: a transaction created at that
    instant is returned by both queries. *)
Theorem explicit_start_in_both_windows
    (db : list Transaction) (q : Query) (now startDate endDate : Z)
    (t : Transaction) :
  q_start q = Some startDate -> q_end q = Some endDate ->
  startDate <= endDate ->
  In t db -> createdAt t = startDate ->
  In t (findMany db (window (resolveDateRange q now))) /\
  In t (findMany db (previous (resolveDateRange q now))).
Proof.
  intros Es Ee Hle Hin Ht. unfold resolveDateRange. rewrite Es, Ee.
  rewrite !findMany_In. cbn [window previous start end_].
  repeat split; try exact Hin; lia.
Qed.

(* ================================================================== *)
(** ** What the fill loop leaves in each bucket *)
(* ================================================================== *)

(** The buckets start empty, whatever the timeframe and the range. *)
Lemma generated_zero (timeframe : option string) (dateRange : DateRange) (now : Z) :
  Forall (fun p => value p = zero)
    (generateTrendDataPoints timeframe dateRange now).
Proof.
  assert (M : forall (f : Z -> string) (l : list Z),
            Forall (fun p => value p = zero)
              (map (fun date => mkPoint (f date) date zero) l)).
  { intros f l. apply Forall_forall. intros p Hp.
    apply in_map_iff in Hp. destruct Hp as (d & <- & _). reflexivity. }
  unfold generateTrendDataPoints.
  destruct (noTimeframe timeframe).
  - destruct (_ <=? 1); [apply hourlyPoints_zero | ].
    destruct (_ <=? 31); apply M.
  - destruct (String.eqb _ "Today"); [apply hourlyPoints_zero | ].
    destruct (String.eqb _ "Week"); [apply M | ].
    destruct (String.eqb _ "Month").
    { apply Forall_forall. intros p Hp.
      apply in_map_iff in Hp. destruct Hp as (d & <- & _). reflexivity. }
    destruct (String.eqb _ "Year"); [ | constructor].
    apply Forall_forall. intros p Hp.
    apply in_flat_map in Hp. destruct Hp as (i & _ & Hp). cbv zeta in Hp.
    destruct (_ <=? _); [destruct Hp as [<- | []]; reflexivity | destruct Hp].
Qed.

(** After the loop every bucket holds what it held before plus the amounts
    of the transactions that match it. *)
Lemma fillTrend_buckets (timeframe : option string) (dateRange : DateRange)
    (transactions : list Transaction) :
  forall points : list TrendPoint,
  finitePoints points ->
  fillTrend timeframe dateRange transactions points
  = map (fun p =>
           mkPoint (name p) (timestamp p)
             (Fin (valQ (value p)
                   + revenueQ (filter (fun t => isMatch timeframe dateRange
                                                  (createdAt t) (timestamp p))
                                      transactions))%Qc))
        points.
Proof.
  unfold fillTrend.
  induction transactions as [ | t l IH]; intros points Hf; cbn [fold_left].
  - rewrite <- (map_id points) at 1. apply map_ext_in. intros p Hp.
    unfold finitePoints in Hf. rewrite Forall_forall in Hf.
    pose proof (proj1 (isFinite_Fin _) (Hf p Hp)) as E.
    destruct p as [n ts v]. cbn [name timestamp value filter] in *.
    rewrite E at 1. do 2 f_equal. unfold revenueQ. cbn [map sumQc fold_right]. ring.
  - rewrite IH by (apply fill_finite, Hf). rewrite map_map.
    apply map_ext_in. intros p Hp.
    unfold finitePoints in Hf. rewrite Forall_forall in Hf. specialize (Hf p Hp).
    rewrite fillPoint_name, fillPoint_timestamp. cbn [filter].
    destruct (isMatch timeframe dateRange (createdAt t) (timestamp p)) eqn:M.
    + rewrite fillPoint_value_match by assumption.
      do 2 f_equal. unfold revenueQ. cbn [map sumQc fold_right].
      unfold sumQc. ring.
    + rewrite fillPoint_no_match by exact M. reflexivity.
Qed.

(** The entries made of empty buckets after the loop: each carries the name
    of its bucket and the sum of the amounts of the transactions that match
    it. *)
Lemma salesTrendOf_fill (timeframe : option string) (dateRange : DateRange)
    (transactions : list Transaction) (points : list TrendPoint) :
  Forall (fun p => value p = zero) points ->
  salesTrendOf (fillTrend timeframe dateRange transactions points)
  = map (fun point =>
           mkTrendEntry (name point)
             (sumAmounts
                (filter (fun t => isMatch timeframe dateRange
                                    (createdAt t) (timestamp point))
                        transactions)))
        points.
Proof.
  intros Hz.
  rewrite fillTrend_buckets by (apply zero_points_finite, Hz).
  unfold salesTrendOf. rewrite map_map. apply map_ext_in. intros p Hp.
  rewrite Forall_forall in Hz. cbn [name value].
  rewrite (Hz p Hp), or0_Fin, sumAmounts_Fin. do 2 f_equal.
  cbn [valQ zero]. ring.
Qed.

(** Every entry of [salesTrend] carries the name of its bucket and the sum
    of [totalAmount] over the transactions of the window that match the
    bucket, for every query. *)
Theorem sales_trend_per_bucket (q : Query) (now : Z) (db : list Transaction) :
  let timeframe := q_timeframe q in
  let dateRange := resolveDateRange q now in
  let transactions := findMany db (window dateRange) in
  salesTrend (analytics q now db)
  = map (fun point =>
           mkTrendEntry (name point)
             (sumAmounts
                (filter (fun t => isMatch timeframe dateRange
                                    (createdAt t) (timestamp point))
                        transactions)))
        (generateTrendDataPoints timeframe dateRange now).
Proof.
  intros timeframe dateRange transactions.
  unfold analytics. cbn [salesTrend].
  apply salesTrendOf_fill, generated_zero.
Qed.

(* ================================================================== *)
(** ** [eachMonthOfInterval] *)
(* ================================================================== *)

Lemma midnight_MakeDate (c : Z) : midnight c = UTC (MakeDate c 0).
Proof. unfold midnight, MakeDate. f_equal. lia. Qed.

Lemma TimeWithinDay_midnight (c : Z) : TimeWithinDay (LocalTime (midnight c)) = 0.
Proof.
  unfold midnight. rewrite LocalTime_UTC. unfold TimeWithinDay; unfold_ms. zdiv.
Qed.

(** The civil date of the first of a month *)
Lemma civil_first (index : Z) :
  getFullYear (midnight (firstOfMonth index)) = index / 12 /\
  getMonth (midnight (firstOfMonth index)) = index mod 12 /\
  getDate (midnight (firstOfMonth index)) = 1.
Proof.
  assert (Hm : 0 <= index mod 12 <= 11) by zdiv.
  pose proof (daysInMonth_range (index / 12) (index mod 12) Hm) as Hdim.
  destruct (civil_MakeDate (index / 12) (index mod 12) 1 0)
    as (Ey & Em & Ed); [lia | lia | unfold_ms; lia | ].
  rewrite firstOfMonth_civil in Ey, Em, Ed.
  replace (12 * (index / 12) + index mod 12) with index in Ey, Em, Ed by zdiv.
  rewrite <- midnight_MakeDate in Ey, Em, Ed. auto.
Qed.

(** [setMonth(getMonth() + 1)] on the first of a month gives the first of
    the next month. *)
Lemma next_first (index : Z) :
  setMonth (midnight (firstOfMonth index))
           (getMonth (midnight (firstOfMonth index)) + 1)
           (getDate (midnight (firstOfMonth index)))
  = midnight (firstOfMonth (index + 1)).
Proof.
  destruct (civil_first index) as (Ey & Em & Ed).
  unfold setMonth. rewrite Ey, Em, Ed, TimeWithinDay_midnight.
  rewrite firstOfMonth_civil, <- midnight_MakeDate.
  do 2 f_equal. zdiv.
Qed.

Lemma first_le (index t : Z) :
  midnight (firstOfMonth index) <= t <-> index <= monthIndex t.
Proof.
  pose proof (month_bounds t) as Hb.
  rewrite startOfMonth_first, endOfMonth_first in Hb.
  split; intros H.
  - destruct (Z.le_gt_cases index (monthIndex t)) as [L | G]; [exact L | ].
    pose proof (firstOfMonth_le (monthIndex t + 1) index). lia.
  - pose proof (firstOfMonth_le index (monthIndex t) H). lia.
Qed.

(** A month has at least 28 days. *)
Lemma first_spacing (n : nat) (index : Z) :
  midnight (firstOfMonth index) + 28 * Z.of_nat n * msPerDay
  <= midnight (firstOfMonth (index + Z.of_nat n)).
Proof.
  induction n as [ | n IH].
  - replace (index + Z.of_nat 0) with index by lia. lia.
  - replace (index + Z.of_nat (S n)) with (index + Z.of_nat n + 1) by lia.
    rewrite firstOfMonth_succ.
    assert (Hm : 0 <= (index + Z.of_nat n) mod 12 <= 11) by zdiv.
    pose proof (daysInMonth_range ((index + Z.of_nat n) / 12)
                  ((index + Z.of_nat n) mod 12) Hm) as Hdim.
    unfold midnight, UTC in *; unfold_ms. lia.
Qed.

Lemma eachMonth_loop_spec (fuel : nat) : forall index endTime,
  monthIndex endTime - index + 1 <= Z.of_nat fuel ->
  eachMonth_loop fuel (midnight (firstOfMonth index)) endTime
  = map (fun k => midnight (firstOfMonth (index + k)))
        (indices (Z.to_nat (monthIndex endTime - index + 1))).
Proof.
  induction fuel as [ | fuel IH]; intros index endTime Hf.
  - replace (Z.to_nat (monthIndex endTime - index + 1)) with 0%nat by lia.
    reflexivity.
  - cbn [eachMonth_loop]. pose proof (first_le index endTime) as Hc.
    destruct (Z.leb_spec (midnight (firstOfMonth index)) endTime) as [L | G].
    + rewrite next_first, IH by lia.
      replace (Z.to_nat (monthIndex endTime - index + 1))
        with (S (Z.to_nat (monthIndex endTime - (index + 1) + 1))) by lia.
      rewrite indices_S. f_equal; [do 2 f_equal; lia | ].
      apply map_ext. intros k. do 2 f_equal. lia.
    + replace (Z.to_nat (monthIndex endTime - index + 1)) with 0%nat by lia.
      reflexivity.
Qed.

(** The first day of every calendar month from the month of [start_] to the
    month of [end_], both included *)
Lemma eachMonthOfInterval_spec (start_ end' : Z) :
  start_ <= end' ->
  eachMonthOfInterval start_ end'
  = map (fun k => midnight (firstOfMonth (monthIndex start_ + k)))
        (indices (Z.to_nat (monthIndex end' - monthIndex start_ + 1))).
Proof.
  intros H. unfold eachMonthOfInterval.
  destruct (Z.ltb_spec end' start_) as [L | _]; [lia | ].
  fold (startOfDay start_). rewrite startOfDay_eq.
  assert (E : setDate (midnight (localDay start_)) 1
              = midnight (firstOfMonth (monthIndex start_))).
  { unfold setDate. rewrite TimeWithinDay_midnight.
    unfold getFullYear, getMonth.
    fold (localDay (midnight (localDay start_))). rewrite localDay_midnight.
    fold (localDay start_).
    change (YearFromDay (localDay start_)) with (getFullYear start_).
    change (MonthFromDay (localDay start_)) with (getMonth start_).
    rewrite firstOfMonth_civil, <- midnight_MakeDate. reflexivity. }
  rewrite E. apply eachMonth_loop_spec.
  pose proof (monthIndex_mono _ _ H) as Hm.
  pose proof (first_spacing (Z.to_nat (monthIndex end' - monthIndex start_))
                (monthIndex start_)) as Hs.
  replace (monthIndex start_ + Z.of_nat (Z.to_nat (monthIndex end' - monthIndex start_)))
    with (monthIndex end') in Hs by lia.
  pose proof (proj2 (first_le (monthIndex end') end') (Z.le_refl _)) as He.
  rewrite Z2Nat.id in Hs by lia.
  set (a := midnight (firstOfMonth (monthIndex start_))) in *.
  set (n := monthIndex end' - monthIndex start_) in *.
  assert (Hq : n <= (end' - a) / (28 * msPerDay)) by (unfold_ms; zdiv).
  lia.
Qed.

(* ================================================================== *)
(** ** Custom ranges of any length *)
(* ================================================================== *)

Lemma daysDiff_le (dateRange : DateRange) (n : Z) :
  daysDiff dateRange <= n
  <-> end_ (window dateRange) - start (window dateRange) <= n * msPerDay.
Proof. unfold daysDiff; unfold_ms; zdiv. Qed.

Lemma generate_custom (timeframe : option string) (dateRange : DateRange) (now : Z) :
  noTimeframe timeframe = true ->
  generateTrendDataPoints timeframe dateRange now
  = if daysDiff dateRange <=? 1 then hourlyPoints (start (window dateRange))
    else if daysDiff dateRange <=? 31 then
      map dayPoint
        (eachDayOfInterval (start (window dateRange)) (end_ (window dateRange)))
    else
      map monthPoint
        (eachMonthOfInterval (start (window dateRange)) (end_ (window dateRange))).
Proof. intros H. unfold generateTrendDataPoints. rewrite H. reflexivity. Qed.

Lemma isMatch_custom (timeframe : option string) (dateRange : DateRange) (t p : Z) :
  noTimeframe timeframe = true ->
  isMatch timeframe dateRange t p
  = if daysDiff dateRange <=? 1 then
      (getHours t =? getHours p) && isSameDay t p
    else if daysDiff dateRange <=? 31 then isSameDay t p
    else isSameMonth t p.
Proof. intros H. unfold isMatch. rewrite H. reflexivity. Qed.

(** Filling empty buckets that every transaction matches once or not at
    all: the trend adds up to the amounts of the transactions that match. *)
Lemma fill_selected (timeframe : option string) (dateRange : DateRange)
    (sel : Transaction -> bool) (transactions : list Transaction) :
  forall points : list TrendPoint,
  finitePoints points ->
  (forall t, In t transactions ->
     List.length (matching timeframe dateRange t points)
     = if sel t then 1%nat else 0%nat) ->
  finitePoints (fillTrend timeframe dateRange transactions points) /\
  pointsQ (fillTrend timeframe dateRange transactions points)
  = (pointsQ points + revenueQ (filter sel transactions))%Qc.
Proof.
  unfold fillTrend, revenueQ.
  induction transactions as [ | t l IH]; intros points Hf Hm.
  - cbn [fold_left filter map sumQc fold_right]. split; [exact Hf | ring].
  - cbn [fold_left filter].
    destruct (IH (map (fillPoint timeframe dateRange t) points)) as [F S].
    + apply fill_finite, Hf.
    + intros u Hu. rewrite matching_fill_length. apply Hm. right. exact Hu.
    + split; [exact F | ]. rewrite S.
      pose proof (Hm t (or_introl eq_refl)) as Ht.
      destruct (sel t).
      * rewrite fill_one by assumption.
        cbn [map sumQc fold_right]. unfold sumQc. ring.
      * rewrite fill_none by (apply length_zero_iff_nil, Ht). reflexivity.
Qed.

Lemma trend_of_selected (timeframe : option string) (dateRange : DateRange)
    (sel : Transaction -> bool) (transactions : list Transaction)
    (points : list TrendPoint) :
  Forall (fun p => value p = zero) points ->
  (forall t, In t transactions ->
     List.length (matching timeframe dateRange t points)
     = if sel t then 1%nat else 0%nat) ->
  sumTrend (salesTrendOf (fillTrend timeframe dateRange transactions points))
  = sumAmounts (filter sel transactions).
Proof.
  intros Hz Hm.
  destruct (fill_selected timeframe dateRange sel transactions points
              (zero_points_finite _ Hz) Hm) as [F S].
  rewrite sumTrend_finite, sumValues_Fin, sumAmounts_Fin by exact F.
  f_equal. rewrite S, zero_points_sum by exact Hz. ring.
Qed.

Lemma filter_all {A : Type} (l : list A) : filter (fun _ => true) l = l.
Proof. induction l as [ | a l IH]; [reflexivity | cbn [filter]; f_equal; exact IH]. Qed.

(** *** Hourly buckets *)

Lemma localDay_hourly (start_ i : Z) :
  0 <= i < 24 -> localDay (setHours start_ i 0 0 0) = localDay start_.
Proof.
  intros Hi. rewrite hourly_timestamp. apply localDay_MakeDate. unfold_ms. lia.
Qed.

(** An instant matches one hourly bucket of a custom range when it lies on
    the local day of the start of the range, and none otherwise. *)
Lemma hourly_matching (timeframe : option string) (dateRange : DateRange)
    (t : Transaction) :
  noTimeframe timeframe = true -> daysDiff dateRange <= 1 ->
  List.length (matching timeframe dateRange t
                 (hourlyPoints (start (window dateRange))))
  = if localDay (createdAt t) =? localDay (start (window dateRange))
    then 1%nat else 0%nat.
Proof.
  intros Hn Hd.
  set (key := fun u => 24 * localDay u + getHours u).
  assert (Hk : forall u p, isMatch timeframe dateRange u p = (key u =? key p)).
  { intros u p. rewrite isMatch_custom by exact Hn.
    destruct (Z.leb_spec (daysDiff dateRange) 1); [ | lia].
    rewrite isSameDay_Day. unfold key.
    pose proof (getHours_range u). pose proof (getHours_range p).
    destruct (Z.eqb_spec (getHours u) (getHours p));
      destruct (Z.eqb_spec (localDay u) (localDay p));
      destruct (Z.eqb_spec (24 * localDay u + getHours u)
                           (24 * localDay p + getHours p));
      (reflexivity || lia). }
  assert (Hkeys : map (fun p => key (timestamp p))
                      (hourlyPoints (start (window dateRange)))
                  = map (fun k => 24 * localDay (start (window dateRange)) + k)
                        (indices 24)).
  { unfold hourlyPoints. rewrite map_map. apply map_ext_in.
    intros i Hi. apply In_indices in Hi. cbn [timestamp]. unfold key.
    rewrite hourly_hour, localDay_hourly; lia. }
  pose proof (getHours_range (createdAt t)) as Hh.
  destruct (Z.eqb_spec (localDay (createdAt t))
                       (localDay (start (window dateRange)))) as [E | N].
  - apply (matching_by_key _ _ key Hk).
    + rewrite Hkeys. apply NoDup_offsets.
    + rewrite Hkeys. apply in_map_iff. exists (getHours (createdAt t)).
      split; [unfold key; lia | apply In_indices; lia].
  - rewrite (matching_none _ _ key Hk); [reflexivity | ].
    rewrite Hkeys. intros Hin. apply in_map_iff in Hin.
    destruct Hin as (k & Ek & Hin). apply In_indices in Hin.
    unfold key in Ek. lia.
Qed.

(** *** Daily buckets *)

Lemma daily_points (start_ end' : Z) :
  start_ <= end' ->
  map dayPoint (eachDayOfInterval start_ end')
  = map (fun k => dayPoint (midnight (localDay start_ + k)))
        (indices (Z.to_nat (localDay end' - localDay start_ + 1))).
Proof. intros H. rewrite eachDayOfInterval_spec by exact H. apply map_map. Qed.

Lemma daily_matching (timeframe : option string) (dateRange : DateRange)
    (t : Transaction) :
  noTimeframe timeframe = true -> 1 < daysDiff dateRange <= 31 ->
  start (window dateRange) <= createdAt t <= end_ (window dateRange) ->
  List.length (matching timeframe dateRange t
                 (map dayPoint (eachDayOfInterval (start (window dateRange))
                                                  (end_ (window dateRange)))))
  = 1%nat.
Proof.
  intros Hn Hd Ht. rewrite daily_points by lia.
  set (s := start (window dateRange)) in *. set (e := end_ (window dateRange)) in *.
  assert (Hkeys :
    map (fun p => localDay (timestamp p))
        (map (fun k => dayPoint (midnight (localDay s + k)))
             (indices (Z.to_nat (localDay e - localDay s + 1))))
    = map (fun k => localDay s + k)
          (indices (Z.to_nat (localDay e - localDay s + 1)))).
  { rewrite map_map. apply map_ext. intros k. apply localDay_midnight. }
  apply (matching_by_key _ _ localDay).
  - intros u p. rewrite isMatch_custom by exact Hn.
    destruct (Z.leb_spec (daysDiff dateRange) 1); [lia | ].
    destruct (Z.leb_spec (daysDiff dateRange) 31); [ | lia].
    apply isSameDay_Day.
  - rewrite Hkeys. apply NoDup_offsets.
  - rewrite Hkeys. apply in_map_iff.
    exists (localDay (createdAt t) - localDay s). split; [lia | ].
    apply In_indices.
    pose proof (localDay_mono _ _ (proj1 Ht)). pose proof (localDay_mono _ _ (proj2 Ht)).
    lia.
Qed.

(** *** Monthly buckets *)

Lemma monthly_points (start_ end' : Z) :
  start_ <= end' ->
  map monthPoint (eachMonthOfInterval start_ end')
  = map (fun k => monthPoint (midnight (firstOfMonth (monthIndex start_ + k))))
        (indices (Z.to_nat (monthIndex end' - monthIndex start_ + 1))).
Proof. intros H. rewrite eachMonthOfInterval_spec by exact H. apply map_map. Qed.

Lemma monthly_matching (timeframe : option string) (dateRange : DateRange)
    (t : Transaction) :
  noTimeframe timeframe = true -> 31 < daysDiff dateRange ->
  start (window dateRange) <= createdAt t <= end_ (window dateRange) ->
  List.length (matching timeframe dateRange t
                 (map monthPoint
                    (eachMonthOfInterval (start (window dateRange))
                                         (end_ (window dateRange)))))
  = 1%nat.
Proof.
  intros Hn Hd Ht. rewrite monthly_points by lia.
  set (s := start (window dateRange)) in *. set (e := end_ (window dateRange)) in *.
  assert (Hkeys :
    map (fun p => monthIndex (timestamp p))
        (map (fun k => monthPoint (midnight (firstOfMonth (monthIndex s + k))))
             (indices (Z.to_nat (monthIndex e - monthIndex s + 1))))
    = map (fun k => monthIndex s + k)
          (indices (Z.to_nat (monthIndex e - monthIndex s + 1)))).
  { rewrite map_map. apply map_ext. intros k. apply monthIndex_first. }
  apply (matching_by_key _ _ monthIndex).
  - intros u p. rewrite isMatch_custom by exact Hn.
    destruct (Z.leb_spec (daysDiff dateRange) 1); [lia | ].
    destruct (Z.leb_spec (daysDiff dateRange) 31); [lia | ].
    apply isSameMonth_index.
  - rewrite Hkeys. apply NoDup_offsets.
  - rewrite Hkeys. apply in_map_iff.
    exists (monthIndex (createdAt t) - monthIndex s). split; [lia | ].
    apply In_indices.
    pose proof (monthIndex_mono _ _ (proj1 Ht)).
    pose proof (monthIndex_mono _ _ (proj2 Ht)). lia.
Qed.

(** A month has at most 31 days. *)
Lemma first_spacing_max (index : Z) :
  midnight (firstOfMonth (index + 1))
  <= midnight (firstOfMonth index) + 31 * msPerDay.
Proof.
  rewrite firstOfMonth_succ.
  assert (Hm : 0 <= index mod 12 <= 11) by zdiv.
  pose proof (daysInMonth_range (index / 12) (index mod 12) Hm) as Hdim.
  unfold midnight, UTC. unfold msPerDay. lia.
Qed.

(** Two instants of the same month are less than 31 days apart. *)
Lemma same_month_close (a b : Z) :
  monthIndex a = monthIndex b -> b - a < 31 * msPerDay.
Proof.
  intros E.
  pose proof (proj2 (first_le (monthIndex a) a) (Z.le_refl _)) as Ha.
  pose proof (first_spacing_max (monthIndex a)) as Hs.
  destruct (Z.lt_ge_cases b (midnight (firstOfMonth (monthIndex a + 1))))
    as [L | G]; [lia | ].
  apply first_le in G. lia.
Qed.

(** *** The buckets of a custom range *)

(** A custom range of more than one and at most 31 days gets one bucket per
    local calendar day it touches, from the day of its start to the day of
    its end: between 2 and 32 buckets. *)
Theorem custom_daily_buckets
    (timeframe : option string) (dateRange : DateRange) (now : Z) :
  noTimeframe timeframe = true ->
  msPerDay < end_ (window dateRange) - start (window dateRange)
    <= 31 * msPerDay ->
  generateTrendDataPoints timeframe dateRange now
  = map (fun k => dayPoint (midnight (localDay (start (window dateRange)) + k)))
        (indices (Z.to_nat (localDay (end_ (window dateRange))
                            - localDay (start (window dateRange)) + 1))) /\
  (2 <= List.length (generateTrendDataPoints timeframe dateRange now) <= 32)%nat.
Proof.
  intros Hn Hd.
  assert (Hdd : 1 < daysDiff dateRange <= 31).
  { pose proof (daysDiff_le dateRange 1). pose proof (daysDiff_le dateRange 31). lia. }
  assert (E : generateTrendDataPoints timeframe dateRange now
              = map (fun k => dayPoint (midnight (localDay (start (window dateRange)) + k)))
                    (indices (Z.to_nat (localDay (end_ (window dateRange))
                                        - localDay (start (window dateRange)) + 1)))).
  { rewrite generate_custom by exact Hn.
    destruct (Z.leb_spec (daysDiff dateRange) 1); [lia | ].
    destruct (Z.leb_spec (daysDiff dateRange) 31); [ | lia].
    apply daily_points. lia. }
  split; [exact E | ].
  rewrite E, length_map, indices_length.
  set (s := start (window dateRange)) in *. set (e := end_ (window dateRange)) in *.
  assert (Hl : 1 <= localDay e - localDay s <= 31).
  { clear E Hdd. unfold localDay, LocalTime, Day. unfold msPerDay in *. zdiv. }
  lia.
Qed.

(** A custom range of more than 31 days gets one bucket per calendar month
    it touches, from the month of its start to the month of its end, each
    at the first midnight of its month: at least 2 buckets. *)
Theorem custom_monthly_buckets
    (timeframe : option string) (dateRange : DateRange) (now : Z) :
  noTimeframe timeframe = true ->
  31 * msPerDay < end_ (window dateRange) - start (window dateRange) ->
  generateTrendDataPoints timeframe dateRange now
  = map (fun k => monthPoint (midnight (firstOfMonth
                    (monthIndex (start (window dateRange)) + k))))
        (indices (Z.to_nat (monthIndex (end_ (window dateRange))
                            - monthIndex (start (window dateRange)) + 1))) /\
  (2 <= List.length (generateTrendDataPoints timeframe dateRange now))%nat.
Proof.
  intros Hn Hd.
  assert (Hdd : 31 < daysDiff dateRange).
  { pose proof (daysDiff_le dateRange 31). lia. }
  assert (Hse : start (window dateRange) <= end_ (window dateRange))
    by (unfold msPerDay in Hd; lia).
  assert (E : generateTrendDataPoints timeframe dateRange now
    = map (fun k => monthPoint (midnight (firstOfMonth
                      (monthIndex (start (window dateRange)) + k))))
          (indices (Z.to_nat (monthIndex (end_ (window dateRange))
                              - monthIndex (start (window dateRange)) + 1)))).
  { rewrite generate_custom by exact Hn.
    destruct (Z.leb_spec (daysDiff dateRange) 1); [lia | ].
    destruct (Z.leb_spec (daysDiff dateRange) 31); [lia | ].
    apply monthly_points. exact Hse. }
  split; [exact E | ].
  rewrite E, length_map, indices_length.
  pose proof (monthIndex_mono _ _ Hse) as Hm.
  destruct (Z.eq_dec (monthIndex (start (window dateRange)))
                     (monthIndex (end_ (window dateRange)))) as [Eq | Ne].
  - pose proof (same_month_close _ _ Eq). lia.
  - lia.
Qed.

(** *** The trend of a custom range *)

Lemma findMany_window (db : list Transaction) (r : Interval) (t : Transaction) :
  In t (findMany db r) -> start r <= createdAt t <= end_ r.
Proof. intros H. apply findMany_In in H. apply H. Qed.

(** Without a timeframe and with a window of more than one day, every
    transaction of the window falls into exactly one daily or monthly
    bucket, and the values of [salesTrend] add up to [totalRevenue]. *)
Theorem custom_trend_adds_up (q : Query) (now : Z) (db : list Transaction) :
  noTimeframe (q_timeframe q) = true ->
  msPerDay < end_ (window (resolveDateRange q now))
             - start (window (resolveDateRange q now)) ->
  sumTrend (salesTrend (analytics q now db))
  = totalRevenue (metrics (analytics q now db)).
Proof.
  intros Hn Hd.
  unfold analytics. cbn [salesTrend metrics totalRevenue].
  set (r := resolveDateRange q now) in *.
  assert (Hdd : 1 < daysDiff r).
  { pose proof (daysDiff_le r 1). lia. }
  rewrite <- (filter_all (findMany db (window r))) at 2.
  apply trend_of_selected; [apply generated_zero | ].
  intros t Ht. apply findMany_window in Ht.
  rewrite generate_custom by exact Hn.
  destruct (Z.leb_spec (daysDiff r) 1); [lia | ].
  destruct (Z.leb_spec (daysDiff r) 31).
  - apply daily_matching; [exact Hn | lia | exact Ht].
  - apply monthly_matching; [exact Hn | lia | exact Ht].
Qed.

(** Without a timeframe and with a window of at most one day, [salesTrend]
    has the 24 entries 0:00 to 23:00, and their buckets lie on the local day
    of the start of the window: with amounts added exactly, the values add
    up to the amounts of the transactions of that day only.  They add up to
    [totalRevenue] when the window ends on the day it starts.  The second
    reading of the clock plays no part. *)
Theorem custom_hourly_trend (q : Query) (now trendNow : Z) (db : list Transaction) :
  noTimeframe (q_timeframe q) = true ->
  end_ (window (resolveDateRange q now))
    - start (window (resolveDateRange q now)) <= msPerDay ->
  map te_name (salesTrend (analyticsAt q now trendNow db)) = hourLabels /\
  sumTrend (salesTrend (analyticsAt q now trendNow db))
  = sumAmounts
      (filter (fun t => localDay (createdAt t)
                        =? localDay (start (window (resolveDateRange q now))))
              (findMany db (window (resolveDateRange q now)))) /\
  (localDay (end_ (window (resolveDateRange q now)))
   = localDay (start (window (resolveDateRange q now))) ->
   sumTrend (salesTrend (analyticsAt q now trendNow db))
   = totalRevenue (metrics (analyticsAt q now trendNow db))).
Proof.
  intros Hn Hd.
  unfold analyticsAt. cbn [salesTrend metrics totalRevenue].
  set (r := resolveDateRange q now) in *.
  assert (Hdd : daysDiff r <= 1).
  { apply daysDiff_le. lia. }
  assert (Hg : generateTrendDataPoints (q_timeframe q) r trendNow
               = hourlyPoints (start (window r))).
  { rewrite generate_custom by exact Hn.
    destruct (Z.leb_spec (daysDiff r) 1); [reflexivity | lia]. }
  rewrite Hg. split; [ | split].
  - rewrite salesTrendOf_fill by apply hourlyPoints_zero.
    rewrite map_map. cbn [te_name]. apply hourlyPoints_names.
  - apply trend_of_selected; [apply hourlyPoints_zero | ].
    intros t _. apply hourly_matching; assumption.
  - intros Hsame. rewrite <- (filter_all (findMany db (window r))) at 2.
    apply trend_of_selected; [apply hourlyPoints_zero | ].
    intros t Ht. apply findMany_window in Ht.
    rewrite hourly_matching by assumption.
    pose proof (localDay_mono _ _ (proj1 Ht)). pose proof (localDay_mono _ _ (proj2 Ht)).
    destruct (Z.eqb_spec (localDay (createdAt t)) (localDay (start (window r))));
      [reflexivity | lia].
Qed.

(* ================================================================== *)
(** ** A range given the wrong way round *)
(* ================================================================== *)

Lemma findMany_reversed (db : list Transaction) (r : Interval) :
  end_ r < start r -> findMany db r = [].
Proof.
  intros H. unfold findMany. induction db as [ | t l IH]; [reflexivity | ].
  cbn [filter]. rewrite IH.
  destruct (Z.leb_spec (start r) (createdAt t));
    destruct (Z.leb_spec (createdAt t) (end_ r)); (reflexivity || lia).
Qed.

(** An explicit range whose end lies before its start is not refused: both
    queries return nothing, so every metric and every change is 0, the two
    breakdowns are empty and every bucket of the trend is 0. *)
Theorem reversed_range_empty_report
    (q : Query) (now startDate endDate : Z) (db : list Transaction) :
  q_start q = Some startDate -> q_end q = Some endDate ->
  endDate < startDate ->
  metrics (analytics q now db)
  = mkMetrics zero 0 zero (mkComparison zero zero zero zero) /\
  topProducts (analytics q now db) = [] /\
  revenueByCategory (analytics q now db) = [] /\
  Forall (fun entry => te_value entry = zero) (salesTrend (analytics q now db)).
Proof.
  intros Es Ee Hlt.
  assert (Hr : resolveDateRange q now
               = mkDateRange (mkInterval startDate endDate)
                   (mkInterval (startDate - (endDate - startDate)) startDate)).
  { unfold resolveDateRange. rewrite Es, Ee. reflexivity. }
  assert (Hw : findMany db (window (resolveDateRange q now)) = []).
  { apply findMany_reversed. rewrite Hr. cbn [window start end_]. exact Hlt. }
  assert (Hp : findMany db (previous (resolveDateRange q now)) = []).
  { apply findMany_reversed. rewrite Hr. cbn [previous start end_]. lia. }
  unfold analytics.
  cbn [metrics topProducts revenueByCategory salesTrend].
  rewrite Hw, Hp.
  change (sumAmounts []) with zero. change (count []) with 0.
  rewrite avgValue_no_orders, !percentChange_previous_zero.
  repeat split.
  unfold fillTrend. cbn [fold_left]. unfold salesTrendOf. rewrite Forall_map.
  eapply Forall_impl; [ | apply generated_zero].
  intros p Hv. cbn [te_value]. rewrite Hv. reflexivity.
Qed.

(* ================================================================== *)
(** ** A timeframe together with an explicit range *)
(* ================================================================== *)

(** Daily buckets over a window, under a predicate that compares local
    days *)
Lemma day_buckets_matching (timeframe : option string) (dateRange : DateRange)
    (label : Z -> string) (t : Transaction) :
  (forall u p, isMatch timeframe dateRange u p = isSameDay u p) ->
  start (window dateRange) <= createdAt t <= end_ (window dateRange) ->
  List.length (matching timeframe dateRange t
                 (map (fun date => mkPoint (label date) date zero)
                      (eachDayOfInterval (start (window dateRange))
                                         (end_ (window dateRange)))))
  = 1%nat.
Proof.
  intros Hm Ht. rewrite eachDayOfInterval_spec by lia.
  set (s := start (window dateRange)) in *. set (e := end_ (window dateRange)) in *.
  assert (Hkeys :
    map (fun p => localDay (timestamp p))
        (map (fun date => mkPoint (label date) date zero)
             (map (fun k => midnight (localDay s + k))
                  (indices (Z.to_nat (localDay e - localDay s + 1)))))
    = map (fun k => localDay s + k)
          (indices (Z.to_nat (localDay e - localDay s + 1)))).
  { rewrite !map_map. apply map_ext. intros k. apply localDay_midnight. }
  apply (matching_by_key _ _ localDay).
  - intros u p. rewrite Hm. apply isSameDay_Day.
  - rewrite Hkeys. apply NoDup_offsets.
  - rewrite Hkeys. apply in_map_iff.
    exists (localDay (createdAt t) - localDay s). split; [lia | ].
    apply In_indices.
    pose proof (localDay_mono _ _ (proj1 Ht)). pose proof (localDay_mono _ _ (proj2 Ht)).
    lia.
Qed.

(** With the timeframe Today or Week the values of [salesTrend] add up to
    [totalRevenue] for every query, also when an explicit range of any
    length replaces the window of the timeframe: Today sums by hour of the
    day over all days of the range, Week has one bucket per day of the
    range. *)
Theorem hour_and_day_trends_add_up (q : Query) (now : Z) (db : list Transaction) :
  q_timeframe q = Some "Today"%string \/ q_timeframe q = Some "Week"%string ->
  sumTrend (salesTrend (analytics q now db))
  = totalRevenue (metrics (analytics q now db)).
Proof.
  intros Htf.
  unfold analytics. cbn [salesTrend metrics totalRevenue].
  set (r := resolveDateRange q now).
  rewrite <- (filter_all (findMany db (window r))) at 2.
  apply trend_of_selected; [apply generated_zero | ].
  intros t Ht. apply findMany_window in Ht.
  destruct Htf as [-> | ->].
  - apply today_matching.
  - rewrite generate_Week. apply day_buckets_matching; [ | exact Ht].
    intros u p. apply isMatch_Week.
Qed.

(** With the timeframe Month the twelve buckets are the months that end
    with the month of the clock as the generator reads it, whatever the
    window: with amounts added exactly, the values of [salesTrend] add up
    to the amounts of those transactions of the window that fall into these
    twelve months. *)
Theorem month_trend_follows_clock
    (q : Query) (now trendNow : Z) (db : list Transaction) :
  q_timeframe q = Some "Month"%string ->
  sumTrend (salesTrend (analyticsAt q now trendNow db))
  = sumAmounts
      (filter (fun t => (monthIndex trendNow - 11 <=? monthIndex (createdAt t))
                        && (monthIndex (createdAt t) <=? monthIndex trendNow))
              (findMany db (window (resolveDateRange q now)))).
Proof.
  intros Htf.
  unfold analyticsAt. cbn [salesTrend]. rewrite Htf.
  set (r := resolveDateRange q now).
  apply trend_of_selected; [apply generated_zero | ].
  intros t _.
  pose proof (month_points_index r trendNow) as Hix.
  assert (Hk : forall u p,
            isMatch (Some "Month"%string) r u p = (monthIndex u =? monthIndex p)).
  { intros u p. rewrite isMatch_Month. apply isSameMonth_index. }
  destruct (Z.leb_spec (monthIndex trendNow - 11) (monthIndex (createdAt t)));
    destruct (Z.leb_spec (monthIndex (createdAt t)) (monthIndex trendNow));
    cbn [andb].
  - apply (matching_by_key _ _ monthIndex Hk).
    + rewrite Hix. apply NoDup_offsets.
    + rewrite Hix. apply in_map_iff.
      exists (monthIndex (createdAt t) - (monthIndex trendNow - 11)).
      split; [lia | apply In_indices; lia].
  - rewrite (matching_none _ _ monthIndex Hk); [reflexivity | ].
    rewrite Hix. intros Hin. apply in_map_iff in Hin.
    destruct Hin as (k & Ek & Hin). apply In_indices in Hin. lia.
  - rewrite (matching_none _ _ monthIndex Hk); [reflexivity | ].
    rewrite Hix. intros Hin. apply in_map_iff in Hin.
    destruct Hin as (k & Ek & Hin). apply In_indices in Hin. lia.
  - rewrite (matching_none _ _ monthIndex Hk); [reflexivity | ].
    rewrite Hix. intros Hin. apply in_map_iff in Hin.
    destruct Hin as (k & Ek & Hin). apply In_indices in Hin. lia.
Qed.

(** With the timeframe Year the buckets are the year of the start of the
    window and the two years after it, as far as the window reaches: with
    amounts added exactly, the values of [salesTrend] add up to the amounts
    of the transactions of these years, and a longer explicit range loses
    its later years.  The second reading of the clock plays no part. *)
Theorem year_trend_first_three_years
    (q : Query) (now trendNow : Z) (db : list Transaction) :
  q_timeframe q = Some "Year"%string ->
  99 < getFullYear (start (window (resolveDateRange q now))) ->
  sumTrend (salesTrend (analyticsAt q now trendNow db))
  = sumAmounts
      (filter (fun t => getFullYear (createdAt t)
                        <=? getFullYear (start (window (resolveDateRange q now))) + 2)
              (findMany db (window (resolveDateRange q now)))).
Proof.
  intros Htf Hy.
  unfold analyticsAt. cbn [salesTrend]. rewrite Htf.
  set (r := resolveDateRange q now) in *.
  apply trend_of_selected; [apply generated_zero | ].
  intros t Ht. apply findMany_window in Ht.
  pose proof (getFullYear_mono _ _ (proj1 Ht)) as Hlo.
  pose proof (getFullYear_mono _ _ (proj2 Ht)) as Hhi.
  unfold matching. rewrite generate_Year. change (indices 3) with [0; 1; 2].
  cbn [flat_map]. cbv zeta.
  set (ys := getFullYear (start (window r))) in *.
  set (ye := getFullYear (end_ (window r))) in *.
  set (yt := getFullYear (createdAt t)) in *.
  assert (K : forall i, 0 <= i ->
            isMatch (Some "Year"%string) r (createdAt t) (newDate (ys + i) 0 1)
            = (yt =? ys + i)).
  { intros i Hi. rewrite isMatch_Year, newDate_jan1 by lia.
    rewrite getFullYear_jan1. reflexivity. }
  destruct (Z.leb_spec (ys + 0) ye); destruct (Z.leb_spec (ys + 1) ye);
    destruct (Z.leb_spec (ys + 2) ye); destruct (Z.leb_spec yt (ys + 2));
    cbn [app filter timestamp]; rewrite ?K by lia;
    destruct (Z.eqb_spec yt (ys + 0)); destruct (Z.eqb_spec yt (ys + 1));
    destruct (Z.eqb_spec yt (ys + 2)); cbn [List.length]; lia.
Qed.

(* ================================================================== *)
(** ** Revenue by category: what the map holds *)
(* ================================================================== *)

















(* ================================================================== *)
(** ** Top products: identity of the entries *)
(* ================================================================== *)





(* ================================================================== *)
(** ** The labels of the named timeframes *)
(* ================================================================== *)

Lemma getDay_midnight (c : Z) : getDay (midnight c) = (c + 4) mod 7.
Proof.
  unfold getDay, WeekDay. fold (localDay (midnight c)).
  rewrite localDay_midnight. reflexivity.
Qed.

Lemma getMonth_index (d : Z) : getMonth d = monthIndex d mod 12.
Proof. pose proof (getMonth_range d). unfold monthIndex. zdiv. Qed.

(** The seven buckets of Week are labelled Sun to Sat; the twelve buckets
    of Month carry the month names in calendar order, from the month after
    the one of the clock round to the month of the clock; the three buckets
    of Year carry the year of the clock and the two years before it. *)
Theorem named_trend_labels (now : Z) :
  map name (generateTrendDataPoints (Some "Week"%string)
              (getDateRange "Week" now) now)
  = ["Sun"; "Mon"; "Tue"; "Wed"; "Thu"; "Fri"; "Sat"]%string /\
  map name (generateTrendDataPoints (Some "Month"%string)
              (getDateRange "Month" now) now)
  = map (fun k => monthAbbrev ((getMonth now + 1 + k) mod 12)) (indices 12) /\
  map name (generateTrendDataPoints (Some "Year"%string)
              (getDateRange "Year" now) now)
  = map toString [getFullYear now - 2; getFullYear now - 1; getFullYear now].
Proof.
  split; [ | split].
  - rewrite generate_Week.
    destruct (bounds_Week now) as [Es Ee]. rewrite Es, Ee, week_days, !map_map.
    cbn [name]. unfold format_EEE.
    rewrite (map_ext_in _ dayAbbrev); [reflexivity | ].
    intros k Hk. apply In_indices in Hk. rewrite getDay_midnight. f_equal.
    unfold getDay, WeekDay. fold (localDay now). zdiv.
  - rewrite generate_Month, map_map. cbn [name]. unfold format_MMM.
    apply map_ext. intros k. f_equal.
    rewrite getMonth_index. unfold subMonths.
    rewrite !addMonths_index, endOfMonth_index.
    pose proof (getMonth_range now). unfold monthIndex. zdiv.
  - rewrite year_points. reflexivity.
Qed.

(* ================================================================== *)
(** ** A period without sales after a period with sales *)
(* ================================================================== *)

Lemma gt_zero (a : Qc) : (0 < a)%Qc -> gt (Fin a) zero = true.
Proof.
  intros H. unfold gt, zero. rewrite (proj1 (Qclt_alt 0 a) H). reflexivity.
Qed.

Lemma Qcdiv_pos (a b : Qc) : (0 < a)%Qc -> (0 < b)%Qc -> (0 < a / b)%Qc.
Proof.
  unfold Qclt, Qcdiv, Qcmult, Qcinv. cbn [this Q2Qc]. intros Ha Hb.
  rewrite !Qred_correct.
  apply Qmult_lt_0_compat; [exact Ha | apply Qinv_lt_0_compat, Hb].
Qed.

Lemma of_Z_pos (z : Z) : 0 < z -> (0 < Q2Qc (inject_Z z))%Qc.
Proof.
  intros H. unfold Qclt. cbn [this Q2Qc]. rewrite !Qred_correct.
  unfold Qlt. cbn [Qnum Qden inject_Z]. lia.
Qed.

(** From a positive value down to nothing is a change of -100 percent. *)
Lemma percentChange_from_zero (P : Qc) :
  (0 < P)%Qc -> percentChange zero (Fin P) = Fin (- hundred)%Qc.
Proof.
  intros H. unfold percentChange. rewrite gt_zero by exact H.
  assert (N : P <> 0%Qc) by (intros ->; exact (Qclt_not_eq _ _ H eq_refl)).
  unfold sub, neg, zero. cbn [add]. unfold div.
  rewrite (proj2 (Qc_is0_false P) N). cbn [mul of_Z]. f_equal.
  fold hundred. field. exact N.
Qed.

(** With amounts added and divided exactly: when the window holds no
    transaction while the amounts of the previous window add up to a
    positive revenue, each of the four changes is -100.  (In binary64 a
    previous revenue that has overflowed to [Infinity] gives [NaN].) *)
Theorem no_sales_after_sales (q : Query) (now trendNow : Z) (db : list Transaction) :
  findMany db (window (resolveDateRange q now)) = [] ->
  (0 < revenueQ (findMany db (previous (resolveDateRange q now))))%Qc ->
  previousPeriodComparison (metrics (analyticsAt q now trendNow db))
  = mkComparison (Fin (- hundred)%Qc) (Fin (- hundred)%Qc)
                 (Fin (- hundred)%Qc) (Fin (- hundred)%Qc).
Proof.
  intros Hw HP. unfold analyticsAt. cbn [metrics previousPeriodComparison].
  rewrite Hw.
  set (prev := findMany db (previous (resolveDateRange q now))) in *.
  change (sumAmounts []) with zero. change (count []) with 0.
  rewrite avgValue_no_orders, sumAmounts_Fin. change (of_Z 0) with zero.
  assert (Hp : 0 < count prev).
  { destruct prev as [ | t l]; [ | unfold count; cbn [List.length]; lia].
    exfalso. exact (Qclt_not_eq _ _ HP eq_refl). }
  pose proof (of_Z_pos _ Hp) as Hq.
  assert (Ea : avgValue (Fin (revenueQ prev)) (count prev)
               = Fin (revenueQ prev / Q2Qc (inject_Z (count prev)))%Qc).
  { unfold avgValue. destruct (Z.ltb_spec 0 (count prev)); [ | lia].
    unfold of_Z, div.
    rewrite (proj2 (Qc_is0_false _)); [reflexivity | ].
    intros E. rewrite E in Hq. exact (Qclt_not_eq _ _ Hq eq_refl). }
  rewrite Ea. unfold of_Z.
  rewrite !percentChange_from_zero;
    [reflexivity | apply Qcdiv_pos; assumption | exact Hq | exact HP].
Qed.

(* ================================================================== *)
(** ** The order of the rows *)
(* ================================================================== *)

(** The queries of [GET] ask for no order.  The metrics and the trend do
    not depend on the order in which the rows come back. *)

Lemma filter_perm {A : Type} (f : A -> bool) (l l' : list A) :
  Permutation l l' -> Permutation (filter f l) (filter f l').
Proof.
  induction 1 as [ | x l l' H IH | x y l | l l' l'' H1 IH1 H2 IH2];
    cbn [filter].
  - constructor.
  - destruct (f x); [constructor | ]; exact IH.
  - destruct (f x); destruct (f y); try reflexivity. apply perm_swap.
  - exact (Permutation_trans IH1 IH2).
Qed.

Lemma revenueQ_perm (l l' : list Transaction) :
  Permutation l l' -> revenueQ l = revenueQ l'.
Proof.
  unfold revenueQ.
  induction 1 as [ | x l l' H IH | x y l | l l' l'' H1 IH1 H2 IH2];
    cbn [map sumQc fold_right].
  - reflexivity.
  - fold (sumQc (map totalAmount l)). fold (sumQc (map totalAmount l')).
    rewrite IH. reflexivity.
  - ring.
  - congruence.
Qed.

Lemma sumAmounts_perm (l l' : list Transaction) :
  Permutation l l' -> sumAmounts l = sumAmounts l'.
Proof. intros H. rewrite !sumAmounts_Fin, (revenueQ_perm _ _ H). reflexivity. Qed.

Lemma count_perm (l l' : list Transaction) :
  Permutation l l' -> count l = count l'.
Proof. intros H. unfold count. rewrite (Permutation_length H). reflexivity. Qed.

(** Two tables with the same rows in a different order give the same
    metrics, the same changes and the same [salesTrend]. *)
Theorem row_order_is_irrelevant (q : Query) (now : Z) (db db' : list Transaction) :
  Permutation db db' ->
  metrics (analytics q now db) = metrics (analytics q now db') /\
  salesTrend (analytics q now db) = salesTrend (analytics q now db').
Proof.
  intros H. unfold analytics. cbn [metrics salesTrend].
  set (r := resolveDateRange q now).
  pose proof (filter_perm (fun t => (start (window r) <=? createdAt t)
                                    && (createdAt t <=? end_ (window r)))
                          _ _ H) as Hw.
  pose proof (filter_perm (fun t => (start (previous r) <=? createdAt t)
                                    && (createdAt t <=? end_ (previous r)))
                          _ _ H) as Hp.
  fold (findMany db (window r)) in Hw. fold (findMany db' (window r)) in Hw.
  fold (findMany db (previous r)) in Hp. fold (findMany db' (previous r)) in Hp.
  rewrite (sumAmounts_perm _ _ Hw), (sumAmounts_perm _ _ Hp).
  rewrite (count_perm _ _ Hw), (count_perm _ _ Hp).
  split; [reflexivity | ].
  rewrite !salesTrendOf_fill by apply generated_zero.
  apply map_ext. intros p. f_equal.
  apply sumAmounts_perm, filter_perm, Hw.
Qed.

(* ================================================================== *)
(** ** Requests without a range *)
(* ================================================================== *)

Lemma resolve_without_range (q : Query) (now : Z) :
  q_start q = None \/ q_end q = None ->
  resolveDateRange q now = getDateRange (timeframeOrToday (q_timeframe q)) now.
Proof.
  intros H. unfold resolveDateRange.
  destruct H as [-> | ->]; [reflexivity | ]. destruct (q_start q); reflexivity.
Qed.

Lemma timeframeOrToday_none (timeframe : option string) :
  noTimeframe timeframe = true -> timeframeOrToday timeframe = "Today"%string.
Proof.
  destruct timeframe as [s | ]; [ | reflexivity].
  cbn [noTimeframe timeframeOrToday]. intros ->. reflexivity.
Qed.

(** A request with neither a timeframe nor a complete range is answered for
    today: the window is the local day of the clock, [salesTrend] has the 24
    entries 0:00 to 23:00, and their values add up to [totalRevenue]. *)
Theorem bare_request_trend (q : Query) (now : Z) (db : list Transaction) :
  noTimeframe (q_timeframe q) = true ->
  q_start q = None \/ q_end q = None ->
  window (resolveDateRange q now) = mkInterval (startOfDay now) (endOfDay now) /\
  map te_name (salesTrend (analytics q now db)) = hourLabels /\
  sumTrend (salesTrend (analytics q now db))
  = totalRevenue (metrics (analytics q now db)).
Proof.
  intros Hn Hq.
  assert (Hr : resolveDateRange q now = getDateRange "Today" now).
  { rewrite resolve_without_range by exact Hq.
    rewrite timeframeOrToday_none by exact Hn. reflexivity. }
  unfold analytics. cbn [salesTrend metrics totalRevenue]. rewrite Hr.
  set (r := getDateRange "Today" now).
  assert (Es : start (window r) = midnight (localDay now))
    by apply startOfDay_eq.
  assert (Ee : end_ (window r) = midnight (localDay now) + (msPerDay - 1))
    by apply endOfDay_eq.
  assert (Hdd : daysDiff r <= 1).
  { apply daysDiff_le. rewrite Es, Ee. lia. }
  assert (Hg : generateTrendDataPoints (q_timeframe q) r now
               = hourlyPoints (start (window r))).
  { rewrite generate_custom by exact Hn.
    destruct (Z.leb_spec (daysDiff r) 1); [reflexivity | lia]. }
  rewrite Hg. split; [reflexivity | split].
  - rewrite salesTrendOf_fill by apply hourlyPoints_zero.
    rewrite map_map. cbn [te_name]. apply hourlyPoints_names.
  - rewrite <- (filter_all (findMany db (window r))) at 2.
    apply trend_of_selected; [apply hourlyPoints_zero | ].
    intros t Ht. apply findMany_window in Ht.
    rewrite hourly_matching by assumption.
    rewrite Es, Ee in Ht. apply day_range in Ht.
    rewrite Es, localDay_midnight.
    destruct (Z.eqb_spec (localDay (createdAt t)) (localDay now));
      [reflexivity | lia].
Qed.

(** A range of which only the start or only the end is given is ignored:
    the report is the one of the same request without either. *)
Theorem half_range_is_ignored
    (timeframe : option string) (qs qe : option Z) (now : Z)
    (db : list Transaction) :
  qs = None \/ qe = None ->
  analytics (mkQuery timeframe qs qe) now db
  = analytics (mkQuery timeframe None None) now db.
Proof.
  intros H. unfold analytics.
  rewrite (resolve_without_range (mkQuery timeframe qs qe) now) by exact H.
  rewrite (resolve_without_range (mkQuery timeframe None None) now)
    by (left; reflexivity).
  reflexivity.
Qed.

(* ================================================================== *)
(** ** The metrics on binary64 amounts *)
(* ================================================================== *)




(* ================================================================== *)
(** ** The two readings of the clock *)
(* ================================================================== *)

(** The generator uses its clock through the month it shows only. *)
Lemma generate_same_month
    (timeframe : option string) (dateRange : DateRange) (a b : Z) :
  monthIndex a = monthIndex b ->
  generateTrendDataPoints timeframe dateRange a
  = generateTrendDataPoints timeframe dateRange b.
Proof.
  intros H.
  assert (E : endOfMonth a = endOfMonth b)
    by (rewrite !endOfMonth_first, H; reflexivity).
  unfold generateTrendDataPoints. rewrite E. reflexivity.
Qed.

Lemma analyticsAt_generator (q : Query) (now trendNow : Z) (db : list Transaction) :
  generateTrendDataPoints (q_timeframe q) (resolveDateRange q now) trendNow
  = generateTrendDataPoints (q_timeframe q) (resolveDateRange q now) now ->
  analyticsAt q now trendNow db = analytics q now db.
Proof. intros H. unfold analyticsAt, analytics. rewrite H. reflexivity. Qed.

(** The second reading of the clock changes the report only for the
    timeframe Month, and only when the month has changed since the first
    reading: otherwise the report is the one computed from a single
    reading. *)
Theorem second_reading_of_the_clock
    (q : Query) (now trendNow : Z) (db : list Transaction) :
  q_timeframe q <> Some "Month"%string \/ monthIndex trendNow = monthIndex now ->
  analyticsAt q now trendNow db = analytics q now db.
Proof.
  intros [H | H]; apply analyticsAt_generator.
  - apply generate_other_clock, H.
  - apply generate_same_month, H.
Qed.

(** For a named timeframe without an explicit range, and with amounts added
    exactly, the values of [salesTrend] add up to [totalRevenue]: every
    transaction of the resolver's window matches exactly one bucket.  For
    the timeframe Month this needs the two readings of the clock to fall
    into the same month. *)
Theorem named_trend_adds_up
    (now trendNow : Z) (timeframe : string) (db : list Transaction) :
  0 <= now ->
  In timeframe namedTimeframes ->
  (timeframe = "Month"%string -> monthIndex trendNow = monthIndex now) ->
  let report := analyticsAt (mkQuery (Some timeframe) None None) now trendNow db in
  sumTrend (salesTrend report) = totalRevenue (metrics report).
Proof.
  intros Hnow Htf Hm report.
  assert (Hr : resolveDateRange (mkQuery (Some timeframe) None None) now
               = getDateRange timeframe now).
  { destruct Htf as [<- | [<- | [<- | [<- | []]]]]; reflexivity. }
  assert (Hg : generateTrendDataPoints (Some timeframe)
                 (getDateRange timeframe now) trendNow
               = generateTrendDataPoints (Some timeframe)
                   (getDateRange timeframe now) now).
  { destruct (String.eqb_spec timeframe "Month") as [E | N].
    - apply generate_same_month, Hm, E.
    - apply generate_other_clock. congruence. }
  unfold report, analyticsAt. cbn [salesTrend metrics totalRevenue q_timeframe].
  rewrite Hr, Hg.
  destruct (fill_zero_total (Some timeframe) (getDateRange timeframe now)
              (findMany db (window (getDateRange timeframe now)))
              (generateTrendDataPoints (Some timeframe)
                 (getDateRange timeframe now) now)) as [F S].
  - apply (buckets_per_timeframe_zero now timeframe Htf).
  - intros t Hin. apply findMany_In in Hin.
    apply named_window_matching; [exact Hnow | exact Htf | apply Hin].
  - rewrite sumTrend_finite by exact F.
    rewrite sumValues_Fin by exact F.
    rewrite S, sumAmounts_Fin. reflexivity.
Qed.

End Local.

(* ================================================================== *)
(** ** The theorems at work, on a server in India Standard Time *)
(* ================================================================== *)

Section Runs.

#[local] Existing Instance ist.


(** Two sales on 29 February 2024, at 09:15 and at 14:30, in the hourly
    buckets of that day *)
Lemma trend_sum_is_revenue_witness :
  let now := 1709208000000 in
  let dateRange := getDateRange "Today" now in
  let transactions :=
    [mkTransaction (Q2Qc 100) (startOfDay now + 33300000) [];
     mkTransaction (Q2Qc 50) (startOfDay now + 52200000) []] in
  let points := generateTrendDataPoints (Some "Today"%string) dateRange now in
  sumValues (fillTrend (Some "Today"%string) dateRange transactions points)
    = sumAmounts transactions /\
  sumTrend (salesTrendOf
              (fillTrend (Some "Today"%string) dateRange transactions points))
    = sumAmounts transactions.
Proof.
  apply trend_sum_is_revenue.
  - vm_compute. repeat constructor.
  - intros t [<- | [<- | []]]; vm_compute; reflexivity.
Defined.

(** C9 fails for the empty string, which is a non-null timeframe other than
    the four names: [!timeframe] holds for it, so the generator takes the
    custom-range branch and returns the 24 hourly buckets of today. *)
Lemma empty_timeframe_has_buckets :
  let q := mkQuery (Some ""%string) None None in
  let now := 1709208000000 in
  ~ In ""%string namedTimeframes /\
  resolveDateRange q now = getDateRange "Today" now /\
  List.length (generateTrendDataPoints (q_timeframe q) (resolveDateRange q now) now)
    = 24%nat /\
  salesTrend (analytics q now []) <> [].
Proof.
  cbv zeta. split; [ | split; [ | split]].
  - unfold namedTimeframes. cbn [In]. intros [H | [H | [H | [H | []]]]]; discriminate.
  - reflexivity.
  - vm_compute. reflexivity.
  - vm_compute. discriminate.
Qed.

(** An unknown timeframe, with one sale today *)
Lemma unknown_timeframe_empty_trend_witness :
  let now := 1709208000000 in
  let db := [mkTransaction (Q2Qc 200) now []] in
  let q := mkQuery (Some "Quarter"%string) None None in
  let today := getDateRange "Today" now in
  let report := analytics q now db in
  resolveDateRange q now = today /\
  generateTrendDataPoints (Some "Quarter"%string) (resolveDateRange q now) now = [] /\
  salesTrend report = [] /\
  totalRevenue (metrics report) = sumAmounts (findMany db (window today)) /\
  totalOrders (metrics report) = count (findMany db (window today)).
Proof.
  apply (unknown_timeframe_empty_trend "Quarter" None None).
  - discriminate.
  - unfold namedTimeframes. cbn [In]. intros [H | [H | [H | [H | []]]]]; discriminate.
  - left. reflexivity.
Defined.

(** The range from 1 January 2024, 00:00, to 10 January 2024, 23:59:59.999,
    local time *)
Lemma custom_ten_days_witness :
  let explicitStart := 1704047400000 in
  let explicitEnd := 1704911399999 in
  let now := 1709208000000 in
  let q := mkQuery None (Some explicitStart) (Some explicitEnd) in
  let points := generateTrendDataPoints (q_timeframe q) (resolveDateRange q now) now in
  List.length points = 10%nat /\
  points = map (fun k => dayPoint (midnight (localDay explicitStart + k))) (indices 10) /\
  (forall t, explicitStart <= t <= explicitEnd ->
     List.length (matching (q_timeframe q) (resolveDateRange q now)
                    (mkTransaction 0%Qc t []) points) = 1%nat).
Proof.
  apply (custom_ten_days 1704047400000 1704911399999 1709208000000).
  - lia.
  - vm_compute. reflexivity.
Defined.

(** The labels of that range *)
Example custom_ten_days_labels :
  map name (generateTrendDataPoints None
              (resolveDateRange
                 (mkQuery None (Some 1704047400000) (Some 1704911399999))
                 1709208000000)
              1709208000000)
  = ["Jan 01"; "Jan 02"; "Jan 03"; "Jan 04"; "Jan 05";
     "Jan 06"; "Jan 07"; "Jan 08"; "Jan 09"; "Jan 10"]%string.
Proof. vm_compute. reflexivity. Qed.

(** C8 fails for a range of exactly ten times 24 hours: the end of an
    interval is included, so the range touches an eleventh calendar day and
    gets 11 daily buckets, not 10.  Here it runs from midnight of 1 January
    2024 to midnight of 11 January. *)
Lemma custom_240_hours :
  let q := mkQuery None (Some 1704047400000) (Some 1704911400000) in
  let points :=
    generateTrendDataPoints (q_timeframe q) (resolveDateRange q 1709208000000)
      1709208000000 in
  1704911400000 - 1704047400000 = 10 * msPerDay /\
  List.length points = 11%nat /\
  List.length points <> 10%nat /\
  firstn 2 (map name points) = ["Jan 01"; "Jan 02"]%string /\
  nth_error (map name points) 10 = Some "Jan 11"%string.
Proof.
  cbv zeta. repeat split; try (vm_compute; reflexivity).
  vm_compute. discriminate.
Qed.

(** The two sales of the scenario, and one a millisecond before the day
    started, which the query leaves out *)
Lemma today_scenario_witness :
  let now := 1709208000000 in
  let db :=
    [mkTransaction (Q2Qc 100) (startOfDay now + 33300000) [];
     mkTransaction (Q2Qc 50) (startOfDay now + 35100000) [];
     mkTransaction (Q2Qc 999) (startOfDay now - 1) []] in
  let q := mkQuery (Some "Today"%string) None None in
  let report := analytics q now db in
  nth_error (salesTrend report) 9 = Some (mkTrendEntry "9:00" (Fin (Q2Qc 150))) /\
  (forall entry, In entry (salesTrend report) ->
     te_name entry = "9:00"%string -> te_value entry = Fin (Q2Qc 150)) /\
  totalRevenue (metrics report) = Fin (Q2Qc 150) /\
  totalOrders (metrics report) = 2 /\
  avgOrderValue (metrics report) = Fin (Q2Qc 75).
Proof.
  apply (today_scenario 1709208000000 _ [] []).
  vm_compute. reflexivity.
Defined.

(** The scenario of the specification: product A sold twice, in two
    transactions. *)
Example product_A_twice :
  productSalesOf
    [mkTransaction (Q2Qc 40) 0 [mkItem "A" "Ring" None 2 (Q2Qc 40)];
     mkTransaction (Q2Qc 20) 1 [mkItem "A" "Ring" None 1 (Q2Qc 20)]]
  = [("A"%string, mkProductSales "Ring" (of_Z 3) (Fin (Q2Qc 60)))].
Proof. vm_compute. reflexivity. Qed.

(** *** Runs of the window facts *)

(** The twelve months before March 2023 to February 2024 end where that
    window starts. *)
Lemma previous_window_adjacent_witness :
  end_ (previous (getDateRange "Month" 1709208000000)) + 1
  = start (window (getDateRange "Month" 1709208000000)).
Proof.
  apply (previous_window_adjacent "Month" 1709208000000). discriminate.
Defined.

(** A sale at the first instant of an explicit range *)
Lemma explicit_start_in_both_windows_witness :
  let t := mkTransaction (Q2Qc 10) 1000 [] in
  let q := mkQuery None (Some 1000) (Some 2000) in
  In t (findMany [t] (window (resolveDateRange q 0))) /\
  In t (findMany [t] (previous (resolveDateRange q 0))).
Proof.
  apply (explicit_start_in_both_windows
           [mkTransaction (Q2Qc 10) 1000 []]
           (mkQuery None (Some 1000) (Some 2000)) 0 1000 2000
           (mkTransaction (Q2Qc 10) 1000 [])).
  - reflexivity.
  - reflexivity.
  - lia.
  - left. reflexivity.
  - reflexivity.
Defined.

(** *** Runs of the custom ranges *)

(** Five days from the epoch *)
Lemma custom_daily_buckets_witness :
  let dateRange := mkDateRange (mkInterval 0 432000000) (mkInterval 0 0) in
  generateTrendDataPoints None dateRange 0
  = map (fun k => dayPoint (midnight (localDay (start (window dateRange)) + k)))
        (indices (Z.to_nat (localDay (end_ (window dateRange))
                            - localDay (start (window dateRange)) + 1))) /\
  (2 <= List.length (generateTrendDataPoints None dateRange 0) <= 32)%nat.
Proof.
  apply (custom_daily_buckets None
           (mkDateRange (mkInterval 0 432000000) (mkInterval 0 0)) 0).
  - reflexivity.
  - cbn [window start end_]. unfold msPerDay. lia.
Defined.

(** A hundred days from the epoch *)
Lemma custom_monthly_buckets_witness :
  let dateRange := mkDateRange (mkInterval 0 8640000000) (mkInterval 0 0) in
  generateTrendDataPoints None dateRange 0
  = map (fun k => monthPoint (midnight (firstOfMonth
                    (monthIndex (start (window dateRange)) + k))))
        (indices (Z.to_nat (monthIndex (end_ (window dateRange))
                            - monthIndex (start (window dateRange)) + 1))) /\
  (2 <= List.length (generateTrendDataPoints None dateRange 0))%nat.
Proof.
  apply (custom_monthly_buckets None
           (mkDateRange (mkInterval 0 8640000000) (mkInterval 0 0)) 0).
  - reflexivity.
  - cbn [window start end_]. unfold msPerDay. lia.
Defined.

(** Three days with two sales *)
Lemma custom_trend_adds_up_witness :
  let q := mkQuery None (Some 0) (Some 259200000) in
  let db := [mkTransaction (Q2Qc 10) 1000 [];
             mkTransaction (Q2Qc 20) 200000000 []] in
  sumTrend (salesTrend (analytics q 0 db))
  = totalRevenue (metrics (analytics q 0 db)).
Proof.
  apply (custom_trend_adds_up (mkQuery None (Some 0) (Some 259200000)) 0).
  - reflexivity.
  - cbn [resolveDateRange q_start q_end window start end_]. unfold msPerDay. lia.
Defined.

(** Twenty-four hours from 05:30 local time, with a sale on each of the two
    days the range touches *)
Lemma custom_hourly_trend_witness :
  let q := mkQuery None (Some 0) (Some 86400000) in
  let db := [mkTransaction (Q2Qc 10) 1000 [];
             mkTransaction (Q2Qc 20) 80000000 []] in
  map te_name (salesTrend (analyticsAt q 0 250 db)) = hourLabels /\
  sumTrend (salesTrend (analyticsAt q 0 250 db))
  = sumAmounts
      (filter (fun t => localDay (createdAt t)
                        =? localDay (start (window (resolveDateRange q 0))))
              (findMany db (window (resolveDateRange q 0)))) /\
  (localDay (end_ (window (resolveDateRange q 0)))
   = localDay (start (window (resolveDateRange q 0))) ->
   sumTrend (salesTrend (analyticsAt q 0 250 db))
   = totalRevenue (metrics (analyticsAt q 0 250 db))).
Proof.
  apply (custom_hourly_trend (mkQuery None (Some 0) (Some 86400000)) 0 250).
  - reflexivity.
  - cbn [resolveDateRange q_start q_end window start end_]. unfold msPerDay. lia.
Defined.

(** Start and end swapped *)
Lemma reversed_range_empty_report_witness :
  let q := mkQuery None (Some 10) (Some 5) in
  let db := [mkTransaction (Q2Qc 10) 7 []] in
  metrics (analytics q 0 db)
  = mkMetrics zero 0 zero (mkComparison zero zero zero zero) /\
  topProducts (analytics q 0 db) = [] /\
  revenueByCategory (analytics q 0 db) = [] /\
  Forall (fun entry => te_value entry = zero) (salesTrend (analytics q 0 db)).
Proof.
  apply (reversed_range_empty_report (mkQuery None (Some 10) (Some 5)) 0 10 5).
  - reflexivity.
  - reflexivity.
  - lia.
Defined.

(** *** Runs of a timeframe with an explicit range *)

(** The timeframe Week over twenty days *)
Lemma hour_and_day_trends_add_up_witness :
  let q := mkQuery (Some "Week"%string) (Some 0) (Some 1728000000) in
  let db := [mkTransaction (Q2Qc 10) 1000 [];
             mkTransaction (Q2Qc 20) 1000000000 []] in
  sumTrend (salesTrend (analytics q 0 db))
  = totalRevenue (metrics (analytics q 0 db)).
Proof.
  apply (hour_and_day_trends_add_up
           (mkQuery (Some "Week"%string) (Some 0) (Some 1728000000)) 0).
  right. reflexivity.
Defined.

(** The timeframe Month with a range of 1970, the clock in 2024 *)
Lemma month_trend_follows_clock_witness :
  let q := mkQuery (Some "Month"%string) (Some 0) (Some 1728000000) in
  let now := 1709208000000 in
  let trendNow := 1709208000250 in
  let db := [mkTransaction (Q2Qc 10) 1000 []] in
  sumTrend (salesTrend (analyticsAt q now trendNow db))
  = sumAmounts
      (filter (fun t => (monthIndex trendNow - 11 <=? monthIndex (createdAt t))
                        && (monthIndex (createdAt t) <=? monthIndex trendNow))
              (findMany db (window (resolveDateRange q now)))).
Proof.
  apply (month_trend_follows_clock
           (mkQuery (Some "Month"%string) (Some 0) (Some 1728000000))
           1709208000000 1709208000250).
  reflexivity.
Defined.

(** The timeframe Year on 29 February 2024 *)
Lemma year_trend_first_three_years_witness :
  let q := mkQuery (Some "Year"%string) None None in
  let now := 1709208000000 in
  let trendNow := 1709208000250 in
  let db := [mkTransaction (Q2Qc 10) 1700000000000 []] in
  sumTrend (salesTrend (analyticsAt q now trendNow db))
  = sumAmounts
      (filter (fun t => getFullYear (createdAt t)
                        <=? getFullYear (start (window (resolveDateRange q now))) + 2)
              (findMany db (window (resolveDateRange q now)))).
Proof.
  apply (year_trend_first_three_years
           (mkQuery (Some "Year"%string) None None)
           1709208000000 1709208000250).
  - reflexivity.
  - vm_compute. reflexivity.
Defined.

(** *** A run of the category breakdown *)


(** *** A run of the changes *)

(** A sale of 10 in the previous window, none in the current one *)
Lemma no_sales_after_sales_witness :
  let q := mkQuery None (Some 100) (Some 200) in
  let db := [mkTransaction (Q2Qc 10) 50 []] in
  previousPeriodComparison (metrics (analyticsAt q 0 250 db))
  = mkComparison (Fin (- hundred)%Qc) (Fin (- hundred)%Qc)
                 (Fin (- hundred)%Qc) (Fin (- hundred)%Qc).
Proof.
  apply (no_sales_after_sales (mkQuery None (Some 100) (Some 200)) 0 250
           [mkTransaction (Q2Qc 10) 50 []]).
  - reflexivity.
  - apply Qclt_alt. vm_compute. reflexivity.
Defined.

(** *** A run of the row order *)

Lemma row_order_is_irrelevant_witness :
  let q := mkQuery (Some "Today"%string) None None in
  let a := mkTransaction (Q2Qc 10) 1000 [] in
  let b := mkTransaction (Q2Qc 20) 2000 [] in
  metrics (analytics q 0 [a; b]) = metrics (analytics q 0 [b; a]) /\
  salesTrend (analytics q 0 [a; b]) = salesTrend (analytics q 0 [b; a]).
Proof.
  apply (row_order_is_irrelevant (mkQuery (Some "Today"%string) None None) 0).
  apply perm_swap.
Defined.

(** *** Runs of the requests without a range *)

Lemma bare_request_trend_witness :
  let q := mkQuery None None None in
  let now := 1709208000000 in
  let db := [mkTransaction (Q2Qc 10) 1709208000000 []] in
  window (resolveDateRange q now) = mkInterval (startOfDay now) (endOfDay now) /\
  map te_name (salesTrend (analytics q now db)) = hourLabels /\
  sumTrend (salesTrend (analytics q now db))
  = totalRevenue (metrics (analytics q now db)).
Proof.
  apply (bare_request_trend (mkQuery None None None) 1709208000000).
  - reflexivity.
  - left. reflexivity.
Defined.

Lemma half_range_is_ignored_witness :
  let db := [mkTransaction (Q2Qc 10) 5 []] in
  analytics (mkQuery (Some "Week"%string) (Some 0) None) 1709208000000 db
  = analytics (mkQuery (Some "Week"%string) None None) 1709208000000 db.
Proof.
  apply (half_range_is_ignored (Some "Week"%string) (Some 0) None 1709208000000).
  right. reflexivity.
Defined.

(** *** Runs with two readings of the clock *)

(** The timeframe Month on 29 February 2024, with three sales: in March
    2023, at the clock, and one in February 2023, before the window *)
Lemma named_trend_adds_up_witness :
  let now := 1709208000000 in
  let trendNow := 1709208000250 in
  let db :=
    [mkTransaction (Q2Qc 100) 1678000000000 [];
     mkTransaction (Q2Qc 50) now [];
     mkTransaction (Q2Qc 999) 1676000000000 []] in
  let report := analyticsAt (mkQuery (Some "Month"%string) None None) now trendNow db in
  sumTrend (salesTrend report) = totalRevenue (metrics report).
Proof.
  apply (named_trend_adds_up 1709208000000 1709208000250 "Month").
  - lia.
  - unfold namedTimeframes. cbn [In]. auto.
  - intros _. vm_compute. reflexivity.
Defined.

(** A request for the week, the clock read twice *)
Lemma second_reading_of_the_clock_witness :
  let q := mkQuery (Some "Week"%string) None None in
  let db := [mkTransaction (Q2Qc 10) 1709208000000 []] in
  analyticsAt q 1709208000000 1709208000250 db = analytics q 1709208000000 db.
Proof.
  apply (second_reading_of_the_clock
           (mkQuery (Some "Week"%string) None None) 1709208000000 1709208000250).
  left. discriminate.
Defined.

(** *** Where the claims as first stated fail *)


End Runs.

(* ================================================================== *)
(** ** Runs on binary64 amounts *)
(* ================================================================== *)

Section Runs64.

#[local] Existing Instance ist.
Import PrimFloat.

(** A decimal such as 0.1 stands for the binary64 value nearest to it, as it
    does in the source. *)
#[local] Set Warnings "-inexact-float".

(** C2 fails on ordinary amounts.  Three sales on 29 February 2024: 0.1 in
    the first hour of the day, 0.2 and 0.3 in the second.  Every sale
    matches exactly one of the 24 hourly buckets, which start at 0.  The
    buckets hold 0.1 and 0.2 + 0.3 = 0.5 and add up to 0.6, while
    [totalRevenue] is (0.1 + 0.2) + 0.3 = 0.6000000000000001. *)
Lemma rounded_bucket_sum_differs :
  let now := 1709208000000 in
  let dateRange := getDateRange "Today" now in
  let points :=
    Route64.trendPointsOf
      (generateTrendDataPoints (Some "Today"%string) dateRange now) in
  let transactions :=
    [Route64.mkTransaction 0.1%float (startOfDay now + 1000);
     Route64.mkTransaction 0.2%float (startOfDay now + 3601000);
     Route64.mkTransaction 0.3%float (startOfDay now + 3602000)] in
  let filled :=
    Route64.fillTrend (Some "Today"%string) dateRange transactions points in
  Forall (fun p => Route64.value p = Binary64.zero) points /\
  (forall t, In t transactions ->
     List.length (matching64 (Some "Today"%string) dateRange t points) = 1%nat) /\
  sumValues64 filled = 0.6%float /\
  sumTrend64 (Route64.salesTrendOf filled) = 0.6%float /\
  Route64.sumAmounts transactions = 0.6000000000000001%float /\
  Binary64.same (sumValues64 filled) (Route64.sumAmounts transactions) = false /\
  sumValues64 filled <> Route64.sumAmounts transactions.
Proof.
  cbv zeta.
  assert (Hs : sumValues64
                 (Route64.fillTrend (Some "Today"%string)
                    (getDateRange "Today" 1709208000000)
                    [Route64.mkTransaction 0.1%float (startOfDay 1709208000000 + 1000);
                     Route64.mkTransaction 0.2%float (startOfDay 1709208000000 + 3601000);
                     Route64.mkTransaction 0.3%float (startOfDay 1709208000000 + 3602000)]
                    (Route64.trendPointsOf
                       (generateTrendDataPoints (Some "Today"%string)
                          (getDateRange "Today" 1709208000000) 1709208000000)))
               = 0.6%float) by (vm_compute; reflexivity).
  split; [ | split; [ | split; [ | split; [ | split; [ | split]]]]].
  - unfold Route64.trendPointsOf. rewrite Forall_map.
    apply Forall_forall. intros p _. reflexivity.
  - intros t [<- | [<- | [<- | []]]]; vm_compute; reflexivity.
  - exact Hs.
  - vm_compute. reflexivity.
  - vm_compute. reflexivity.
  - vm_compute. reflexivity.
  - rewrite Hs. intros H.
    apply (f_equal (fun x => Binary64.same 0.6%float x)) in H.
    vm_compute in H. discriminate.
Qed.


End Runs64.
